(** * Property search and engagement analytics: a shallow embedding

    The development follows the JavaScript sources of the real-estate
    backend: the [PropertyView] model (view recording, engagement score,
    trending aggregation), the property and search services, the
    aggregation pipelines and the express-validator chains.

    Conventions.
    - A JavaScript [Number] is a rational ([Q]); every arithmetic
      operation rounds its exact result with [fl], the rounding of the
      number format, about which only three laws are used (class
      [Rounding]).  Exact arithmetic is one instance.
    - A [Date] is its number of milliseconds since the epoch ([Z]).
    - A MongoDB collection is the list of its documents in natural
      order; an [ObjectId] is a natural number.
    - An [async] function that reads and writes collections is a function
      from the database to its result (a value, or the message of a thrown
      error), the database it leaves, and the store calls it made.
    - What the database engine decides (regular expressions, the text
      index) and [JSON.parse] are parameters. *)

From Stdlib Require Import ZArith QArith Qminmax Qround Bool List String Ascii Lia.
From Stdlib Require Import Sorted Permutation.
From Stdlib Require Import Lqa.
Import ListNotations.
Open Scope string_scope.
Open Scope list_scope.
Open Scope Q_scope.

Set Implicit Arguments.

(** ** JavaScript numbers *)

Class Rounding : Type := {
  fl : Q -> Q;
  fl_mono : forall x y : Q, x <= y -> fl x <= fl y;
  fl_idem : forall x : Q, fl (fl x) == fl x;
  fl_int : forall n : Z, (Z.abs n <= 2 ^ 53)%Z -> fl (inject_Z n) == inject_Z n
}.

(** Exact arithmetic: nothing is rounded. *)
#[refine] Instance exact_rounding : Rounding := {| fl := fun x => x |}.
Proof.
  - intros x y Hxy. exact Hxy.
  - intros x. reflexivity.
  - intros n _. reflexivity.
Defined.

(** Fixed-point arithmetic with 20 fractional bits, rounding to nearest:
    an instance that does round. *)
Definition grid : Q := inject_Z (2 ^ 20).

Definition fl_grid (x : Q) : Q := inject_Z (Qfloor (x * grid + (1 # 2))) / grid.

Module JS.
Section Number.
Context {R : Rounding}.

Definition add (x y : Q) : Q := fl (x + y).
Definition mul (x y : Q) : Q := fl (x * y).
Definition div (x y : Q) : Q := fl (x / y).

(** A decimal literal of the program text, such as [0.7]. *)
Definition lit (x : Q) : Q := fl x.

(** [x > y], [x < y], [x >= y], [x <= y] on numbers. *)
Definition gt (x y : Q) : bool := negb (Qle_bool x y).
Definition lt (x y : Q) : bool := negb (Qle_bool y x).
Definition ge (x y : Q) : bool := Qle_bool y x.
Definition le (x y : Q) : bool := Qle_bool x y.
End Number.

(** [Math.min] and [Math.round]: the latter is the nearest integer, a tie
    going up. *)
Definition Math_min (x y : Q) : Q := Qmin x y.
Definition Math_round (x : Q) : Z := Qfloor (x + (1 # 2)).

(** Truthiness of an optional string: [undefined] and the empty string
    are falsy. *)
Definition truthy (s : option string) : bool :=
  match s with
  | Some EmptyString => false
  | Some _ => true
  | None => false
  end.
End JS.

(** ** Documents *)

Definition ObjectId := nat.
Definition Date := Z.
Bind Scope nat_scope with ObjectId.
Bind Scope Z_scope with Date.

Inductive Source : Type :=
| direct | search | featured | trending | similar
| profile | favorites | notification | external | other.

Record Interactions : Type := mkInteractions {
  imageViews : Q;
  imageGalleryOpened : bool;
  mapViewed : bool;
  contactClicked : bool;
  phoneRevealed : bool;
  whatsappClicked : bool;
  shareClicked : bool;
  favorited : bool;
  inquirySent : bool
}.

(** The [device] and [location] sub-documents are never read by the code
    modelled here and are kept as opaque text.  The schema trims
    [sessionId] and [ipAddress]; they are taken as trimmed already. *)
Record PropertyView : Type := mkPropertyView {
  _id : ObjectId;
  property : ObjectId;
  viewer : option ObjectId;
  sessionId : string;
  ipAddress : string;
  userAgent : option string;
  device : option string;
  location : option string;
  referrer : option string;
  source : Source;
  searchQuery : option string;
  viewDuration : Q;
  scrollDepth : Q;
  interactions : Interactions;
  bounced : bool;
  isUnique : bool;
  viewedAt : Date;
  exitedAt : option Date
}.

(** Schema defaults of [interactions]. *)
Definition noInteractions : Interactions :=
  mkInteractions 0 false false false false false false false false.

(** The ranges the schema declares: [viewDuration] has [min: 0],
    [scrollDepth] has [min: 0, max: 100]. *)
Definition schemaValid (v : PropertyView) : Prop :=
  0 <= viewDuration v /\ 0 <= scrollDepth v /\ scrollDepth v <= 100.

(** Assignments to one path of a view. *)
Definition withInteractions (i : Interactions) (v : PropertyView) : PropertyView :=
  mkPropertyView (_id v) (property v) (viewer v) (sessionId v) (ipAddress v)
    (userAgent v) (device v) (location v) (referrer v) (source v) (searchQuery v)
    (viewDuration v) (scrollDepth v) i (bounced v) (isUnique v) (viewedAt v)
    (exitedAt v).

Definition withViewDuration (duration : Q) (v : PropertyView) : PropertyView :=
  mkPropertyView (_id v) (property v) (viewer v) (sessionId v) (ipAddress v)
    (userAgent v) (device v) (location v) (referrer v) (source v) (searchQuery v)
    duration (scrollDepth v) (interactions v) (bounced v) (isUnique v) (viewedAt v)
    (exitedAt v).

Definition withScrollDepth (depth : Q) (v : PropertyView) : PropertyView :=
  mkPropertyView (_id v) (property v) (viewer v) (sessionId v) (ipAddress v)
    (userAgent v) (device v) (location v) (referrer v) (source v) (searchQuery v)
    (viewDuration v) depth (interactions v) (bounced v) (isUnique v) (viewedAt v)
    (exitedAt v).

Definition withExitedAt (t : Date) (v : PropertyView) : PropertyView :=
  mkPropertyView (_id v) (property v) (viewer v) (sessionId v) (ipAddress v)
    (userAgent v) (device v) (location v) (referrer v) (source v) (searchQuery v)
    (viewDuration v) (scrollDepth v) (interactions v) (bounced v) (isUnique v)
    (viewedAt v) (Some t).

Definition withBounced (b : bool) (v : PropertyView) : PropertyView :=
  mkPropertyView (_id v) (property v) (viewer v) (sessionId v) (ipAddress v)
    (userAgent v) (device v) (location v) (referrer v) (source v) (searchQuery v)
    (viewDuration v) (scrollDepth v) (interactions v) b (isUnique v) (viewedAt v)
    (exitedAt v).

Section Engagement.
Context {R : Rounding}.

(** The [engagementScore] virtual. *)
Definition engagementScore (this : PropertyView) : Z :=
  let score := 0 in
  let score :=
    if JS.gt (viewDuration this) 0
    then JS.add score (JS.Math_min 30 (JS.mul (JS.div (viewDuration this) 300) 30))
    else score in
  let score := JS.add score (JS.mul (JS.div (scrollDepth this) 100) 20) in
  let interactions := interactions this in
  let score := if imageGalleryOpened interactions then JS.add score 5 else score in
  let score := if mapViewed interactions then JS.add score 5 else score in
  let score := if contactClicked interactions then JS.add score 10 else score in
  let score := if phoneRevealed interactions then JS.add score 8 else score in
  let score := if whatsappClicked interactions then JS.add score 7 else score in
  let score := if favorited interactions then JS.add score 10 else score in
  let score := if inquirySent interactions then JS.add score 15 else score in
  Z.min 100 (JS.Math_round score).

(** The [isHighIntent] virtual. *)
Definition isHighIntent (this : PropertyView) : bool :=
  (60 <=? engagementScore this)%Z
  || inquirySent (interactions this)
  || phoneRevealed (interactions this).

(** The [pre("save")] middleware: it sets [bounced], and only ever to
    [true]. *)
Definition preSave (this : PropertyView) : PropertyView :=
  if JS.lt (viewDuration this) 10 && (engagementScore this <? 10)%Z
  then withBounced true this
  else this.

(** The same score, cut along its three parts: the points of the
    duration, the running sum after the scroll depth, and one
    conditional addition per interaction flag. *)
Definition durationPoints (duration : Q) : Q :=
  if JS.gt duration 0
  then JS.add 0 (JS.Math_min 30 (JS.mul (JS.div duration 300) 30))
  else 0.

Definition bonus (flag : bool) (points score : Q) : Q :=
  if flag then JS.add score points else score.

Definition rawScore (duration depth : Q) (i : Interactions) : Q :=
  bonus (inquirySent i) 15
    (bonus (favorited i) 10
       (bonus (whatsappClicked i) 7
          (bonus (phoneRevealed i) 8
             (bonus (contactClicked i) 10
                (bonus (mapViewed i) 5
                   (bonus (imageGalleryOpened i) 5
                      (JS.add (durationPoints duration)
                         (JS.mul (JS.div depth 100) 20)))))))).
End Engagement.

(** Flag by flag, [i'] has every interaction that [i] has. *)
Definition flagsLe (i i' : Interactions) : Prop :=
  (imageGalleryOpened i = true -> imageGalleryOpened i' = true) /\
  (mapViewed i = true -> mapViewed i' = true) /\
  (contactClicked i = true -> contactClicked i' = true) /\
  (phoneRevealed i = true -> phoneRevealed i' = true) /\
  (whatsappClicked i = true -> whatsappClicked i' = true) /\
  (favorited i = true -> favorited i' = true) /\
  (inquirySent i = true -> inquirySent i' = true).

(** ** JavaScript objects and MongoDB queries *)

(** An object whose keys are strings, in insertion order.  Assigning to a
    key that is present replaces its value; an object literal assigns its
    properties from left to right, so of two properties with one key the
    later one stays. *)
Module Obj.
Definition t (A : Type) : Type := list (string * A).

Fixpoint get {A} (k : string) (o : t A) : option A :=
  match o with
  | [] => None
  | (k', a) :: o' => if String.eqb k k' then Some a else get k o'
  end.

Fixpoint set {A} (k : string) (a : A) (o : t A) : t A :=
  match o with
  | [] => [(k, a)]
  | (k', a') :: o' =>
      if String.eqb k k' then (k', a) :: o' else (k', a') :: set k a o'
  end.

Definition literal {A} (props : list (string * A)) : t A :=
  fold_left (fun o p => set (fst p) (snd p) o) props [].
End Obj.

(** The values of document fields. *)
Inductive Value : Type :=
| VUndefined
| VNull
| VBool (b : bool)
| VNum (q : Q)
| VStr (s : string)
| VId (i : ObjectId)
| VDate (d : Date)
| VArr (l : list string)
| VNaN.

Definition valueEq (field arg : Value) : bool :=
  match arg, field with
  | VNull, VNull | VNull, VUndefined => true
  | VBool a, VBool b => Bool.eqb a b
  | VNum a, VNum b => Qeq_bool a b
  | VStr a, VStr b => String.eqb a b
  | VStr a, VArr l => existsb (String.eqb a) l
  | VId a, VId b => Nat.eqb a b
  | VDate a, VDate b => Z.eqb a b
  | _, _ => false
  end.

(** Order between two values of one type; values of different types are
    not compared by the range operators. *)
Definition valueCompare (a b : Value) : option comparison :=
  match a, b with
  | VNum x, VNum y => Some (x ?= y)
  | VDate x, VDate y => Some (x ?= y)%Z
  | VId x, VId y => Some (x ?= y)%nat
  | VBool x, VBool y => Some (Nat.compare (Nat.b2n x) (Nat.b2n y))
  | _, _ => None
  end.

(** One query operator applied to a field: [{ $gte: arg }] and the like. *)
Definition opHolds (op : string) (arg field : Value) : bool :=
  if String.eqb op "$ne" then negb (valueEq field arg)
  else if String.eqb op "$eq" then valueEq field arg
  else match valueCompare field arg with
       | Some c =>
           if String.eqb op "$gte" then match c with Lt => false | _ => true end
           else if String.eqb op "$lte" then match c with Gt => false | _ => true end
           else if String.eqb op "$gt" then match c with Gt => true | _ => false end
           else if String.eqb op "$lt" then match c with Lt => true | _ => false end
           else false
       | None => false
       end.

(** What a query document says about one key. *)
#[warnings="-register-all"]
Inductive Clause : Type :=
| CEq (v : Value)                         (* field: v *)
| COps (ops : Obj.t Value)                (* field: { $op: v, ... } *)
| CRegex (pattern : string)               (* field: new RegExp(pattern, "i") *)
| CAll (items : list string)              (* field: { $all: items } *)
| CText (q : string)                      (* $text: { $search: q } *)
| COr (alternatives : list (list (string * Clause))).   (* $or: [...] *)

Definition Query : Type := Obj.t Clause.

(** What the database engine contributes for one document: its fields, the
    regular-expression engine and the text index. *)
Record Doc : Type := mkDoc {
  field : string -> Value;
  regexTest : string -> string -> bool;
  textMatch : string -> bool
}.

Fixpoint clauseHolds (d : Doc) (key : string) (c : Clause) : bool :=
  match c with
  | CEq v => valueEq (field d key) v
  | COps ops => forallb (fun op => opHolds (fst op) (snd op) (field d key)) ops
  | CRegex pattern =>
      match field d key with
      | VStr s => regexTest d pattern s
      | _ => false
      end
  | CAll items =>
      match field d key with
      | VArr l => forallb (fun x => existsb (String.eqb x) l) items
      | _ => false
      end
  | CText q => textMatch d q
  | COr alternatives =>
      existsb
        (fun q => forallb (fun kc => match kc with (k, c') => clauseHolds d k c' end) q)
        alternatives
  end.

Definition matches (d : Doc) (q : Query) : bool :=
  forallb (fun kc => clauseHolds d (fst kc) (snd kc)) q.

(** *** Sorting *)

Inductive Direction : Type :=
| Ascending            (* 1 *)
| Descending           (* -1 *)
| MetaTextScore.       (* { $meta: "textScore" } *)

Definition SortSpec : Type := Obj.t Direction.

Section Sort.
Variable A : Type.
Variable leb : A -> A -> bool.

(** MongoDB promises no order between documents with equal sort keys;
    here they keep the order of the collection (insertion from the left
    keeps equal keys in their input order). *)
Fixpoint insert (x : A) (l : list A) : list A :=
  match l with
  | [] => [x]
  | y :: l' => if leb x y then x :: l else y :: insert x l'
  end.

Definition sortBy (l : list A) : list A := fold_right insert [] l.
End Sort.

(** Lexicographic comparison of two documents along a sort
    specification; [key d k] is the sort key of [d] under [k]. *)
Fixpoint compareBy {A} (key : A -> string -> Direction -> Value)
    (spec : SortSpec) (a b : A) : comparison :=
  match spec with
  | [] => Eq
  | (k, dir) :: spec' =>
      let c := match valueCompare (key a k dir) (key b k dir) with
               | Some c => c
               | None => Eq
               end in
      match match dir with Ascending => c | _ => CompOpp c end with
      | Eq => compareBy key spec' a b
      | c' => c'
      end
  end.

Definition sortDocs {A} (key : A -> string -> Direction -> Value)
    (spec : SortSpec) (l : list A) : list A :=
  sortBy (fun a b => match compareBy key spec a b with Gt => false | _ => true end) l.

(** ** Collections *)

(** The code reads these fields of a [Property] document (the listing). *)
Module Property.
Record t : Type := mk {
  _id : ObjectId;
  title : string;
  type : string;
  price : Q;
  area : Q;
  bedrooms : Q;
  bathrooms : Q;
  city : string;
  location : string;
  amenities : list string;
  facing : option string;          (* features.facing *)
  furnishing : option string;      (* features.furnishing *)
  parking : Q;                     (* features.parking *)
  isFeatured : bool;
  isVerified : bool;
  isActive : bool;
  status : string;
  viewCount : Z;
  uniqueViews : Z;
  seller : ObjectId;
  createdAt : Date
}.

Definition optStr (s : option string) : Value :=
  match s with Some x => VStr x | None => VUndefined end.

Definition field (p : t) (k : string) : Value :=
  if String.eqb k "_id" then VId (_id p)
  else if String.eqb k "title" then VStr (title p)
  else if String.eqb k "type" then VStr (type p)
  else if String.eqb k "price" then VNum (price p)
  else if String.eqb k "area" then VNum (area p)
  else if String.eqb k "bedrooms" then VNum (bedrooms p)
  else if String.eqb k "bathrooms" then VNum (bathrooms p)
  else if String.eqb k "city" then VStr (city p)
  else if String.eqb k "location" then VStr (location p)
  else if String.eqb k "amenities" then VArr (amenities p)
  else if String.eqb k "features.facing" then optStr (facing p)
  else if String.eqb k "features.furnishing" then optStr (furnishing p)
  else if String.eqb k "features.parking" then VNum (parking p)
  else if String.eqb k "isFeatured" then VBool (isFeatured p)
  else if String.eqb k "isVerified" then VBool (isVerified p)
  else if String.eqb k "isActive" then VBool (isActive p)
  else if String.eqb k "status" then VStr (status p)
  else if String.eqb k "viewCount" then VNum (inject_Z (viewCount p))
  else if String.eqb k "uniqueViews" then VNum (inject_Z (uniqueViews p))
  else if String.eqb k "seller" then VId (seller p)
  else if String.eqb k "createdAt" then VDate (createdAt p)
  else VUndefined.

(** [$inc] of the two view counters. *)
Definition inc (dViewCount dUniqueViews : Z) (p : t) : t :=
  mk (_id p) (title p) (type p) (price p) (area p) (bedrooms p) (bathrooms p)
     (city p) (location p) (amenities p) (facing p) (furnishing p) (parking p)
     (isFeatured p) (isVerified p) (isActive p) (status p)
     (viewCount p + dViewCount) (uniqueViews p + dUniqueViews)
     (seller p) (createdAt p).
End Property.

Record User : Type := mkUser {
  userId : ObjectId;
  name : string
}.

(** The fields of a [PropertyView] document the queries name. *)
Definition viewField (v : PropertyView) (k : string) : Value :=
  if String.eqb k "_id" then VId (_id v)
  else if String.eqb k "property" then VId (property v)
  else if String.eqb k "viewer" then
    match viewer v with Some u => VId u | None => VNull end
  else if String.eqb k "sessionId" then VStr (sessionId v)
  else if String.eqb k "viewDuration" then VNum (viewDuration v)
  else if String.eqb k "scrollDepth" then VNum (scrollDepth v)
  else if String.eqb k "bounced" then VBool (bounced v)
  else if String.eqb k "isUnique" then VBool (isUnique v)
  else if String.eqb k "viewedAt" then VDate (viewedAt v)
  else VUndefined.

Definition viewDoc (v : PropertyView) : Doc :=
  mkDoc (viewField v) (fun _ _ => false) (fun _ => false).

(** The database: the three collections and the next fresh [ObjectId]. *)
Record Db : Type := mkDb {
  views : list PropertyView;
  properties : list Property.t;
  users : list User;
  nextId : ObjectId
}.

(** ** Asynchronous functions on the database *)

Inductive Result (A : Type) : Type :=
| Returned (a : A)
| Thrown (message : string).
Arguments Returned {A} a.
Arguments Thrown {A} message.

(** One call to the store: the model and the method. *)
Inductive StoreCall : Type :=
| Call (model method : string).

(** What running an [async] function gives: its result, the database it
    leaves, and the store calls it made, in order. *)
Record Run (A : Type) : Type := mkRun {
  result : Result A;
  after : Db;
  calls : list StoreCall
}.
Arguments mkRun {A} result after calls.

Definition Async (A : Type) : Type := Db -> Run A.

Definition ret {A} (a : A) : Async A := fun db => mkRun (Returned a) db [].

Definition throw {A} (message : string) : Async A :=
  fun db => mkRun (Thrown message) db [].

Definition bind {A B} (m : Async A) (k : A -> Async B) : Async B :=
  fun db =>
    let r := m db in
    match result r with
    | Returned a =>
        let r' := k a (after r) in
        mkRun (result r') (after r') (calls r ++ calls r')
    | Thrown e => mkRun (Thrown e) (after r) (calls r)
    end.

(** [try { m } catch (error) { throw new Error(prefix + error.message) }] *)
Definition rethrow {A} (prefix : string) (m : Async A) : Async A :=
  fun db =>
    let r := m db in
    match result r with
    | Returned a => r
    | Thrown e => mkRun (Thrown (prefix ++ e)%string) (after r) (calls r)
    end.

Declare Scope async_scope.
Delimit Scope async_scope with async.
Notation "x <- m ;; k" := (bind m (fun x => k))
  (at level 61, m at next level, right associativity) : async_scope.
Notation "m ;; k" := (bind m (fun _ => k))
  (at level 61, right associativity) : async_scope.

Open Scope async_scope.

(** *** Collection primitives *)

(** [Model.findOne(query)]: the first matching document, or [null]. *)
Definition PropertyView_findOne (q : Query) : Async (option PropertyView) :=
  fun db =>
    mkRun (Returned (find (fun v => matches (viewDoc v) q) (views db))) db
          [Call "PropertyView" "findOne"].

(** [Property.findById(id)]. *)
Definition Property_findById (id : ObjectId) : Async (option Property.t) :=
  fun db =>
    mkRun (Returned (find (fun p => Nat.eqb (Property._id p) id) (properties db))) db
          [Call "Property" "findById"].

Fixpoint updateFirst {A} (test : A -> bool) (f : A -> A) (l : list A) : list A :=
  match l with
  | [] => []
  | a :: l' => if test a then f a :: l' else a :: updateFirst test f l'
  end.

(** [Property.findByIdAndUpdate(id, { $inc: ... })]: one atomic update of
    the document with that id, nothing when there is none. *)
Definition Property_findByIdAndUpdate (id : ObjectId) (update : Property.t -> Property.t)
    : Async unit :=
  fun db =>
    mkRun (Returned tt)
      (mkDb (views db)
            (updateFirst (fun p => Nat.eqb (Property._id p) id) update (properties db))
            (users db) (nextId db))
      [Call "Property" "findByIdAndUpdate"].

(** [PropertyView.findByIdAndUpdate(id, update, { new: true })]: no
    middleware and no validator runs; the updated document is returned. *)
Definition PropertyView_findByIdAndUpdate (id : ObjectId)
    (update : PropertyView -> PropertyView) : Async (option PropertyView) :=
  fun db =>
    let views' := updateFirst (fun v => Nat.eqb (_id v) id) update (views db) in
    mkRun (Returned (find (fun v => Nat.eqb (_id v) id) views'))
      (mkDb views' (properties db) (users db) (nextId db))
      [Call "PropertyView" "findByIdAndUpdate"].

(** *** Updates of one view document *)

(** [$set: { "interactions.<interaction>": true }]; a path the schema
    does not declare is dropped, and [true] is cast to [1] on the one
    numeric path. *)
Definition setInteraction (interaction : string) (i : Interactions) : Interactions :=
  if String.eqb interaction "imageViews" then
    mkInteractions 1 (imageGalleryOpened i) (mapViewed i) (contactClicked i)
      (phoneRevealed i) (whatsappClicked i) (shareClicked i) (favorited i) (inquirySent i)
  else if String.eqb interaction "imageGalleryOpened" then
    mkInteractions (imageViews i) true (mapViewed i) (contactClicked i)
      (phoneRevealed i) (whatsappClicked i) (shareClicked i) (favorited i) (inquirySent i)
  else if String.eqb interaction "mapViewed" then
    mkInteractions (imageViews i) (imageGalleryOpened i) true (contactClicked i)
      (phoneRevealed i) (whatsappClicked i) (shareClicked i) (favorited i) (inquirySent i)
  else if String.eqb interaction "contactClicked" then
    mkInteractions (imageViews i) (imageGalleryOpened i) (mapViewed i) true
      (phoneRevealed i) (whatsappClicked i) (shareClicked i) (favorited i) (inquirySent i)
  else if String.eqb interaction "phoneRevealed" then
    mkInteractions (imageViews i) (imageGalleryOpened i) (mapViewed i) (contactClicked i)
      true (whatsappClicked i) (shareClicked i) (favorited i) (inquirySent i)
  else if String.eqb interaction "whatsappClicked" then
    mkInteractions (imageViews i) (imageGalleryOpened i) (mapViewed i) (contactClicked i)
      (phoneRevealed i) true (shareClicked i) (favorited i) (inquirySent i)
  else if String.eqb interaction "shareClicked" then
    mkInteractions (imageViews i) (imageGalleryOpened i) (mapViewed i) (contactClicked i)
      (phoneRevealed i) (whatsappClicked i) true (favorited i) (inquirySent i)
  else if String.eqb interaction "favorited" then
    mkInteractions (imageViews i) (imageGalleryOpened i) (mapViewed i) (contactClicked i)
      (phoneRevealed i) (whatsappClicked i) (shareClicked i) true (inquirySent i)
  else if String.eqb interaction "inquirySent" then
    mkInteractions (imageViews i) (imageGalleryOpened i) (mapViewed i) (contactClicked i)
      (phoneRevealed i) (whatsappClicked i) (shareClicked i) (favorited i) true
  else i.

(** What [recordView] destructures from its argument; [userId] defaults
    to [null] and [source] to ["direct"]. *)
Record ViewData : Type := mkViewData {
  vd_propertyId : ObjectId;
  vd_userId : option ObjectId;
  vd_sessionId : string;
  vd_ipAddress : string;
  vd_userAgent : option string;
  vd_device : option string;
  vd_location : option string;
  vd_referrer : option string;
  vd_source : option Source;
  vd_searchQuery : option string
}.

Definition idOrNull (u : option ObjectId) : Value :=
  match u with Some i => VId i | None => VNull end.

Definition day : Z := 24 * 60 * 60 * 1000.

Section ViewRecorder.
Context {R : Rounding}.

(** [document.save()] of a view: the required paths are validated, the
    [pre("save")] middleware runs, and the document is stored under its
    id (in place when it is there already, at the end otherwise). *)
Definition PropertyView_save (doc : PropertyView) : Async PropertyView :=
  fun db =>
    if String.eqb (sessionId doc) "" then
      mkRun (Thrown "PropertyView validation failed: sessionId: Path `sessionId` is required.")
            db []
    else if String.eqb (ipAddress doc) "" then
      mkRun (Thrown "PropertyView validation failed: ipAddress: Path `ipAddress` is required.")
            db []
    else
      let saved := preSave doc in
      let views' :=
        if existsb (fun v => Nat.eqb (_id v) (_id doc)) (views db)
        then updateFirst (fun v => Nat.eqb (_id v) (_id doc)) (fun _ => saved) (views db)
        else views db ++ [saved] in
      mkRun (Returned saved) (mkDb views' (properties db) (users db) (nextId db))
            [Call "PropertyView" "save"].

(** [Model.create(fields)]: a new document with a fresh id, the schema
    defaults for the paths that are not given, saved. *)
Definition PropertyView_create (property : ObjectId) (viewer : option ObjectId)
    (sessionId ipAddress : string) (userAgent device location referrer : option string)
    (source : Source) (searchQuery : option string) (isUnique : bool)
    (viewedAt : Date) : Async PropertyView :=
  fun db =>
    let doc :=
      mkPropertyView (nextId db) property viewer sessionId ipAddress userAgent
        device location referrer source searchQuery
        0 0 noInteractions false isUnique viewedAt None in
    PropertyView_save doc
      (mkDb (views db) (properties db) (users db) (S (nextId db))).

(** [PropertyView.recordView(viewData)], run when the clock reads [now]. *)
Definition recordView (now : Date) (viewData : ViewData) : Async PropertyView :=
  let propertyId := vd_propertyId viewData in
  let userId := vd_userId viewData in
  let sessionId := vd_sessionId viewData in
  let source := match vd_source viewData with Some s => s | None => direct end in
  let oneDayAgo := (now - day)%Z in
  recentView <-
    PropertyView_findOne
      (Obj.literal
         [("property", CEq (VId propertyId));
          ("$or",
           COr [Obj.literal
                  [("viewer", CEq (idOrNull userId));
                   ("viewer", COps (Obj.literal [("$ne", VNull)]))];
                Obj.literal [("sessionId", CEq (VStr sessionId))]]);
          ("viewedAt", COps (Obj.literal [("$gte", VDate oneDayAgo)]))]) ;;
  let isUnique := match recentView with Some _ => false | None => true end in
  view <-
    PropertyView_create propertyId userId sessionId (vd_ipAddress viewData)
      (vd_userAgent viewData) (vd_device viewData) (vd_location viewData)
      (vd_referrer viewData) source (vd_searchQuery viewData) isUnique now ;;
  (if isUnique
   then Property_findByIdAndUpdate propertyId (Property.inc 1 1)
   else Property_findByIdAndUpdate propertyId (Property.inc 1 0)) ;;
  ret view.

(** [PropertyView.updateInteraction(viewId, interaction)]. *)
Definition updateInteraction (viewId : ObjectId) (interaction : string)
    : Async (option PropertyView) :=
  PropertyView_findByIdAndUpdate viewId
    (fun v => withInteractions (setInteraction interaction (interactions v)) v).

(** [PropertyView.endViewSession(viewId, duration, scrollDepth)]. *)
Definition endViewSession (now : Date) (viewId : ObjectId) (duration scrollDepth : Q)
    : Async (option PropertyView) :=
  PropertyView_findByIdAndUpdate viewId
    (fun v => withExitedAt now (withScrollDepth scrollDepth (withViewDuration duration v))).

(** The instance method [markHighIntent]. *)
Definition markHighIntent (this : PropertyView) : Async PropertyView :=
  PropertyView_save
    (withInteractions (setInteraction "inquirySent" (interactions this)) this).
End ViewRecorder.

(** *** [PropertyView.getTrendingProperties] *)

Module Trending.
(** A row of the [$group] stage. *)
Record Group : Type := mkGroup {
  _id : ObjectId;
  viewCount : Z;
  uniqueViews : Z;
  inquiries : Z
}.

Definition b2z (b : bool) : Z := if b then 1 else 0.

(** One more view for its listing: its group is updated in place, a new
    group goes to the end ([$group] promises no order of its output; here
    the groups come in the order of the first view of each listing). *)
Fixpoint accumulate (v : PropertyView) (gs : list Group) : list Group :=
  match gs with
  | [] =>
      [mkGroup (property v) 1 (b2z (isUnique v))
               (b2z (inquirySent (interactions v)))]
  | g :: gs' =>
      if Nat.eqb (_id g) (property v)
      then mkGroup (_id g) (viewCount g + 1)
                   (uniqueViews g + b2z (isUnique v))
                   (inquiries g + b2z (inquirySent (interactions v))) :: gs'
      else g :: accumulate v gs'
  end.

Definition groupByProperty (vs : list PropertyView) : list Group :=
  fold_left (fun gs v => accumulate v gs) vs [].

Definition groupKey (g : Group) (k : string) (_ : Direction) : Value :=
  if String.eqb k "uniqueViews" then VNum (inject_Z (uniqueViews g))
  else if String.eqb k "viewCount" then VNum (inject_Z (viewCount g))
  else if String.eqb k "inquiries" then VNum (inject_Z (inquiries g))
  else if String.eqb k "_id" then VId (_id g)
  else VUndefined.

(** A row after [$lookup] and [$unwind]. *)
Record Entry : Type := mkEntry {
  group : Group;
  property : Property.t
}.

Definition lookupProperty (ps : list Property.t) (g : Group) : list Entry :=
  map (mkEntry g) (filter (fun p => Nat.eqb (Property._id p) (_id g)) ps).
End Trending.

Definition week : Z := 7 * 24 * 60 * 60 * 1000.

(** The aggregation, stage by stage; [$limit] refuses a limit that is
    not positive. *)
Definition getTrendingProperties (now : Date) (limit : Z) : Async (list Trending.Entry) :=
  fun db =>
    let oneWeekAgo := (now - week)%Z in
    let matched := filter (fun v => (oneWeekAgo <=? viewedAt v)%Z) (views db) in
    let grouped := Trending.groupByProperty matched in
    let sorted :=
      sortDocs Trending.groupKey
        (Obj.literal [("uniqueViews", Descending); ("viewCount", Descending)]) grouped in
    if (limit <=? 0)%Z then
      mkRun (Thrown "the limit must be positive") db [Call "PropertyView" "aggregate"]
    else
      let limited := firstn (Z.to_nat limit) sorted in
      let unwound := flat_map (Trending.lookupProperty (properties db)) limited in
      mkRun (Returned (filter (fun e => Property.isActive (Trending.property e)) unwound))
            db [Call "PropertyView" "aggregate"].

(** ** Strings that carry numbers *)

Module Str.
Definition isWhite (c : ascii) : bool :=
  let n := nat_of_ascii c in
  Nat.eqb n 32 || (Nat.leb 9 n && Nat.leb n 13).

Definition digit (c : ascii) : option Z :=
  let n := nat_of_ascii c in
  if Nat.leb 48 n && Nat.leb n 57 then Some (Z.of_nat (n - 48)) else None.

Fixpoint dropWhite (s : string) : string :=
  match s with
  | String c s' => if isWhite c then dropWhite s' else s
  | EmptyString => s
  end.

Fixpoint reverse (s acc : string) : string :=
  match s with
  | String c s' => reverse s' (String c acc)
  | EmptyString => acc
  end.

(** [s.trim()], of the ASCII white space (blank, tab, line feed, vertical
    tab, form feed, carriage return). *)
Definition trim (s : string) : string :=
  reverse (dropWhite (reverse (dropWhite s) "")) "".

(** The longest prefix of digits: its value, its length, and the rest. *)
Fixpoint digits (s : string) (acc : Z) (count : nat) : Z * nat * string :=
  match s with
  | String c s' =>
      match digit c with
      | Some d => digits s' (acc * 10 + d)%Z (S count)
      | None => (acc, count, s)
      end
  | EmptyString => (acc, count, s)
  end.

(** An optional sign: its factor and the rest. *)
Definition sign (s : string) : Z * string :=
  match s with
  | String "-" s' => ((-1)%Z, s')
  | String "+" s' => (1%Z, s')
  | _ => (1%Z, s)
  end.

(** [parseInt(s)] in base ten: blanks, a sign, then digits; what follows
    the digits is ignored, and [None] is [NaN].  A hexadecimal prefix is
    not recognised. *)
Definition parseInt (s : string) : option Z :=
  let (sg, s1) := sign (dropWhite s) in
  match digits s1 0%Z 0 with
  | (_, O, _) => None
  | (n, _, _) => Some (sg * n)%Z
  end.

(** [Number(s)], the conversion that arithmetic applies to a string:
    blanks around a signed decimal literal, the empty string being [0];
    [None] is [NaN].  Exponents, hexadecimal literals and [Infinity] are
    not recognised. *)
Definition toNumber (s : string) : option Q :=
  match trim s with
  | EmptyString => Some 0
  | t =>
      let (sg, s1) := sign t in
      match digits s1 0%Z 0 with
      | (n, cn, EmptyString) =>
          if Nat.eqb cn 0 then None else Some (inject_Z (sg * n))
      | (n, cn, String "." s2) =>
          match digits s2 0%Z 0 with
          | (f, cf, EmptyString) =>
              if Nat.eqb cn 0 && Nat.eqb cf 0 then None
              else Some (inject_Z sg * (inject_Z n + inject_Z f / inject_Z (10 ^ Z.of_nat cf)))
          | _ => None
          end
      | _ => None
      end
  end.

(** validator.js [isNumeric]: an optional sign, then digits, or
    digits (possibly none), a point and at least one digit. *)
Definition isNumeric (s : string) : bool :=
  let (_, s1) := sign s in
  match digits s1 0%Z 0 with
  | (_, cn, EmptyString) => negb (Nat.eqb cn 0)
  | (_, _, String "." s2) =>
      match digits s2 0%Z 0 with
      | (_, cf, EmptyString) => negb (Nat.eqb cf 0)
      | _ => false
      end
  | _ => false
  end.

(** validator.js [isInt] with optional bounds: an optional sign and
    digits without a leading zero (but for zero itself), then
    [min <= value <= max]. *)
Definition isInt (min max : option Z) (s : string) : bool :=
  let (sg, s1) := sign s in
  match s1, digits s1 0%Z 0 with
  | String c rest, (n, cn, EmptyString) =>
      negb (Nat.eqb cn 0)
      && (negb (Ascii.eqb c "0") || Nat.eqb cn 1)
      && match min with Some m => (m <=? sg * n)%Z | None => true end
      && match max with Some m => (sg * n <=? m)%Z | None => true end
  | _, _ => false
  end.

(** validator.js [isBoolean]. *)
Definition isBoolean (s : string) : bool :=
  existsb (String.eqb s) ["true"; "false"; "1"; "0"].

(** validator.js [isLength]. *)
Definition isLength (min max : nat) (s : string) : bool :=
  Nat.leb min (String.length s) && Nat.leb (String.length s) max.

(** [s.split(",")] *)
Fixpoint splitComma (s cur : string) : list string :=
  match s with
  | String c s' =>
      if Ascii.eqb c "," then reverse cur "" :: splitComma s' ""
      else splitComma s' (String c cur)
  | EmptyString => [reverse cur ""]
  end.
End Str.

(** ** Queries on the [Property] collection *)

(** What the database engine brings: case-insensitive regular-expression
    search ([regexI pattern subject]), the text index ([textSearch q p])
    and its score. *)
Record Engine : Type := mkEngine {
  regexI : string -> string -> bool;
  textSearch : string -> Property.t -> bool;
  textScore : string -> Property.t -> Q
}.

Definition numberOrNaN (n : option Z) : Value :=
  match n with Some z => VNum (inject_Z z) | None => VNaN end.

(** [parseInt] of a parameter that is a string or [undefined]. *)
Definition parseIntOf (s : option string) : option Z :=
  match s with Some x => Str.parseInt x | None => None end.

Definition isInteger (q : Q) : bool := Qeq_bool q (inject_Z (Qfloor q)).

Section PropertyCollection.
Variable E : Engine.

Definition propertyDoc (p : Property.t) : Doc :=
  mkDoc (Property.field p) (regexI E) (fun q => textSearch E q p).

(** The text a filter searches for, for the [textScore] sort key. *)
Definition searchText (filter : Query) : string :=
  match Obj.get "$text" filter with
  | Some (CText q) => q
  | _ => ""
  end.

Definition propertyKey (filter : Query) (p : Property.t) (k : string)
    (dir : Direction) : Value :=
  match dir with
  | MetaTextScore => VNum (textScore E (searchText filter) p)
  | _ => Property.field p k
  end.

(** [Property.find(filter).sort(sort)]: every match, in order. *)
Definition findSorted (filter : Query) (sort : SortSpec) (ps : list Property.t)
    : list Property.t :=
  sortDocs (propertyKey filter) sort (List.filter (fun p => matches (propertyDoc p) filter) ps).

(** [.limit(n)] of a [find]: [0] is no limit, a negative limit is its
    absolute value. *)
Definition findLimit {A} (n : Z) (l : list A) : list A :=
  if (n =? 0)%Z then l else firstn (Z.abs_nat n) l.

(** [Property.find(filter).sort(sort).skip(skip).limit(limit)]; the
    store refuses a skip that is not a natural number and a limit that is
    not a number ([None] is [NaN]). *)
Definition Property_find (filter : Query) (sort : SortSpec) (skip : option Q)
    (limit : option Z) : Async (list Property.t) :=
  fun db =>
    mkRun
      match skip, limit with
      | Some sk, Some lim =>
          if Qle_bool 0 sk && isInteger sk
          then Returned
                 (findLimit lim
                    (skipn (Z.to_nat (Qfloor sk)) (findSorted filter sort (properties db))))
          else Thrown "Skip value must be a non-negative integer"
      | None, _ => Thrown "Cast to number failed for skip"
      | _, None => Thrown "Cast to number failed for limit"
      end
      db [Call "Property" "find"].

(** [Property.countDocuments(filter)] *)
Definition Property_countDocuments (filter : Query) : Async nat :=
  fun db =>
    mkRun
      (Returned (List.length (List.filter (fun p => matches (propertyDoc p) filter) (properties db))))
      db [Call "Property" "countDocuments"].
End PropertyCollection.

(** ** The search service *)

Module SearchParams.
Record Features : Type := mkFeatures {
  facing : option string;
  furnishing : option string;
  parking : option string
}.

(** The parameters arrive from the query string: each is a string or
    [undefined]; [amenities] is an array once the controller has split
    it. *)
Record t : Type := mk {
  query : option string;
  type : option string;
  minPrice : option string;
  maxPrice : option string;
  minArea : option string;
  maxArea : option string;
  minBedrooms : option string;
  maxBedrooms : option string;
  bathrooms : option string;
  city : option string;
  location : option string;
  amenities : option (list string);
  features : option Features;
  isFeatured : option string;
  isVerified : option string;
  page : option string;
  limit : option string;
  sortBy : option string
}.
End SearchParams.

Module searchService.
Import SearchParams.

Record Pagination : Type := mkPagination {
  currentPage : option Z;
  totalPages : option Z;
  totalItems : nat;
  itemsPerPage : option Z
}.

(** The [filters] echo of the result repeats the parameters and is left
    out. *)
Record SearchResult : Type := mkSearchResult {
  found : list Property.t;
  pagination : Pagination
}.

(** [{ $gte: parseInt(min), $lte: parseInt(max) }], each bound only when
    its parameter is truthy. *)
Definition range (min max : option string) : Obj.t Value :=
  let r := [] in
  let r := if JS.truthy min then Obj.set "$gte" (numberOrNaN (parseIntOf min)) r else r in
  let r := if JS.truthy max then Obj.set "$lte" (numberOrNaN (parseIntOf max)) r else r in
  r.

Definition trimmed (s : option string) : option string :=
  match s with Some x => Some (Str.trim x) | None => None end.

Definition strOf (s : option string) : string :=
  match s with Some x => x | None => "" end.

Definition isTrue (s : option string) : bool :=
  match s with Some x => String.eqb x "true" | None => false end.

(** The filter [searchProperties] builds, assignment by assignment. *)
Definition buildFilter (sp : SearchParams.t) : Query :=
  let filter := Obj.literal [("isActive", CEq (VBool true)); ("status", CEq (VStr "active"))] in
  let filter :=
    if JS.truthy (query sp) && JS.truthy (trimmed (query sp))
    then Obj.set "$text" (CText (Str.trim (strOf (query sp)))) filter else filter in
  let filter :=
    if JS.truthy (type sp) then Obj.set "type" (CEq (VStr (strOf (type sp)))) filter
    else filter in
  let filter :=
    if JS.truthy (minPrice sp) || JS.truthy (maxPrice sp)
    then Obj.set "price" (COps (range (minPrice sp) (maxPrice sp))) filter else filter in
  let filter :=
    if JS.truthy (minArea sp) || JS.truthy (maxArea sp)
    then Obj.set "area" (COps (range (minArea sp) (maxArea sp))) filter else filter in
  let filter :=
    if JS.truthy (minBedrooms sp) || JS.truthy (maxBedrooms sp)
    then Obj.set "bedrooms" (COps (range (minBedrooms sp) (maxBedrooms sp))) filter
    else filter in
  let filter :=
    if JS.truthy (bathrooms sp)
    then Obj.set "bathrooms"
           (COps (Obj.literal [("$gte", numberOrNaN (parseIntOf (bathrooms sp)))])) filter
    else filter in
  let filter :=
    if JS.truthy (city sp) then Obj.set "city" (CRegex (strOf (city sp))) filter
    else filter in
  let filter :=
    if JS.truthy (location sp) then Obj.set "location" (CRegex (strOf (location sp))) filter
    else filter in
  let filter :=
    match isFeatured sp with
    | Some _ => Obj.set "isFeatured" (CEq (VBool (isTrue (isFeatured sp)))) filter
    | None => filter
    end in
  let filter :=
    match isVerified sp with
    | Some _ => Obj.set "isVerified" (CEq (VBool (isTrue (isVerified sp)))) filter
    | None => filter
    end in
  let filter :=
    match amenities sp with
    | Some (a :: amenitiesArray) => Obj.set "amenities" (CAll (a :: amenitiesArray)) filter
    | _ => filter
    end in
  match features sp with
  | Some f =>
      let filter :=
        if JS.truthy (facing f)
        then Obj.set "features.facing" (CEq (VStr (strOf (facing f)))) filter else filter in
      let filter :=
        if JS.truthy (furnishing f)
        then Obj.set "features.furnishing" (CEq (VStr (strOf (furnishing f)))) filter
        else filter in
      if JS.truthy (parking f)
      then Obj.set "features.parking"
             (COps (Obj.literal [("$gte", numberOrNaN (parseIntOf (parking f)))])) filter
      else filter
  | None => filter
  end.

(** The [switch (sortBy)]; [sortBy] defaults to ["relevance"]. *)
Definition buildSort (sp : SearchParams.t) : SortSpec :=
  let sortBy := match sortBy sp with Some s => s | None => "relevance" end in
  if String.eqb sortBy "price_asc" then Obj.literal [("price", Ascending)]
  else if String.eqb sortBy "price_desc" then Obj.literal [("price", Descending)]
  else if String.eqb sortBy "area_asc" then Obj.literal [("area", Ascending)]
  else if String.eqb sortBy "area_desc" then Obj.literal [("area", Descending)]
  else if String.eqb sortBy "newest" then Obj.literal [("createdAt", Descending)]
  else if String.eqb sortBy "oldest" then Obj.literal [("createdAt", Ascending)]
  else if String.eqb sortBy "popular"
       then Obj.literal [("viewCount", Descending); ("uniqueViews", Descending)]
  else if JS.truthy (query sp) && JS.truthy (trimmed (query sp))
       then Obj.literal [("score", MetaTextScore)]
  else Obj.literal [("createdAt", Descending)].

Section Service.
Context {R : Rounding}.
Variable E : Engine.

(** [page] defaults to [1] and [limit] to [12]; arithmetic converts a
    string to a number. *)
Definition pageNumber (sp : SearchParams.t) : option Q :=
  match page sp with Some s => Str.toNumber s | None => Some 1 end.

Definition limitNumber (sp : SearchParams.t) : option Q :=
  match limit sp with Some s => Str.toNumber s | None => Some 12 end.

(** [(page - 1) * limit] *)
Definition skipOf (sp : SearchParams.t) : option Q :=
  match pageNumber sp, limitNumber sp with
  | Some p, Some l => Some (JS.mul (JS.add p (- (1))) l)
  | _, _ => None
  end.

Definition parseIntOr (default : Z) (s : option string) : option Z :=
  match s with Some x => Str.parseInt x | None => Some default end.

(** [Math.ceil(total / limit)], [None] when it is not finite. *)
Definition totalPagesOf (total : nat) (sp : SearchParams.t) : option Z :=
  match limitNumber sp with
  | Some l =>
      if Qeq_bool l 0 then None
      else Some (Qceiling (JS.div (inject_Z (Z.of_nat total)) l))
  | None => None
  end.

Definition searchProperties (searchParams : SearchParams.t) : Async SearchResult :=
  rethrow "Search failed: "
    (let skip := skipOf searchParams in
     let filter := buildFilter searchParams in
     let sort := buildSort searchParams in
     properties <-
       Property_find E filter sort skip (parseIntOr 12 (limit searchParams)) ;;
     total <- Property_countDocuments E filter ;;
     ret (mkSearchResult properties
            (mkPagination (parseIntOr 1 (page searchParams))
               (totalPagesOf total searchParams) total
               (parseIntOr 12 (limit searchParams))))).
End Service.
End searchService.

(** ** The property service *)

Module propertyService.
Record Options : Type := mkOptions {
  populateSeller : option bool;      (* default true *)
  incrementView : option bool        (* default false *)
}.

Definition noOptions : Options := mkOptions None None.

(** [getPropertyById(propertyId, options)].  Populating the seller
    changes neither collection. *)
Definition getPropertyById (propertyId : ObjectId) (options : Options)
    : Async Property.t :=
  rethrow "Failed to fetch property: "
    (let incrementView :=
       match incrementView options with Some b => b | None => false end in
     property <- Property_findById propertyId ;;
     match property with
     | None => throw "Property not found"
     | Some property =>
         (if incrementView && Property.isActive property
          then Property_findByIdAndUpdate propertyId (Property.inc 1 0)
          else ret tt) ;;
         ret property
     end).

Section Service.
Context {R : Rounding}.
Variable E : Engine.

(** [getTrendingProperties(limit = 6, days = 7)], run when the clock
    reads [now]. *)
Definition getTrendingProperties (now : Date) (limit days : Z)
    : Async (list Property.t) :=
  rethrow "Failed to fetch trending properties: "
    (Property_find E
       (Obj.literal
          [("isActive", CEq (VBool true));
           ("status", CEq (VStr "active"));
           ("createdAt", COps (Obj.literal [("$gte", VDate (now - days * day)%Z)]))])
       (Obj.literal [("viewCount", Descending); ("uniqueViews", Descending)])
       (Some 0) (Some limit)).

(** [getSimilarProperties(propertyId, limit = 4)] *)
Definition getSimilarProperties (propertyId : ObjectId) (limit : Z)
    : Async (list Property.t) :=
  rethrow "Failed to fetch similar properties: "
    (property <- Property_findById propertyId ;;
     match property with
     | None => throw "Property not found"
     | Some property =>
         Property_find E
           (Obj.literal
              [("_id", COps (Obj.literal [("$ne", VId propertyId)]));
               ("isActive", CEq (VBool true));
               ("status", CEq (VStr "active"));
               ("type", CEq (VStr (Property.type property)));
               ("city", CEq (VStr (Property.city property)));
               ("price",
                COps (Obj.literal
                        [("$gte", VNum (JS.mul (Property.price property) (JS.lit (7 # 10))));
                         ("$lte", VNum (JS.mul (Property.price property) (JS.lit (13 # 10))))]))])
           [] (Some 0) (Some limit)
     end).
End Service.
End propertyService.

(** ** The aggregation pipelines *)

Module aggregations.
(** [$addFields: { trendScore: viewCount * 1 + uniqueViews * 2 }] *)
Definition trendScore (p : Property.t) : Z :=
  (Property.viewCount p * 1 + Property.uniqueViews p * 2)%Z.

Definition trendKey (p : Property.t) (k : string) (_ : Direction) : Value :=
  if String.eqb k "trendScore" then VNum (inject_Z (trendScore p))
  else Property.field p k.

(** What [$project] keeps of a listing and of its seller. *)
Record Projected : Type := mkProjected {
  _id : ObjectId;
  title : string;
  type : string;
  price : Q;
  area : Q;
  bedrooms : Q;
  location : string;
  city : string;
  viewCount : Z;
  uniqueViews : Z;
  isFeatured : bool;
  isVerified : bool;
  sellerName : string
}.

Definition project (p : Property.t) (u : User) : Projected :=
  mkProjected (Property._id p) (Property.title p) (Property.type p) (Property.price p)
    (Property.area p) (Property.bedrooms p) (Property.location p) (Property.city p)
    (Property.viewCount p) (Property.uniqueViews p) (Property.isFeatured p)
    (Property.isVerified p) (name u).

(** [$lookup] of the seller and [$unwind]: one row per seller document
    with that id, none when there is none. *)
Definition lookupSeller (us : list User) (p : Property.t) : list (Property.t * User) :=
  map (pair p) (filter (fun u => Nat.eqb (userId u) (Property.seller p)) us).

Section Pipelines.
Variable E : Engine.

(** The stages of [trendingPropertiesPipeline(days, limit)] up to
    [$limit], on the listings. *)
Definition trendingRanked (now : Date) (days limit : Z) (ps : list Property.t)
    : list Property.t :=
  let dateThreshold := (now - days * day)%Z in
  let matched :=
    filter
      (fun p =>
         matches (propertyDoc E p)
           (Obj.literal
              [("isActive", CEq (VBool true));
               ("status", CEq (VStr "active"));
               ("createdAt", COps (Obj.literal [("$gte", VDate dateThreshold)]))]))
      ps in
  let sorted :=
    sortDocs trendKey
      (Obj.literal [("trendScore", Descending); ("viewCount", Descending)]) matched in
  firstn (Z.to_nat limit) sorted.

(** [Property.aggregate(trendingPropertiesPipeline(days, limit))], run
    when the clock reads [now]. *)
Definition trendingPropertiesPipeline (now : Date) (days limit : Z)
    : Async (list Projected) :=
  fun db =>
    if (limit <=? 0)%Z then
      mkRun (Thrown "the limit must be positive") db [Call "Property" "aggregate"]
    else
      mkRun
        (Returned
           (map (fun pu => project (fst pu) (snd pu))
              (flat_map (lookupSeller (users db))
                 (trendingRanked now days limit (properties db)))))
        db [Call "Property" "aggregate"].
End Pipelines.
End aggregations.

(** ** Requests, validation chains and controllers *)

Record Request : Type := mkRequest {
  params : Obj.t string;      (* req.params *)
  query : Obj.t string        (* req.query *)
}.

Record FieldError : Type := mkFieldError {
  errField : string;
  errMessage : string;
  errValue : string
}.

(** [res.status(status).json({ success, message, errors, data })] *)
Record Response (A : Type) : Type := mkResponse {
  status : nat;
  success : bool;
  message : option string;
  errors : list FieldError;
  data : option A
}.
Arguments mkResponse {A} status success message errors data.

Module validator.
(** One link of a chain: a sanitizer, or a validator with the message of
    its failure; a custom validator also reads the request. *)
Inductive Step : Type :=
| trim
| check (test : string -> bool) (message : string)
| custom (test : string -> Obj.t string -> bool) (message : string).

(** [query(field).optional()...]: a field that is absent is skipped. *)
Record Chain : Type := mkChain {
  chainField : string;
  steps : list Step
}.

Fixpoint runSteps (field : string) (ss : list Step) (value : string) (q : Obj.t string)
    : string * list FieldError :=
  match ss with
  | [] => (value, [])
  | trim :: ss' => runSteps field ss' (Str.trim value) q
  | check test message :: ss' =>
      let (v, es) := runSteps field ss' value q in
      (v, if test value then es else mkFieldError field message value :: es)
  | custom test message :: ss' =>
      let (v, es) := runSteps field ss' value q in
      (v, if test value q then es else mkFieldError field message value :: es)
  end.

Definition runChain (c : Chain) (q : Obj.t string) : Obj.t string * list FieldError :=
  match Obj.get (chainField c) q with
  | None => (q, [])
  | Some value =>
      let (v, es) := runSteps (chainField c) (steps c) value q in
      (Obj.set (chainField c) v q, es)
  end.

Fixpoint runChains (cs : list Chain) (q : Obj.t string) : Obj.t string * list FieldError :=
  match cs with
  | [] => (q, [])
  | c :: cs' =>
      let (q1, es1) := runChain c q in
      let (q2, es2) := runChains cs' q1 in
      (q2, es1 ++ es2)
  end.

(** The chains followed by [handleValidationErrors], in front of a
    handler: with an error the answer is 400 and the handler is not
    called. *)
Definition guarded {A} (cs : list Chain) (handler : Request -> Async (Response A))
    (req : Request) : Async (Response A) :=
  let (q, es) := runChains cs (query req) in
  match es with
  | [] => handler (mkRequest (params req) q)
  | _ :: _ => ret (mkResponse 400 false (Some "Validation failed") es None)
  end.
End validator.

Module propertyValidator.
Import validator.

Definition isIn (options : list string) (s : string) : bool :=
  existsb (String.eqb s) options.

(** The custom validator of an upper bound: it throws when the lower
    bound of the request is truthy and [parseInt(value)] is below it. *)
Definition notBelow (lower : string) (value : string) (q : Obj.t string) : bool :=
  negb (JS.truthy (Obj.get lower q)
        && match Str.parseInt value, parseIntOf (Obj.get lower q) with
           | Some hi, Some lo => (hi <? lo)%Z
           | _, _ => false
           end).

Definition validateGetAllProperties : list Chain :=
  [ mkChain "page" [check (Str.isInt (Some 1%Z) None) "Page must be a positive integer"];
    mkChain "limit"
      [check (Str.isInt (Some 1%Z) (Some 100%Z)) "Limit must be between 1 and 100"];
    mkChain "type"
      [check (isIn ["flat"; "plot"; "villa"; "commercial"]) "Invalid property type"];
    mkChain "minPrice" [check Str.isNumeric "Minimum price must be a number"];
    mkChain "maxPrice"
      [check Str.isNumeric "Maximum price must be a number";
       custom (notBelow "minPrice") "Maximum price must be greater than minimum price"];
    mkChain "bedrooms"
      [check (Str.isInt (Some 0%Z) (Some 20%Z)) "Bedrooms must be between 0 and 20"];
    mkChain "city"
      [trim; check (Str.isLength 2 50) "City must be between 2 and 50 characters"];
    mkChain "location"
      [trim; check (Str.isLength 2 100) "Location must be between 2 and 100 characters"];
    mkChain "status"
      [check (isIn ["active"; "sold"; "rented"; "inactive"]) "Invalid status"];
    mkChain "isFeatured" [check Str.isBoolean "isFeatured must be a boolean"];
    mkChain "isVerified" [check Str.isBoolean "isVerified must be a boolean"];
    mkChain "search"
      [trim; check (Str.isLength 2 100) "Search term must be between 2 and 100 characters"];
    mkChain "sortBy"
      [check (isIn ["createdAt"; "-createdAt"; "price"; "-price"; "viewCount"; "-viewCount"])
         "Invalid sort option"] ].

Definition validateSearchProperties : list Chain :=
  [ mkChain "q"
      [trim; check (Str.isLength 2 100) "Search query must be between 2 and 100 characters"];
    mkChain "type"
      [check (isIn ["flat"; "plot"; "villa"; "commercial"]) "Invalid property type"];
    mkChain "minPrice" [check Str.isNumeric "Minimum price must be a number"];
    mkChain "maxPrice" [check Str.isNumeric "Maximum price must be a number"];
    mkChain "minBedrooms"
      [check (Str.isInt (Some 0%Z) (Some 20%Z)) "Minimum bedrooms must be between 0 and 20"];
    mkChain "maxBedrooms"
      [check (Str.isInt (Some 0%Z) (Some 20%Z)) "Maximum bedrooms must be between 0 and 20";
       custom (notBelow "minBedrooms")
         "Maximum bedrooms must be greater than minimum bedrooms"];
    mkChain "city"
      [trim; check (Str.isLength 2 50) "City must be between 2 and 50 characters"];
    mkChain "location"
      [trim; check (Str.isLength 2 100) "Location must be between 2 and 100 characters"];
    mkChain "amenities" [check (fun _ => true) "Amenities must be a comma-separated string"];
    mkChain "page" [check (Str.isInt (Some 1%Z) None) "Page must be a positive integer"];
    mkChain "limit"
      [check (Str.isInt (Some 1%Z) (Some 100%Z)) "Limit must be between 1 and 100"];
    mkChain "sortBy"
      [check (isIn ["relevance"; "price_asc"; "price_desc"; "newest"; "popular"])
         "Invalid sort option"] ].
End propertyValidator.

(** [try { m } catch (error) { h(error.message) }] *)
Definition catch {A} (m : Async A) (h : string -> Async A) : Async A :=
  fun db =>
    let r := m db in
    match result r with
    | Returned _ => r
    | Thrown e =>
        let r' := h e (after r) in
        mkRun (result r') (after r') (calls r ++ calls r')
    end.

(** [error.message || fallback] *)
Definition messageOr (fallback : string) (e : string) : string :=
  if String.eqb e "" then fallback else e.

(** The id a route parameter names; Mongoose fails to cast any other
    string. *)
Definition castObjectId (s : string) : option ObjectId :=
  match Str.digits s 0%Z 0 with
  | (n, S _, EmptyString) => Some (Z.to_nat n)
  | _ => None
  end.

Module searchController.
Section Controller.
Context {R : Rounding}.
Variable E : Engine.
(** [JSON.parse] of the [features] parameter; [None] when it throws. *)
Variable parseFeatures : string -> option SearchParams.Features.

Definition searchProperties (req : Request)
    : Async (Response searchService.SearchResult) :=
  catch
    (let q := query req in
     features <-
       (if JS.truthy (Obj.get "features" q)
        then match parseFeatures (searchService.strOf (Obj.get "features" q)) with
             | Some f => ret (Some f)
             | None => throw "Unexpected token in JSON"
             end
        else ret None) ;;
     let searchParams :=
       SearchParams.mk (Obj.get "q" q) (Obj.get "type" q)
         (Obj.get "minPrice" q) (Obj.get "maxPrice" q)
         (Obj.get "minArea" q) (Obj.get "maxArea" q)
         (Obj.get "minBedrooms" q) (Obj.get "maxBedrooms" q)
         (Obj.get "bathrooms" q) (Obj.get "city" q) (Obj.get "location" q)
         (if JS.truthy (Obj.get "amenities" q)
          then Some (Str.splitComma (searchService.strOf (Obj.get "amenities" q)) "")
          else None)
         features
         (Obj.get "isFeatured" q) (Obj.get "isVerified" q)
         (Obj.get "page" q) (Obj.get "limit" q) (Obj.get "sortBy" q) in
     result <- searchService.searchProperties E searchParams ;;
     ret (mkResponse 200 true None [] (Some result)))
    (fun e => ret (mkResponse 500 false (Some (messageOr "Search failed" e)) [] None)).
End Controller.
End searchController.

Module propertyController.
(** [GET /api/properties/:id] *)
Definition getPropertyById (req : Request) : Async (Response Property.t) :=
  catch
    (property <-
       match castObjectId (searchService.strOf (Obj.get "id" (params req))) with
       | Some id =>
           propertyService.getPropertyById id
             (propertyService.mkOptions (Some true) (Some true))
       | None => throw "Failed to fetch property: Cast to ObjectId failed"
       end ;;
     ret (mkResponse 200 true None [] (Some property)))
    (fun e => ret (mkResponse 404 false (Some (messageOr "Property not found" e)) [] None)).
End propertyController.

(** ** Routes *)

Module routes.
Section Routes.
Context {R : Rounding}.
Variable E : Engine.
Variable parseFeatures : string -> option SearchParams.Features.

(** [router.get("/", searchController.searchProperties)]: the search
    route has no validation chain in front of its controller. *)
Definition GET_api_search : Request -> Async (Response searchService.SearchResult) :=
  searchController.searchProperties E parseFeatures.

(** The same route with [validateSearchProperties] in front. *)
Definition GET_api_search_validated
    : Request -> Async (Response searchService.SearchResult) :=
  validator.guarded propertyValidator.validateSearchProperties
    (searchController.searchProperties E parseFeatures).
End Routes.

(** [router.get("/:id", propertyController.getPropertyById)] *)
Definition GET_api_properties_id : Request -> Async (Response Property.t) :=
  propertyController.getPropertyById.
End routes.

(** The test of [findById] and [findByIdAndUpdate] on a listing. *)
Definition hasId (id : ObjectId) (p : Property.t) : bool := Nat.eqb (Property._id p) id.

(** ** Sample documents *)

(** A view as [recordView] creates it: no time spent, nothing scrolled,
    no interaction. *)
Definition freshView : PropertyView :=
  mkPropertyView 1 10 None "s-1" "10.0.0.1" None None None None direct None
    0 0 noInteractions false true 0 None.

Definition allInteractions : Interactions :=
  mkInteractions 0 true true true true true true true true.

(** 400 seconds, scrolled to the end, an inquiry sent. *)
Definition engagedView : PropertyView :=
  withInteractions (setInteraction "inquirySent" noInteractions)
    (withScrollDepth 100 (withViewDuration 400 freshView)).

(** The points of the flags that are set, by the weights of
    [engagementScore]. *)
Definition interactionPoints (i : Interactions) : Z :=
  ((if imageGalleryOpened i then 5 else 0)
   + (if mapViewed i then 5 else 0)
   + (if contactClicked i then 10 else 0)
   + (if phoneRevealed i then 8 else 0)
   + (if whatsappClicked i then 7 else 0)
   + (if favorited i then 10 else 0)
   + (if inquirySent i then 15 else 0))%Z.

(** An active listing and a database that holds it and no view yet. *)
Definition sampleListing : Property.t :=
  Property.mk 10 "3 BHK flat in Vaishali Nagar" "flat" 7500000 1450 3 2
    "Jaipur" "Vaishali Nagar" ["Parking"; "Lift"] None None 1
    false true true "active" 0 0 7 0.

Definition db0 : Db := mkDb [] [sampleListing] [mkUser 7 "Rajesh"] 1.

(** An anonymous visit to the sample listing in session ["s-1"]. *)
Definition anonymousVisit : ViewData :=
  mkViewData 10 None "s-1" "10.0.0.1" None None None None None None.

(** A page visit from its recording to its close: 400 seconds on the page,
    scrolled to the end, an inquiry sent. *)
Definition viewLifecycle {R : Rounding} : Async (option PropertyView) :=
  view <- recordView 1000 anonymousVisit ;;
  endViewSession 401000 (_id view) 400 100 ;;
  updateInteraction (_id view) "inquirySent".

(** ** The uniqueness rule *)

(** The rule of the specification, in its words: a prior view of the same
    listing within the trailing 24 hours, by the same authenticated viewer
    or in the same session, makes a view a repeat. *)
Definition repeatsBySpec (now : Date) (viewData : ViewData) (prior : PropertyView) : bool :=
  Nat.eqb (property prior) (vd_propertyId viewData)
  && (now - day <=? viewedAt prior)%Z
  && (match vd_userId viewData, viewer prior with
      | Some u, Some u' => Nat.eqb u u'
      | _, _ => false
      end
      || String.eqb (sessionId prior) (vd_sessionId viewData)).

Definition uniqueBySpec (now : Date) (viewData : ViewData) (vs : list PropertyView) : bool :=
  negb (existsb (repeatsBySpec now viewData) vs).

(** What the query of [recordView] asks of a prior view: the same
    listing, within 24 hours, and a viewer that is not [null] or the same
    session. *)
Definition repeatsByQuery (now : Date) (viewData : ViewData) (prior : PropertyView) : bool :=
  Nat.eqb (vd_propertyId viewData) (property prior)
  && ((match viewer prior with Some _ => true | None => false end)
      || String.eqb (vd_sessionId viewData) (sessionId prior))
  && (now - day <=? viewedAt prior)%Z.

(** A view of the sample listing by the signed-in user 5, in session
    ["s-A"] at time 0, and a database that holds it. *)
Definition memberView : PropertyView :=
  mkPropertyView 1 10 (Some 5%nat) "s-A" "10.0.0.2" None None None None direct None
    0 0 noInteractions true true 0 None.

Definition db1 : Db :=
  mkDb [memberView] [Property.inc 1 1 sampleListing] [mkUser 7 "Rajesh"] 2.

(** One hour later. *)
Definition hourLater : Date := 3600000.

(** ** Sample searches *)

(** An engine whose regular expressions and text index match nothing. *)
Definition plainEngine : Engine :=
  mkEngine (fun _ _ => false) (fun _ _ => false) (fun _ _ => 0).

(** No parameter at all. *)
Definition noParams : SearchParams.t :=
  SearchParams.mk None None None None None None None None None None None None None
    None None None None None.

Definition sortedBy (mode : string) : SearchParams.t :=
  SearchParams.mk None None None None None None None None None None None None None
    None None None None (Some mode).

(** Two active listings of one price, the older one first in the
    collection. *)
Definition olderListing : Property.t :=
  Property.mk 1 "2 BHK flat in Mansarovar" "flat" 5000000 900 2 2
    "Jaipur" "Mansarovar" ["Parking"] None None 1
    false true true "active" 0 0 7 100.

Definition newerListing : Property.t :=
  Property.mk 2 "2 BHK flat in Malviya Nagar" "flat" 5000000 950 2 2
    "Jaipur" "Malviya Nagar" ["Lift"] None None 1
    false true true "active" 0 0 7 200.

Definition dbTie : Db := mkDb [] [olderListing; newerListing] [mkUser 7 "Rajesh"] 3.

(** The whole result sequence of a search, before [skip] and [limit]. *)
Definition fullResults (E : Engine) (sp : SearchParams.t) (db : Db) : list Property.t :=
  findSorted E (searchService.buildFilter sp) (searchService.buildSort sp) (properties db).

Definition priceAscending (a b : Property.t) : Prop := Property.price a <= Property.price b.
Definition priceDescending (a b : Property.t) : Prop := Property.price b <= Property.price a.

(** ** Trend scores *)

(** The trend score of the specification, in its words: the views of a
    listing within the trailing window are counted, the unique ones twice
    as much. *)
Definition viewsInWindow (now : Date) (days : Z) (listing : ObjectId)
    (vs : list PropertyView) : list PropertyView :=
  filter (fun v => Nat.eqb (property v) listing && (now - days * day <=? viewedAt v)%Z) vs.

Definition rawViewsInWindow (now : Date) (days : Z) (listing : ObjectId)
    (vs : list PropertyView) : Z :=
  Z.of_nat (List.length (viewsInWindow now days listing vs)).

Definition uniqueViewsInWindow (now : Date) (days : Z) (listing : ObjectId)
    (vs : list PropertyView) : Z :=
  Z.of_nat (List.length (filter isUnique (viewsInWindow now days listing vs))).

Definition trendScoreBySpec (now : Date) (days : Z) (listing : ObjectId)
    (vs : list PropertyView) : Z :=
  (rawViewsInWindow now days listing vs * 1 + uniqueViewsInWindow now days listing vs * 2)%Z.

(** Thirty days of history: listing 30 was created at time 0 and listing
    40 on day 29.  On day 30, an hour before the ranking is computed,
    listing 30 is viewed once; listing 40 is fetched once through
    [GET /api/properties/40]. *)
Definition monthLater : Date := 30 * day.

Definition listing30 : Property.t :=
  Property.mk 30 "Villa in Jagatpura" "villa" 12000000 2400 4 4
    "Jaipur" "Jagatpura" ["Garden"] None None 2
    false true true "active" 0 0 7 0.

Definition listing40 : Property.t :=
  Property.mk 40 "Plot in Ajmer Road" "plot" 3000000 1800 0 0
    "Jaipur" "Ajmer Road" [] None None 0
    false false true "active" 0 0 7 (29 * day).

Definition visit30 : ViewData :=
  mkViewData 30 None "s-30" "10.0.0.3" None None None None None None.

Definition dbTrend : Db :=
  after
    ((_ <- recordView (R := exact_rounding) (monthLater - 3600000) visit30 ;;
      routes.GET_api_properties_id (mkRequest [("id", "40")] []))
       (mkDb [] [listing30; listing40] [mkUser 7 "Rajesh"] 1)).

(** The order of the [$sort] stage of the trending pipeline. *)
Definition trendOrder (a b : Property.t) : bool :=
  match compareBy aggregations.trendKey
          (Obj.literal [("trendScore", Descending); ("viewCount", Descending)]) a b with
  | Gt => false
  | _ => true
  end.

(** ** Trending by recent views *)

(** The ranking of the specification, in its words: the views within the
    trailing week of the listings that are active, grouped by listing,
    ordered by unique views and then by views, cut at [limit]. *)
Definition activeListing (ps : list Property.t) (listing : ObjectId) : bool :=
  existsb (fun p => hasId listing p && Property.isActive p) ps.

Definition trendingBySpec (now : Date) (limit : Z) (db : Db) : list Trending.Group :=
  firstn (Z.to_nat limit)
    (sortDocs Trending.groupKey
       (Obj.literal [("uniqueViews", Descending); ("viewCount", Descending)])
       (Trending.groupByProperty
          (filter (fun v => (now - week <=? viewedAt v)%Z
                            && activeListing (properties db) (property v))
             (views db)))).

(** The views of one listing among [vs] that pass a test, counted. *)
Definition countViews (listing : ObjectId) (test : PropertyView -> bool)
    (vs : list PropertyView) : Z :=
  Z.of_nat (List.length (filter (fun v => Nat.eqb (property v) listing && test v) vs)).

(** The listing of [v] has a group among [gs]. *)
Definition hasGroup (v : PropertyView) (gs : list Trending.Group) : bool :=
  existsb (fun id => Nat.eqb id (property v)) (map Trending._id gs).

(** A group carries the counts of the views of its listing. *)
Definition groupCounts (vs : list PropertyView) (g : Trending.Group) : Prop :=
  Trending.viewCount g = countViews (Trending._id g) (fun _ => true) vs
  /\ Trending.uniqueViews g = countViews (Trending._id g) isUnique vs
  /\ Trending.inquiries g
     = countViews (Trending._id g) (fun v => inquirySent (interactions v)) vs.

(** The order of the entries of the aggregation. *)
Definition moreUniqueViews (e1 e2 : Trending.Entry) : Prop :=
  (Trending.uniqueViews (Trending.group e2) <= Trending.uniqueViews (Trending.group e1))%Z.

(** Listing 20 is not active; it is viewed in two sessions and the sample
    listing in one, all within the hour. *)
Definition inactiveListing : Property.t :=
  Property.mk 20 "Shop in Johari Bazar" "commercial" 9000000 600 0 1
    "Jaipur" "Johari Bazar" [] None None 0
    false true false "inactive" 0 0 7 0.

Definition visit20 (session : string) : ViewData :=
  mkViewData 20 None session "10.0.0.4" None None None None None None.

Definition dbActivity : Db :=
  after
    ((_ <- recordView (R := exact_rounding) 0 (visit20 "s-a") ;;
      _ <- recordView (R := exact_rounding) 1000 (visit20 "s-b") ;;
      recordView (R := exact_rounding) 2000 anonymousVisit)
       (mkDb [] [sampleListing; inactiveListing] [mkUser 7 "Rajesh"] 1)).

(** ** Similar listings *)

(** What the filter of [getSimilarProperties] asks of a listing, given
    the reference listing. *)
Definition similarTo {R : Rounding} (reference : Property.t) (p : Property.t) : bool :=
  negb (Nat.eqb (Property._id reference) (Property._id p))
  && Property.isActive p
  && String.eqb "active" (Property.status p)
  && String.eqb (Property.type reference) (Property.type p)
  && String.eqb (Property.city reference) (Property.city p)
  && (Qle_bool (JS.mul (Property.price reference) (JS.lit (7 # 10))) (Property.price p)
      && Qle_bool (Property.price p) (JS.mul (Property.price reference) (JS.lit (13 # 10)))).

(** The similarity score of the specification, in its words: 10 for the
    same type, 5 for the same city, 5 for a price within 10 percent. *)
Definition similarityBySpec (reference p : Property.t) : Z :=
  ((if String.eqb (Property.type reference) (Property.type p) then 10 else 0)
   + (if String.eqb (Property.city reference) (Property.city p) then 5 else 0)
   + (if Qle_bool (Property.price reference * (9 # 10)) (Property.price p)
         && Qle_bool (Property.price p) (Property.price reference * (11 # 10))
      then 5 else 0))%Z.

(** Two flats in the city of the sample listing: one a quarter dearer,
    one of the same price, in that order in the collection. *)
Definition dearerFlat : Property.t :=
  Property.mk 11 "3 BHK flat in C-Scheme" "flat" 9375000 1500 3 3
    "Jaipur" "C-Scheme" ["Parking"] None None 1
    false true true "active" 0 0 7 0.

Definition samePriceFlat : Property.t :=
  Property.mk 12 "3 BHK flat in Bani Park" "flat" 7500000 1400 3 2
    "Jaipur" "Bani Park" ["Lift"] None None 1
    false true true "active" 0 0 7 0.

Definition dbSimilar : Db :=
  mkDb [] [sampleListing; dearerFlat; samePriceFlat] [mkUser 7 "Rajesh"] 1.

(** ** A search with an inverted price range *)

(** [GET /api/search?minPrice=10000000&maxPrice=5000000] *)
Definition invertedPriceRange : Request :=
  mkRequest [] [("minPrice", "10000000"); ("maxPrice", "5000000")].

(** [GET /api/search?minBedrooms=3&maxBedrooms=2] *)
Definition invertedBedroomRange : Request :=
  mkRequest [] [("minBedrooms", "3"); ("maxBedrooms", "2")].

(** The parameters the search controller reads from that request, and
    the filter the service builds from them. *)
Definition invertedParams : SearchParams.t :=
  SearchParams.mk None None (Some "10000000") (Some "5000000") None None None None None
    None None None None None None None None None.

Definition invertedFilter : Query :=
  [("isActive", CEq (VBool true));
   ("status", CEq (VStr "active"));
   ("price", COps [("$gte", VNum 10000000); ("$lte", VNum 5000000)])].

(** ** More of the property service *)

(** [{ isFeatured: b }] and [{ isVerified: b }] as updates of a listing. *)
Definition withIsFeatured (b : bool) (p : Property.t) : Property.t :=
  Property.mk (Property._id p) (Property.title p) (Property.type p) (Property.price p)
    (Property.area p) (Property.bedrooms p) (Property.bathrooms p) (Property.city p)
    (Property.location p) (Property.amenities p) (Property.facing p)
    (Property.furnishing p) (Property.parking p) b (Property.isVerified p)
    (Property.isActive p) (Property.status p) (Property.viewCount p)
    (Property.uniqueViews p) (Property.seller p) (Property.createdAt p).

Definition withIsVerified (b : bool) (p : Property.t) : Property.t :=
  Property.mk (Property._id p) (Property.title p) (Property.type p) (Property.price p)
    (Property.area p) (Property.bedrooms p) (Property.bathrooms p) (Property.city p)
    (Property.location p) (Property.amenities p) (Property.facing p)
    (Property.furnishing p) (Property.parking p) (Property.isFeatured p) b
    (Property.isActive p) (Property.status p) (Property.viewCount p)
    (Property.uniqueViews p) (Property.seller p) (Property.createdAt p).

(** [Property.findByIdAndUpdate(id, update, { new: true })]: the updated
    document is returned, [null] when no document has the id. *)
Definition Property_findByIdAndUpdate_new (id : ObjectId)
    (update : Property.t -> Property.t) : Async (option Property.t) :=
  fun db =>
    let properties' := updateFirst (hasId id) update (properties db) in
    mkRun (Returned (find (hasId id) properties'))
      (mkDb (views db) properties' (users db) (nextId db))
      [Call "Property" "findByIdAndUpdate"].

Module propertyService'.
(** The body the three administrative updates share. *)
Definition updated (property : option Property.t) : Async Property.t :=
  match property with
  | None => throw "Property not found"
  | Some property => ret property
  end.

(** [markAsFeatured(propertyId)] *)
Definition markAsFeatured (propertyId : ObjectId) : Async Property.t :=
  rethrow "Failed to mark as featured: "
    (property <- Property_findByIdAndUpdate_new propertyId (withIsFeatured true) ;;
     updated property).

(** [removeFromFeatured(propertyId)] *)
Definition removeFromFeatured (propertyId : ObjectId) : Async Property.t :=
  rethrow "Failed to remove from featured: "
    (property <- Property_findByIdAndUpdate_new propertyId (withIsFeatured false) ;;
     updated property).

(** [verifyProperty(propertyId)] *)
Definition verifyProperty (propertyId : ObjectId) : Async Property.t :=
  rethrow "Failed to verify property: "
    (property <- Property_findByIdAndUpdate_new propertyId (withIsVerified true) ;;
     updated property).

Section Service.
Variable E : Engine.

(** [getFeaturedProperties(limit = 6)]; [sort("-createdAt")] is
    [{ createdAt: -1 }]. *)
Definition getFeaturedProperties (limit : Z) : Async (list Property.t) :=
  rethrow "Failed to fetch featured properties: "
    (Property_find E
       (Obj.literal
          [("isActive", CEq (VBool true));
           ("isFeatured", CEq (VBool true));
           ("status", CEq (VStr "active"))])
       (Obj.literal [("createdAt", Descending)])
       (Some 0) (Some limit)).
End Service.
End propertyService'.

Module propertyController'.
(** [parseInt(value) || fallback]: the fallback stands in for [NaN] and
    for [0]. *)
Definition parseIntOrElse (fallback : Z) (value : option string) : Z :=
  match parseIntOf value with
  | Some 0%Z | None => fallback
  | Some n => n
  end.

(** The [data] of the answers that list properties:
    [{ properties, count }]. *)
Record Listing : Type := mkListing {
  listed : list Property.t;
  count : nat
}.

Section Controller.
Variable E : Engine.

(** [GET /api/properties/featured] *)
Definition getFeaturedProperties (req : Request) : Async (Response Listing) :=
  catch
    (let limit := parseIntOrElse 6 (Obj.get "limit" (query req)) in
     properties <- propertyService'.getFeaturedProperties E limit ;;
     ret (mkResponse 200 true None [] (Some (mkListing properties (List.length properties)))))
    (fun e =>
       ret (mkResponse 500 false (Some (messageOr "Failed to fetch featured properties" e))
              [] None)).

(** [GET /api/properties/trending], when the clock reads [now]. *)
Definition getTrendingProperties (now : Date) (req : Request) : Async (Response Listing) :=
  catch
    (let limit := parseIntOrElse 6 (Obj.get "limit" (query req)) in
     let days := parseIntOrElse 7 (Obj.get "days" (query req)) in
     properties <- propertyService.getTrendingProperties E now limit days ;;
     ret (mkResponse 200 true None [] (Some (mkListing properties (List.length properties)))))
    (fun e =>
       ret (mkResponse 500 false (Some (messageOr "Failed to fetch trending properties" e))
              [] None)).
End Controller.

Section Similar.
Context {R : Rounding}.
Variable E : Engine.

(** [GET /api/properties/:id/similar] *)
Definition getSimilarProperties (req : Request) : Async (Response Listing) :=
  catch
    (let limit := parseIntOrElse 4 (Obj.get "limit" (query req)) in
     properties <-
       match castObjectId (searchService.strOf (Obj.get "id" (params req))) with
       | Some id => propertyService.getSimilarProperties E id limit
       | None => throw "Failed to fetch similar properties: Cast to ObjectId failed"
       end ;;
     ret (mkResponse 200 true None [] (Some (mkListing properties (List.length properties)))))
    (fun e =>
       ret (mkResponse 404 false (Some (messageOr "Failed to fetch similar properties" e))
              [] None)).
End Similar.
End propertyController'.

(** ** More of the search service *)

Module searchService'.
(** A price band of [getPriceRangeCategories]; [max] is [null] for the
    band that has no upper bound. *)
Record Category : Type := mkCategory {
  label : string;
  min : Q;
  max : option Q
}.

(** [{ ...category, count }] *)
Record Counted : Type := mkCounted {
  category : Category;
  count : nat
}.

Definition categories : list Category :=
  [ mkCategory "Under ₹50 Lakhs" 0 (Some 5000000);
    mkCategory "₹50L - ₹75L" 5000000 (Some 7500000);
    mkCategory "₹75L - ₹1 Crore" 7500000 (Some 10000000);
    mkCategory "₹1 Cr - ₹2 Cr" 10000000 (Some 20000000);
    mkCategory "Above ₹2 Crore" 20000000 None ].

(** The query of one band; [$lte] is assigned when [max] is truthy,
    which [null] and [0] are not. *)
Definition categoryQuery (category : Category) : Query :=
  let price := Obj.literal [("$gte", VNum (min category))] in
  let price :=
    match max category with
    | Some m => if Qeq_bool m 0 then price else Obj.set "$lte" (VNum m) price
    | None => price
    end in
  Obj.literal
    [("isActive", CEq (VBool true));
     ("status", CEq (VStr "active"));
     ("price", COps price)].

(** [Promise.all(items.map(f))] for an [f] that calls the store once and
    does not throw: the calls are issued in the order of the items, and
    the results come in that order. *)
Fixpoint all {A B} (f : A -> Async B) (items : list A) : Async (list B) :=
  match items with
  | [] => ret []
  | a :: items' =>
      b <- f a ;;
      bs <- all f items' ;;
      ret (b :: bs)
  end.

Section Service.
Variable E : Engine.

(** [getPriceRangeCategories()] *)
Definition getPriceRangeCategories : Async (list Counted) :=
  rethrow "Failed to get price range categories: "
    (all (fun category =>
            count <- Property_countDocuments E (categoryQuery category) ;;
            ret (mkCounted category count))
       categories).
End Service.
End searchService'.

(** A listing that is active and has the status ["active"]. *)
Definition onTheMarket (p : Property.t) : bool :=
  Property.isActive p && String.eqb "active" (Property.status p).

(** The prices at which two bands meet. *)
Definition bandEdges : list Q := [5000000; 7500000; 10000000; 20000000].

Definition atBandEdge (p : Property.t) : bool :=
  existsb (Qeq_bool (Property.price p)) bandEdges.

(** ** More samples *)

(** [GET /api/search?minPrice=5000000&maxPrice=6000000] *)
Definition priceBand : SearchParams.t :=
  SearchParams.mk None None (Some "5000000") (Some "6000000") None None None None None
    None None None None None None None None None.

(** [GET /api/search?amenities=Lift] *)
Definition liftSearch : SearchParams.t :=
  SearchParams.mk None None None None None None None None None
    None None (Some ["Lift"]) None None None None None None.

(** [GET /api/search?isVerified=yes] *)
Definition verifiedYes : SearchParams.t :=
  SearchParams.mk None None None None None None None None None
    None None None None None (Some "yes") None None None.

(** A view data without a session id. *)
Definition blankSession : ViewData :=
  mkViewData 10 None "" "10.0.0.1" None None None None None None.

(** A later visit in the session of [memberView], not signed in. *)
Definition returningVisit : ViewData :=
  mkViewData 10 None "s-A" "10.0.0.2" None None None None None None.

(** Two days after time 0. *)
Definition twoDaysLater : Date := 2 * day.

(** A request without a parameter. *)
Definition plainRequest : Request := mkRequest [] [].

(** [GET /api/search?q=%20villa%20], and an engine whose text index
    matches the listings of the type that is searched for. *)
Definition textSearchParams : SearchParams.t :=
  SearchParams.mk (Some " villa ") None None None None None None None None
    None None None None None None None None None.

Definition titleEngine : Engine :=
  mkEngine (fun _ _ => false) (fun q p => String.eqb q (Property.type p))
    (fun _ p => inject_Z (Property.viewCount p)).

(** ** Plain parameters *)

(** A parameter written with decimal digits alone, fifteen at most:
    [parseInt] reads it whole, and its number is exact. *)
Fixpoint allDigits (s : string) : bool :=
  match s with
  | EmptyString => true
  | String c s' =>
      match Str.digit c with
      | Some _ => allDigits s'
      | None => false
      end
  end.

Definition decimal (s : string) : bool :=
  negb (String.eqb s "") && allDigits s && Nat.leb (String.length s) 15.

(** A parameter that is absent or decimal. *)
Definition absentOrDecimal (o : option string) : bool :=
  match o with Some s => decimal s | None => true end.

(** A text of ASCII characters alone: [trim] strips from it what
    JavaScript strips. *)
Fixpoint asciiOnly (s : string) : bool :=
  match s with
  | EmptyString => true
  | String c s' => Nat.ltb (nat_of_ascii c) 128 && asciiOnly s'
  end.

(** The interactions of the view an update answers with. *)
Definition answeredInteractions (r : Result (option PropertyView)) : option Interactions :=
  match r with
  | Returned (Some v) => Some (interactions v)
  | _ => None
  end.

(** [GET /api/properties/trending?limit=1] and
    [GET /api/properties/10/similar]. *)
Definition limitedRequest : Request := mkRequest [] [("limit", "1")].

Definition similarRequest : Request := mkRequest [("id", "10")] [].

(** The order of the [$sort] stage of the trending pipeline: the score
    over the counters of the listing, highest first, and among equal
    scores the [viewCount], highest first. *)
Definition rankedBefore (a b : Property.t) : Prop :=
  (Property.viewCount b * 1 + Property.uniqueViews b * 2
   < Property.viewCount a * 1 + Property.uniqueViews a * 2)%Z
  \/ ((Property.viewCount a * 1 + Property.uniqueViews a * 2
       = Property.viewCount b * 1 + Property.uniqueViews b * 2)%Z
      /\ (Property.viewCount b <= Property.viewCount a)%Z).

(** ** Predicates of the properties *)

(** What the store accepts as a limit and as a date: an integer of 32
    bits, and a time within the range of a JavaScript [Date]. *)
Definition int32 (n : Z) : Prop := (Z.abs n < 2 ^ 31)%Z.

Definition validDate (t : Date) : Prop := (Z.abs t <= 8640000000000000)%Z.

(** No view of the collection has the id that the next document gets. *)
Definition idsBelow (n : ObjectId) (vs : list PropertyView) : Prop :=
  Forall (fun w => (_id w < n)%nat) vs.

(** The orders of the sort modes ["newest"] and ["popular"]. *)
Definition newestFirst (a b : Property.t) : Prop :=
  (Property.createdAt b <= Property.createdAt a)%Z.

Definition mostViewedFirst (a b : Property.t) : Prop :=
  (Property.viewCount b < Property.viewCount a)%Z
  \/ (Property.viewCount a = Property.viewCount b
      /\ Property.uniqueViews b <= Property.uniqueViews a)%Z.

(** The sort modes that do not fall back to the relevance. *)
Definition otherModes : list string :=
  ["price_asc"; "price_desc"; "area_asc"; "area_desc"; "oldest"; "popular"].

(** One assignment of [searchProperties] to its filter, with the
    condition it stands under. *)
Definition assign (filter : Query) (a : bool * (string * Clause)) : Query :=
  if fst a then Obj.set (fst (snd a)) (snd (snd a)) filter else filter.

(** The parameter is given, whatever its value. *)
Definition given {A} (o : option A) : bool :=
  match o with Some _ => true | None => false end.

(** The assignments of [searchProperties] to its filter, in their
    order. *)
Definition assignments (sp : SearchParams.t) : list (bool * (string * Clause)) :=
  [ (JS.truthy (SearchParams.query sp)
     && JS.truthy (searchService.trimmed (SearchParams.query sp)),
     ("$text", CText (Str.trim (searchService.strOf (SearchParams.query sp)))));
    (JS.truthy (SearchParams.type sp),
     ("type", CEq (VStr (searchService.strOf (SearchParams.type sp)))));
    (JS.truthy (SearchParams.minPrice sp) || JS.truthy (SearchParams.maxPrice sp),
     ("price",
      COps (searchService.range (SearchParams.minPrice sp) (SearchParams.maxPrice sp))));
    (JS.truthy (SearchParams.minArea sp) || JS.truthy (SearchParams.maxArea sp),
     ("area",
      COps (searchService.range (SearchParams.minArea sp) (SearchParams.maxArea sp))));
    (JS.truthy (SearchParams.minBedrooms sp) || JS.truthy (SearchParams.maxBedrooms sp),
     ("bedrooms",
      COps (searchService.range (SearchParams.minBedrooms sp)
              (SearchParams.maxBedrooms sp))));
    (JS.truthy (SearchParams.bathrooms sp),
     ("bathrooms",
      COps (Obj.literal
              [("$gte", numberOrNaN (parseIntOf (SearchParams.bathrooms sp)))])));
    (JS.truthy (SearchParams.city sp),
     ("city", CRegex (searchService.strOf (SearchParams.city sp))));
    (JS.truthy (SearchParams.location sp),
     ("location", CRegex (searchService.strOf (SearchParams.location sp))));
    (given (SearchParams.isFeatured sp),
     ("isFeatured", CEq (VBool (searchService.isTrue (SearchParams.isFeatured sp)))));
    (given (SearchParams.isVerified sp),
     ("isVerified", CEq (VBool (searchService.isTrue (SearchParams.isVerified sp)))));
    (match SearchParams.amenities sp with Some (_ :: _) => true | _ => false end,
     ("amenities",
      CAll (match SearchParams.amenities sp with Some l => l | None => [] end))) ]
  ++ match SearchParams.features sp with
     | Some f =>
         [ (JS.truthy (SearchParams.facing f),
            ("features.facing", CEq (VStr (searchService.strOf (SearchParams.facing f)))));
           (JS.truthy (SearchParams.furnishing f),
            ("features.furnishing",
             CEq (VStr (searchService.strOf (SearchParams.furnishing f)))));
           (JS.truthy (SearchParams.parking f),
            ("features.parking",
             COps (Obj.literal
                     [("$gte", numberOrNaN (parseIntOf (SearchParams.parking f)))]))) ]
     | None => []
     end.

(** The assignment names the key. *)
Definition assigns (k : string) (a : bool * (string * Clause)) : bool :=
  String.eqb k (fst (snd a)).

(** A chain without a sanitizer. *)
Definition untrimmed (c : validator.Chain) : bool :=
  forallb (fun s => match s with validator.trim => false | _ => true end)
    (validator.steps c).

(** What the query of a band asks of a listing. *)
Definition inBand (c : searchService'.Category) (p : Property.t) : bool :=
  onTheMarket p
  && Qle_bool (searchService'.min c) (Property.price p)
  && match searchService'.max c with
     | Some m => Qeq_bool m 0 || Qle_bool (Property.price p) m
     | None => true
     end.

(** The trend score of a row, from the counters the row shows. *)
Definition rowScore (row : aggregations.Projected) : Z :=
  (aggregations.viewCount row * 1 + aggregations.uniqueViews row * 2)%Z.

(** * Properties *)

Unset Implicit Arguments.

(** ** Numbers *)

Section RoundingFacts.
Context {R : Rounding}.

Lemma fl_compat (x y : Q) : x == y -> fl x == fl y.
Proof.
  intros Hxy. apply Qle_antisym; apply fl_mono; rewrite Hxy; apply Qle_refl.
Qed.

#[global] Instance fl_proper : Proper (Qeq ==> Qeq) fl.
Proof. intros x y Hxy. now apply fl_compat. Qed.

Lemma fl_small (n : Z) : (0 <= n <= 1000)%Z -> fl (inject_Z n) == inject_Z n.
Proof.
  intros Hn. apply fl_int.
  assert (1000 <= 2 ^ 53)%Z by (vm_compute; discriminate). lia.
Qed.

Lemma fl_nonneg (x : Q) : 0 <= x -> 0 <= fl x.
Proof.
  intros Hx. rewrite <- (fl_small 0) by lia. now apply fl_mono.
Qed.

(** A number of the format: rounding leaves it as it is. *)
Definition representable (x : Q) : Prop := fl x == x.

Lemma representable_fl (x : Q) : representable (fl x).
Proof. apply fl_idem. Qed.

Lemma representable_small (n : Z) : (0 <= n <= 1000)%Z -> representable (inject_Z n).
Proof. apply fl_small. Qed.

Lemma add_mono (x x' y y' : Q) : x <= x' -> y <= y' -> JS.add x y <= JS.add x' y'.
Proof. intros Hx Hy. apply fl_mono. now apply Qplus_le_compat. Qed.

Lemma mul_mono (x x' k : Q) : 0 <= k -> x <= x' -> JS.mul x k <= JS.mul x' k.
Proof. intros Hk Hx. apply fl_mono. now apply Qmult_le_compat_r. Qed.

Lemma div_mono (x x' k : Q) : 0 < k -> x <= x' -> JS.div x k <= JS.div x' k.
Proof.
  intros Hk Hx. apply fl_mono. unfold Qdiv.
  apply Qmult_le_compat_r; [exact Hx | ].
  apply Qlt_le_weak. now apply Qinv_lt_0_compat.
Qed.

Lemma add_nonneg (x y : Q) : 0 <= x -> 0 <= y -> 0 <= JS.add x y.
Proof.
  intros Hx Hy. apply fl_nonneg.
  setoid_replace 0 with (0 + 0) by ring. now apply Qplus_le_compat.
Qed.

Lemma mul_nonneg (x y : Q) : 0 <= x -> 0 <= y -> 0 <= JS.mul x y.
Proof. intros Hx Hy. apply fl_nonneg. now apply Qmult_le_0_compat. Qed.

Lemma div_nonneg (x k : Q) : 0 <= x -> 0 < k -> 0 <= JS.div x k.
Proof.
  intros Hx Hk. apply fl_nonneg. unfold Qdiv. apply Qmult_le_0_compat; [exact Hx | ].
  apply Qlt_le_weak. now apply Qinv_lt_0_compat.
Qed.

(** Adding a non-negative number to a number of the format does not go
    below it. *)
Lemma add_increases (x k : Q) : representable x -> 0 <= k -> x <= JS.add x k.
Proof.
  intros Hx Hk. unfold JS.add, representable in *.
  apply Qle_trans with (fl x); [rewrite Hx; apply Qle_refl | ].
  apply fl_mono. apply Qle_trans with (x + 0); [ring_simplify; apply Qle_refl | ].
  apply Qplus_le_compat; [apply Qle_refl | exact Hk].
Qed.
End RoundingFacts.

Lemma Math_round_integer (n : Z) : JS.Math_round (inject_Z n) = n.
Proof.
  unfold JS.Math_round.
  assert (Hlo : (n <= Qfloor (inject_Z n + (1 # 2)))%Z).
  { rewrite <- (Qfloor_Z n) at 1. apply Qfloor_resp_le.
    setoid_replace (inject_Z n) with (inject_Z n + 0) at 1 by ring.
    apply Qplus_le_compat; [apply Qle_refl | discriminate]. }
  assert (Hhi : (Qfloor (inject_Z n + (1 # 2)) < n + 1)%Z).
  { rewrite Zlt_Qlt. eapply Qle_lt_trans; [apply Qfloor_le | ].
    rewrite inject_Z_plus. apply Qplus_lt_r. reflexivity. }
  lia.
Qed.

(** *** A rounding that rounds *)

Lemma grid_pos : 0 < grid.
Proof. reflexivity. Qed.

Lemma fl_grid_mono (x y : Q) : x <= y -> fl_grid x <= fl_grid y.
Proof.
  intros Hxy. unfold fl_grid, Qdiv.
  apply Qmult_le_compat_r; [ | discriminate].
  rewrite <- Zle_Qle. apply Qfloor_resp_le.
  apply Qplus_le_compat; [ | apply Qle_refl].
  apply Qmult_le_compat_r; [exact Hxy | discriminate].
Qed.

Lemma fl_grid_of_multiple (k : Z) : fl_grid (inject_Z k / grid) == inject_Z k / grid.
Proof.
  unfold fl_grid.
  rewrite (Qfloor_comp _ (inject_Z k + (1 # 2))).
  - change (Qfloor (inject_Z k + (1 # 2))) with (JS.Math_round (inject_Z k)).
    rewrite Math_round_integer. reflexivity.
  - field. discriminate.
Qed.

Lemma fl_grid_idem (x : Q) : fl_grid (fl_grid x) == fl_grid x.
Proof. unfold fl_grid at 2 3. apply fl_grid_of_multiple. Qed.

Lemma fl_grid_int (n : Z) : (Z.abs n <= 2 ^ 53)%Z -> fl_grid (inject_Z n) == inject_Z n.
Proof.
  intros _.
  assert (H : inject_Z n == inject_Z (n * 2 ^ 20) / grid).
  { rewrite inject_Z_mult. unfold grid. field. discriminate. }
  apply Qeq_trans with (fl_grid (inject_Z (n * 2 ^ 20) / grid)).
  - apply Qle_antisym; apply fl_grid_mono; rewrite <- H; apply Qle_refl.
  - rewrite fl_grid_of_multiple. symmetry. exact H.
Qed.

(** Fixed-point arithmetic satisfies the three laws, and it is not exact. *)
Definition grid_rounding : Rounding :=
  Build_Rounding fl_grid fl_grid_mono fl_grid_idem fl_grid_int.

Lemma grid_rounding_rounds : fl_grid (1 # 3) == 349525 # 1048576.
Proof. reflexivity. Qed.

Lemma Math_round_mono (x y : Q) : x <= y -> (JS.Math_round x <= JS.Math_round y)%Z.
Proof.
  intros Hxy. unfold JS.Math_round. apply Qfloor_resp_le.
  apply Qplus_le_compat; [exact Hxy | apply Qle_refl].
Qed.

Lemma Math_round_nonneg (x : Q) : 0 <= x -> (0 <= JS.Math_round x)%Z.
Proof.
  intros Hx. change 0%Z with (Qfloor 0). unfold JS.Math_round. apply Qfloor_resp_le.
  setoid_replace 0 with (0 + 0) by ring.
  apply Qplus_le_compat; [exact Hx | discriminate].
Qed.

(** ** The engagement score *)

Section EngagementFacts.
Context {R : Rounding}.

Lemma engagementScore_rawScore (v : PropertyView) :
  engagementScore v
  = Z.min 100 (JS.Math_round (rawScore (viewDuration v) (scrollDepth v) (interactions v))).
Proof. reflexivity. Qed.

Lemma gt_zero (d : Q) : JS.gt d 0 = true <-> 0 < d.
Proof.
  unfold JS.gt. rewrite negb_true_iff. split.
  - intros H. apply Qnot_le_lt. intros Hle.
    apply Qle_bool_iff in Hle. congruence.
  - intros H. destruct (Qle_bool d 0) eqn:Hb; [ | reflexivity].
    apply Qle_bool_iff in Hb. exfalso. exact (Qlt_not_le _ _ H Hb).
Qed.

Lemma durationPoints_nonneg (d : Q) : 0 <= durationPoints d.
Proof.
  unfold durationPoints. destruct (JS.gt d 0) eqn:Hd; [ | apply Qle_refl].
  apply gt_zero in Hd. apply add_nonneg; [apply Qle_refl | ].
  apply Q.min_glb; [discriminate | ].
  apply mul_nonneg; [ | discriminate].
  apply div_nonneg; [now apply Qlt_le_weak | reflexivity].
Qed.

Lemma durationPoints_mono (d d' : Q) : d <= d' -> durationPoints d <= durationPoints d'.
Proof.
  intros Hdd. unfold durationPoints at 1.
  destruct (JS.gt d 0) eqn:Hd; [ | apply durationPoints_nonneg].
  apply gt_zero in Hd.
  assert (Hd' : JS.gt d' 0 = true).
  { apply gt_zero. now apply Qlt_le_trans with d. }
  unfold durationPoints. rewrite Hd'.
  apply add_mono; [apply Qle_refl | ].
  apply Q.min_le_compat_l.
  apply mul_mono; [discriminate | ].
  apply div_mono; [reflexivity | exact Hdd].
Qed.

Lemma bonus_representable (b : bool) (k s : Q) :
  representable s -> representable (bonus b k s).
Proof.
  intros Hs. destruct b; simpl; [apply representable_fl | exact Hs].
Qed.

Lemma bonus_nonneg (b : bool) (k s : Q) : 0 <= k -> 0 <= s -> 0 <= bonus b k s.
Proof.
  intros Hk Hs. destruct b; simpl; [now apply add_nonneg | exact Hs].
Qed.

(** One conditional addition is monotone in the running score and in
    its flag. *)
Lemma bonus_mono (b b' : bool) (k s s' : Q) :
  0 <= k -> representable s' -> (b = true -> b' = true) -> s <= s' ->
  bonus b k s <= bonus b' k s'.
Proof.
  intros Hk Hrep Hb Hs. destruct b, b'; simpl.
  - apply add_mono; [exact Hs | apply Qle_refl].
  - specialize (Hb eq_refl). discriminate.
  - apply Qle_trans with s'; [exact Hs | now apply add_increases].
  - exact Hs.
Qed.

(** The score before rounding is monotone in the duration, in the
    scroll depth and in the flags, all at once. *)
Lemma rawScore_mono (d d' s s' : Q) (i i' : Interactions) :
  d <= d' -> s <= s' -> flagsLe i i' -> rawScore d s i <= rawScore d' s' i'.
Proof.
  intros Hd Hs (Hg & Hm & Hc & Hp & Hw & Hf & Hi). unfold rawScore.
  repeat (apply bonus_mono;
          [discriminate
          | repeat apply bonus_representable; apply representable_fl
          | assumption
          | ]).
  apply add_mono; [now apply durationPoints_mono | ].
  apply mul_mono; [discriminate | ].
  apply div_mono; [reflexivity | exact Hs].
Qed.

Lemma rawScore_nonneg (d s : Q) (i : Interactions) : 0 <= s -> 0 <= rawScore d s i.
Proof.
  intros Hs. unfold rawScore.
  repeat (apply bonus_nonneg; [discriminate | ]).
  apply add_nonneg; [apply durationPoints_nonneg | ].
  apply mul_nonneg; [ | discriminate].
  apply div_nonneg; [exact Hs | reflexivity].
Qed.

Lemma engagementScore_mono (v v' : PropertyView) :
  viewDuration v <= viewDuration v' ->
  scrollDepth v <= scrollDepth v' ->
  flagsLe (interactions v) (interactions v') ->
  (engagementScore v <= engagementScore v')%Z.
Proof.
  intros Hd Hs Hi. rewrite !engagementScore_rawScore.
  apply Z.min_le_compat_l. apply Math_round_mono. now apply rawScore_mono.
Qed.

Lemma engagementScore_range (v : PropertyView) :
  0 <= scrollDepth v -> (0 <= engagementScore v <= 100)%Z.
Proof.
  intros Hs. rewrite engagementScore_rawScore. split.
  - apply Z.min_glb; [lia | ]. apply Math_round_nonneg. now apply rawScore_nonneg.
  - apply Z.le_min_l.
Qed.

Lemma flagsLe_refl (i : Interactions) : flagsLe i i.
Proof. repeat split; auto. Qed.

Lemma flagsLe_setInteraction (interaction : string) (i : Interactions) :
  flagsLe i (setInteraction interaction i).
Proof.
  unfold setInteraction.
  repeat match goal with
         | |- context [if ?c then _ else _] => destruct c
         end;
    repeat split; simpl; auto.
Qed.
End EngagementFacts.

(** *** Scores that are integers *)

Section IntegerScores.
Context {R : Rounding}.

Lemma add_integers (x y : Q) (n m : Z) :
  x == inject_Z n -> y == inject_Z m -> (0 <= n + m <= 1000)%Z ->
  JS.add x y == inject_Z (n + m).
Proof.
  intros Hx Hy Hnm. unfold JS.add.
  rewrite (fl_compat (x + y) (inject_Z (n + m))).
  - now apply fl_small.
  - rewrite Hx, Hy, inject_Z_plus. reflexivity.
Qed.

Lemma bonus_integers (b : bool) (k n : Z) (s : Q) :
  s == inject_Z n -> (0 <= k)%Z -> (0 <= n)%Z -> (n + k <= 1000)%Z ->
  bonus b (inject_Z k) s == inject_Z (n + if b then k else 0).
Proof.
  intros Hs Hk Hn Hnk. destruct b; simpl.
  - apply add_integers; [exact Hs | reflexivity | lia].
  - rewrite Hs, Z.add_0_r. reflexivity.
Qed.

(** On a running sum that is an integer up to 50, the flags add their
    weights, exactly. *)
Lemma rawScore_integers (d s : Q) (i : Interactions) (base : Z) :
  JS.add (durationPoints d) (JS.mul (JS.div s 100) 20) == inject_Z base ->
  (0 <= base <= 50)%Z ->
  rawScore d s i == inject_Z (base + interactionPoints i).
Proof.
  intros Hbase Hb. unfold rawScore, interactionPoints.
  set (g := if imageGalleryOpened i then 5%Z else 0%Z).
  set (m := if mapViewed i then 5%Z else 0%Z).
  set (c := if contactClicked i then 10%Z else 0%Z).
  set (p := if phoneRevealed i then 8%Z else 0%Z).
  set (w := if whatsappClicked i then 7%Z else 0%Z).
  set (f := if favorited i then 10%Z else 0%Z).
  set (q := if inquirySent i then 15%Z else 0%Z).
  assert (Hg : (0 <= g <= 5)%Z) by (subst g; destruct (imageGalleryOpened i); lia).
  assert (Hm : (0 <= m <= 5)%Z) by (subst m; destruct (mapViewed i); lia).
  assert (Hc : (0 <= c <= 10)%Z) by (subst c; destruct (contactClicked i); lia).
  assert (Hp : (0 <= p <= 8)%Z) by (subst p; destruct (phoneRevealed i); lia).
  assert (Hw : (0 <= w <= 7)%Z) by (subst w; destruct (whatsappClicked i); lia).
  assert (Hf : (0 <= f <= 10)%Z) by (subst f; destruct (favorited i); lia).
  assert (Hq : (0 <= q <= 15)%Z) by (subst q; destruct (inquirySent i); lia).
  pose proof (bonus_integers (imageGalleryOpened i) 5 base _ Hbase) as H1.
  fold g in H1. specialize (H1 ltac:(lia) ltac:(lia) ltac:(lia)).
  pose proof (bonus_integers (mapViewed i) 5 (base + g) _ H1) as H2.
  fold m in H2. specialize (H2 ltac:(lia) ltac:(lia) ltac:(lia)).
  pose proof (bonus_integers (contactClicked i) 10 (base + g + m) _ H2) as H3.
  fold c in H3. specialize (H3 ltac:(lia) ltac:(lia) ltac:(lia)).
  pose proof (bonus_integers (phoneRevealed i) 8 (base + g + m + c) _ H3) as H4.
  fold p in H4. specialize (H4 ltac:(lia) ltac:(lia) ltac:(lia)).
  pose proof (bonus_integers (whatsappClicked i) 7 (base + g + m + c + p) _ H4) as H5.
  fold w in H5. specialize (H5 ltac:(lia) ltac:(lia) ltac:(lia)).
  pose proof (bonus_integers (favorited i) 10 (base + g + m + c + p + w) _ H5) as H6.
  fold f in H6. specialize (H6 ltac:(lia) ltac:(lia) ltac:(lia)).
  pose proof (bonus_integers (inquirySent i) 15 (base + g + m + c + p + w + f) _ H6) as H7.
  fold q in H7. specialize (H7 ltac:(lia) ltac:(lia) ltac:(lia)).
  rewrite H7. apply inject_Z_injective. lia.
Qed.

Lemma engagementScore_integers (v : PropertyView) (base : Z) :
  JS.add (durationPoints (viewDuration v)) (JS.mul (JS.div (scrollDepth v) 100) 20)
  == inject_Z base ->
  (0 <= base <= 50)%Z ->
  engagementScore v = Z.min 100 (base + interactionPoints (interactions v)).
Proof.
  intros Hbase Hb. rewrite engagementScore_rawScore. f_equal.
  unfold JS.Math_round.
  rewrite (Qfloor_comp _ (inject_Z (base + interactionPoints (interactions v)) + (1 # 2))).
  - apply Math_round_integer.
  - rewrite (rawScore_integers _ _ _ base Hbase Hb). reflexivity.
Qed.

(** Nothing scrolled: the scroll depth gives no point. *)
Lemma scrollPoints_zero : JS.mul (JS.div 0 100) 20 == 0.
Proof.
  unfold JS.mul, JS.div.
  rewrite (fl_compat (0 / 100) (inject_Z 0)) by reflexivity.
  rewrite (fl_small 0) by lia.
  rewrite (fl_compat (inject_Z 0 * 20) (inject_Z 0)) by reflexivity.
  apply (fl_small 0). lia.
Qed.

(** Scrolled to the end: 20 points. *)
Lemma scrollPoints_full : JS.mul (JS.div 100 100) 20 == 20.
Proof.
  unfold JS.mul, JS.div.
  rewrite (fl_compat (100 / 100) (inject_Z 1)) by reflexivity.
  rewrite (fl_small 1) by lia.
  rewrite (fl_compat (inject_Z 1 * 20) (inject_Z 20)) by reflexivity.
  apply (fl_small 20). lia.
Qed.

(** Five minutes or more: the 30 points of the cap. *)
Lemma durationPoints_cap (d : Q) : 300 <= d -> durationPoints d == 30.
Proof.
  intros Hd. unfold durationPoints.
  assert (Hpos : JS.gt d 0 = true).
  { apply gt_zero. apply Qlt_le_trans with 300; [reflexivity | exact Hd]. }
  rewrite Hpos.
  assert (H1 : 1 <= JS.div d 300).
  { apply Qle_trans with (JS.div 300 300).
    - unfold JS.div. rewrite (fl_compat (300 / 300) (inject_Z 1)) by reflexivity.
      rewrite (fl_small 1) by lia. apply Qle_refl.
    - apply div_mono; [reflexivity | exact Hd]. }
  assert (H30 : 30 <= JS.mul (JS.div d 300) 30).
  { apply Qle_trans with (JS.mul 1 30).
    - unfold JS.mul. rewrite (fl_compat (1 * 30) (inject_Z 30)) by reflexivity.
      rewrite (fl_small 30) by lia. apply Qle_refl.
    - apply mul_mono; [discriminate | exact H1]. }
  unfold JS.Math_min, JS.add. rewrite (Q.min_l _ _ H30).
  rewrite (fl_compat (0 + 30) (inject_Z 30)) by reflexivity.
  apply (fl_small 30). lia.
Qed.

Lemma durationPoints_none (d : Q) : d <= 0 -> durationPoints d == 0.
Proof.
  intros Hd. unfold durationPoints.
  destruct (JS.gt d 0) eqn:Hpos; [ | reflexivity].
  apply gt_zero in Hpos. exfalso. exact (Qlt_not_le _ _ Hpos Hd).
Qed.
End IntegerScores.

(** Setting a flag, as [updateInteraction] does, never lowers the score. *)
Lemma engagementScore_setInteraction {R : Rounding} (v : PropertyView) (interaction : string) :
  (engagementScore v
   <= engagementScore (withInteractions (setInteraction interaction (interactions v)) v))%Z.
Proof.
  apply engagementScore_mono; simpl;
    [apply Qle_refl | apply Qle_refl | apply flagsLe_setInteraction].
Qed.

(** What holds of the score: it does not decrease when the view
    duration, the scroll depth and the interaction flags go up (any of
    them alone as well, the others being equal), it is at most 100, and it
    is at least 0 for a view whose scroll depth is not negative. *)
Theorem engagementScore_monotone_bounded {R : Rounding} (v v' : PropertyView) :
  viewDuration v <= viewDuration v' ->
  scrollDepth v <= scrollDepth v' ->
  flagsLe (interactions v) (interactions v') ->
  0 <= scrollDepth v ->
  (0 <= engagementScore v)%Z
  /\ (engagementScore v <= engagementScore v')%Z
  /\ (engagementScore v' <= 100)%Z.
Proof.
  intros Hd Hs Hi H0. repeat split.
  - now apply engagementScore_range.
  - now apply engagementScore_mono.
  - rewrite engagementScore_rawScore. apply Z.le_min_l.
Qed.

Lemma engagementScore_monotone_bounded_witness :
  (0 <= engagementScore (R := exact_rounding) freshView)%Z
  /\ (engagementScore (R := exact_rounding) freshView
      <= engagementScore (R := exact_rounding) engagedView)%Z
  /\ (engagementScore (R := exact_rounding) engagedView <= 100)%Z.
Proof.
  apply (engagementScore_monotone_bounded (R := exact_rounding) freshView engagedView).
  - vm_compute. discriminate.
  - vm_compute. discriminate.
  - vm_compute. repeat split; intros H; discriminate H.
  - vm_compute. discriminate.
Defined.

(** C10: the score is not always within 0 and 100.  A view is recorded
    and its session is closed with a scroll depth of -50;
    [endViewSession] stores the value as it is, no validator of the schema
    runs, and the score of the view it returns is -10: only the upper end
    is clamped. *)
Theorem engagementScore_below_zero :
  exists v,
    result ((view <- recordView (R := exact_rounding) 1000 anonymousVisit ;;
             endViewSession 2000 (_id view) 0 (-50 # 1)) db0)
    = Returned (Some v)
    /\ scrollDepth v = -50 # 1
    /\ engagementScore (R := exact_rounding) v = (-10)%Z.
Proof.
  eexists. split; [reflexivity | ]. split; reflexivity.
Qed.

Lemma interactionPoints_bound (i : Interactions) : (0 <= interactionPoints i <= 60)%Z.
Proof.
  unfold interactionPoints.
  destruct (imageGalleryOpened i), (mapViewed i), (contactClicked i), (phoneRevealed i),
    (whatsappClicked i), (favorited i), (inquirySent i); lia.
Qed.

(** C2: a view with no time spent and nothing scrolled scores 0, and the
    same view with every interaction flag set scores 60: the flags
    contribute 60 points, not at most 50. *)
Theorem interactions_contribute_sixty {R : Rounding} :
  engagementScore freshView = 0%Z
  /\ engagementScore (withInteractions allInteractions freshView) = 60%Z.
Proof.
  assert (Hbase : JS.add (durationPoints 0) (JS.mul (JS.div 0 100) 20) == inject_Z 0).
  { unfold JS.add.
    rewrite (fl_compat (durationPoints 0 + JS.mul (JS.div 0 100) 20) (inject_Z 0)).
    - apply (fl_small 0). lia.
    - rewrite (durationPoints_none 0) by apply Qle_refl.
      rewrite scrollPoints_zero. reflexivity. }
  split.
  - rewrite (engagementScore_integers freshView 0 Hbase) by lia. reflexivity.
  - rewrite (engagementScore_integers (withInteractions allInteractions freshView) 0 Hbase)
      by lia.
    reflexivity.
Qed.

(** ** The [bounced] flag *)

Section Bounced.
Context {R : Rounding}.

Lemma base_zero : JS.add (durationPoints 0) (JS.mul (JS.div 0 100) 20) == inject_Z 0.
Proof.
  unfold JS.add.
  rewrite (fl_compat (durationPoints 0 + JS.mul (JS.div 0 100) 20) (inject_Z 0)).
  - apply (fl_small 0). lia.
  - rewrite (durationPoints_none 0) by apply Qle_refl.
    rewrite scrollPoints_zero. reflexivity.
Qed.

Lemma base_fifty : JS.add (durationPoints 400) (JS.mul (JS.div 100 100) 20) == inject_Z 50.
Proof.
  unfold JS.add.
  rewrite (fl_compat (durationPoints 400 + JS.mul (JS.div 100 100) 20) (inject_Z 50)).
  - apply (fl_small 50). lia.
  - rewrite (durationPoints_cap 400) by discriminate.
    rewrite scrollPoints_full. reflexivity.
Qed.

(** No time, no scroll, no scored interaction: the score is 0. *)
Lemma engagementScore_unengaged (v : PropertyView) :
  viewDuration v = 0 -> scrollDepth v = 0 -> interactionPoints (interactions v) = 0%Z ->
  engagementScore v = 0%Z.
Proof.
  intros Hd Hs Hi. rewrite (engagementScore_integers v 0).
  - rewrite Hi. reflexivity.
  - rewrite Hd, Hs. apply base_zero.
  - lia.
Qed.

(** 400 seconds, scrolled to the end, an inquiry sent: 30 + 20 + 15. *)
Lemma engagementScore_engaged (v : PropertyView) :
  viewDuration v = 400 -> scrollDepth v = 100 -> interactionPoints (interactions v) = 15%Z ->
  engagementScore v = 65%Z.
Proof.
  intros Hd Hs Hi. rewrite (engagementScore_integers v 50).
  - rewrite Hi. reflexivity.
  - rewrite Hd, Hs. apply base_fifty.
  - lia.
Qed.

(** Saving such a view marks it as bounced. *)
Lemma preSave_unengaged (v : PropertyView) :
  viewDuration v = 0 -> scrollDepth v = 0 -> interactionPoints (interactions v) = 0%Z ->
  preSave v = withBounced true v.
Proof.
  intros Hd Hs Hi. unfold preSave.
  rewrite (engagementScore_unengaged v Hd Hs Hi).
  replace (JS.lt (viewDuration v) 10) with true by (rewrite Hd; reflexivity).
  reflexivity.
Qed.

(** The middleware never clears the flag. *)
Lemma preSave_keeps_bounced (v : PropertyView) :
  bounced v = true -> bounced (preSave v) = true.
Proof.
  intros Hb. unfold preSave.
  destruct (JS.lt (viewDuration v) 10 && (engagementScore v <? 10)%Z); [reflexivity | exact Hb].
Qed.

(** Every view that [recordView] returns is stored as bounced: it is
    saved before any time is spent on the page. *)
Lemma recordView_bounced (now : Date) (viewData : ViewData) (db : Db) (v : PropertyView) :
  result (recordView now viewData db) = Returned v -> bounced v = true.
Proof.
  unfold recordView, bind, PropertyView_findOne, PropertyView_create, PropertyView_save,
    Property_findByIdAndUpdate, ret.
  cbn -[preSave matches Obj.literal].
  destruct (String.eqb (vd_sessionId viewData) ""); [discriminate | ].
  destruct (String.eqb (vd_ipAddress viewData) ""); [discriminate | ].
  cbn -[preSave matches Obj.literal].
  rewrite preSave_unengaged by reflexivity.
  destruct (find _ (views db)); cbn; intros H; inversion H; reflexivity.
Qed.

Lemma updateFirst_keeps {A B} (g : A -> B) (test : A -> bool) (f : A -> A) (l : list A) :
  (forall a, g (f a) = g a) -> map g (updateFirst test f l) = map g l.
Proof.
  intros Hf. induction l as [ | a l IH]; simpl; [reflexivity | ].
  destruct (test a); simpl; [now rewrite Hf | now rewrite IH].
Qed.

(** Closing a session and recording an interaction go through
    [findByIdAndUpdate]: they leave the flag of every view as it was. *)
Lemma endViewSession_keeps_bounced (now : Date) (viewId : ObjectId) (duration depth : Q)
    (db : Db) :
  map bounced (views (after (endViewSession now viewId duration depth db)))
  = map bounced (views db).
Proof. simpl. apply updateFirst_keeps. reflexivity. Qed.

Lemma updateInteraction_keeps_bounced (viewId : ObjectId) (interaction : string) (db : Db) :
  map bounced (views (after (updateInteraction viewId interaction db)))
  = map bounced (views db).
Proof. simpl. apply updateFirst_keeps. reflexivity. Qed.

(** The example of the specification, saved as one document: it scores
    65, is of high intent and is not marked as bounced. *)
Lemma engagedView_saved :
  engagementScore engagedView = 65%Z
  /\ isHighIntent engagedView = true
  /\ bounced (preSave (withBounced false engagedView)) = false.
Proof.
  assert (Hscore : engagementScore engagedView = 65%Z)
    by (apply engagementScore_engaged; reflexivity).
  split; [exact Hscore | split].
  - unfold isHighIntent. rewrite Hscore. reflexivity.
  - reflexivity.
Qed.
End Bounced.

(** C6: the same example reached the way the application reaches it.  The
    view is recorded, its session is closed after 400 seconds at full
    scroll depth and an inquiry is recorded on it.  The stored view has
    those values, scores 65 and is of high intent, and its [bounced] flag
    is still [true]: it was set when the view was created and no later
    update evaluates it again. *)
Theorem bounced_not_recomputed {R : Rounding} :
  exists v : PropertyView,
    views (after (viewLifecycle db0)) = [v]
    /\ viewDuration v = 400
    /\ scrollDepth v = 100
    /\ inquirySent (interactions v) = true
    /\ engagementScore v = 65%Z
    /\ isHighIntent v = true
    /\ bounced v = true.
Proof.
  unfold viewLifecycle, db0.
  cbn -[engagementScore preSave].
  rewrite preSave_unengaged by reflexivity.
  cbn -[engagementScore preSave].
  eexists. split; [reflexivity | ].
  repeat split.
  - apply engagementScore_engaged; reflexivity.
  - unfold isHighIntent. rewrite engagementScore_engaged by reflexivity. reflexivity.
Qed.

(** ** Unique views *)

Lemma find_none_existsb {A} (p : A -> bool) (l : list A) :
  match find p l with Some _ => false | None => true end = negb (existsb p l).
Proof.
  induction l as [ | a l IH]; simpl; [reflexivity | ].
  destruct (p a); simpl; [reflexivity | exact IH].
Qed.

Lemma find_ext {A} (p q : A -> bool) (l : list A) :
  (forall a, p a = q a) -> find p l = find q l.
Proof.
  intros Hpq. induction l as [ | a l IH]; simpl; [reflexivity | ].
  rewrite Hpq, IH. reflexivity.
Qed.

(** The query document of [recordView], evaluated: the viewer of the
    new view does not occur in it. *)
Lemma recordView_query (now : Date) (viewData : ViewData) (prior : PropertyView) :
  matches (viewDoc prior)
    (Obj.literal
       [("property", CEq (VId (vd_propertyId viewData)));
        ("$or",
         COr [Obj.literal
                [("viewer", CEq (idOrNull (vd_userId viewData)));
                 ("viewer", COps (Obj.literal [("$ne", VNull)]))];
              Obj.literal [("sessionId", CEq (VStr (vd_sessionId viewData)))]]);
        ("viewedAt", COps (Obj.literal [("$gte", VDate (now - day)%Z)]))])
  = repeatsByQuery now viewData prior.
Proof.
  unfold repeatsByQuery. cbn.
  rewrite Z.leb_antisym, Z.ltb_compare.
  destruct (Nat.eqb (vd_propertyId viewData) (property prior)),
    (viewer prior), (String.eqb (vd_sessionId viewData) (sessionId prior)),
    (viewedAt prior ?= _)%Z; reflexivity.
Qed.

Section Uniqueness.
Context {R : Rounding}.

(** What [recordView] decides: a view is unique when the query finds no
    prior view. *)
Lemma recordView_isUnique (now : Date) (viewData : ViewData) (db : Db) (v : PropertyView) :
  result (recordView now viewData db) = Returned v ->
  isUnique v = negb (existsb (repeatsByQuery now viewData) (views db)).
Proof.
  unfold recordView, bind, PropertyView_findOne, PropertyView_create, PropertyView_save,
    Property_findByIdAndUpdate, ret.
  cbn -[preSave matches Obj.literal day].
  rewrite (find_ext _ _ (views db) (recordView_query now viewData)).
  rewrite <- find_none_existsb.
  destruct (String.eqb (vd_sessionId viewData) ""); [discriminate | ].
  destruct (String.eqb (vd_ipAddress viewData) ""); [discriminate | ].
  cbn -[preSave matches Obj.literal day].
  rewrite preSave_unengaged by reflexivity.
  destruct (find _ (views db)); cbn; intros H; inversion H; reflexivity.
Qed.

(** With no signed-in viewer among the prior views the query decides as
    the specification does. *)
Lemma repeatsByQuery_anonymous (now : Date) (viewData : ViewData) (vs : list PropertyView) :
  Forall (fun prior => viewer prior = None) vs ->
  existsb (repeatsByQuery now viewData) vs = existsb (repeatsBySpec now viewData) vs.
Proof.
  intros Hall. induction Hall as [ | prior vs Hprior _ IH]; simpl; [reflexivity | ].
  rewrite IH. f_equal. unfold repeatsByQuery, repeatsBySpec. rewrite Hprior.
  rewrite (Nat.eqb_sym (property prior)), (String.eqb_sym (sessionId prior)).
  destruct (vd_userId viewData),
    (Nat.eqb (vd_propertyId viewData) (property prior)),
    (String.eqb (vd_sessionId viewData) (sessionId prior)),
    (now - day <=? viewedAt prior)%Z; reflexivity.
Qed.
End Uniqueness.

(** C1: an anonymous visitor opens the sample listing in a new session,
    one hour after a signed-in user viewed it in another session.  No
    prior view has the visitor's session, so the rule makes the view
    unique; [recordView] creates it with [isUnique = false] and does not
    count it in [uniqueViews]. *)
Theorem recordView_counts_any_signed_in_viewer {R : Rounding} :
  uniqueBySpec hourLater anonymousVisit (views db1) = true
  /\ exists v : PropertyView,
       result (recordView hourLater anonymousVisit db1) = Returned v
       /\ viewer v = None
       /\ isUnique v = false
       /\ map Property.uniqueViews (properties (after (recordView hourLater anonymousVisit db1)))
          = map Property.uniqueViews (properties db1).
Proof.
  split; [reflexivity | ].
  unfold recordView, db1.
  cbn -[preSave].
  rewrite preSave_unengaged by reflexivity.
  eexists. repeat split.
Qed.

(** ** Who writes the view counters *)

(** C5, as stated, fails: [GET /api/properties/10] answers with the
    listing, records no view, and the listing's [viewCount] goes from 0
    to 1. *)
Lemma getPropertyById_increments_viewCount :
  map Property.viewCount (properties db0) = [0%Z]
  /\ status (match result (routes.GET_api_properties_id (mkRequest [("id", "10")] []) db0) with
             | Returned response => response
             | Thrown _ => mkResponse 500 false None [] None
             end) = 200%nat
  /\ map Property.viewCount
       (properties (after (routes.GET_api_properties_id (mkRequest [("id", "10")] []) db0)))
     = [1%Z]
  /\ views (after (routes.GET_api_properties_id (mkRequest [("id", "10")] []) db0)) = [].
Proof. repeat split. Qed.

Lemma getPropertyById_properties (propertyId : ObjectId) (options : propertyService.Options)
    (db : Db) :
  properties (after (propertyService.getPropertyById propertyId options db))
  = match find (hasId propertyId) (properties db), propertyService.incrementView options with
    | Some p, Some true =>
        if Property.isActive p
        then updateFirst (hasId propertyId) (Property.inc 1 0) (properties db)
        else properties db
    | _, _ => properties db
    end.
Proof.
  unfold propertyService.getPropertyById, rethrow, bind, Property_findById,
    Property_findByIdAndUpdate, ret, throw.
  cbn. fold (hasId propertyId).
  destruct (find (hasId propertyId) (properties db)) as [p | ]; cbn; [ | reflexivity].
  destruct (propertyService.incrementView options) as [[ | ] | ]; cbn; try reflexivity.
  destruct (Property.isActive p); reflexivity.
Qed.

Lemma getPropertyById_views (propertyId : ObjectId) (options : propertyService.Options)
    (db : Db) :
  views (after (propertyService.getPropertyById propertyId options db)) = views db.
Proof.
  unfold propertyService.getPropertyById, rethrow, bind, Property_findById,
    Property_findByIdAndUpdate, ret, throw.
  cbn. destruct (find _ (properties db)) as [p | ]; cbn; [ | reflexivity].
  destruct (propertyService.incrementView options) as [[ | ] | ]; cbn; try reflexivity.
  destruct (Property.isActive p); reflexivity.
Qed.

Lemma updateFirst_inc_uniqueViews (test : Property.t -> bool) (d : Z) (ps : list Property.t) :
  map Property.uniqueViews (updateFirst test (Property.inc d 0) ps)
  = map Property.uniqueViews ps.
Proof.
  apply updateFirst_keeps. intros p. simpl. apply Z.add_0_r.
Qed.

Lemma recordView_properties {R : Rounding} (now : Date) (viewData : ViewData) (db : Db) :
  properties (after (recordView now viewData db))
  = match result (recordView now viewData db) with
    | Returned v =>
        updateFirst (hasId (vd_propertyId viewData))
          (Property.inc 1 (if isUnique v then 1 else 0)) (properties db)
    | Thrown _ => properties db
    end.
Proof.
  unfold recordView, bind, PropertyView_findOne, PropertyView_create, PropertyView_save,
    Property_findByIdAndUpdate, ret.
  cbn -[preSave matches Obj.literal day].
  destruct (String.eqb (vd_sessionId viewData) ""); [reflexivity | ].
  destruct (String.eqb (vd_ipAddress viewData) ""); [reflexivity | ].
  cbn -[preSave matches Obj.literal day].
  rewrite preSave_unengaged by reflexivity.
  destruct (find _ (views db)); reflexivity.
Qed.

(** An [async] function that reads: it leaves the database as it was. *)
Definition reads {A} (m : Async A) : Prop := forall db, after (m db) = db.

Lemma reads_ret {A} (a : A) : reads (ret a).
Proof. intros db. reflexivity. Qed.

Lemma reads_throw {A} (e : string) : reads (@throw A e).
Proof. intros db. reflexivity. Qed.

Lemma reads_bind {A B} (m : Async A) (k : A -> Async B) :
  reads m -> (forall a, reads (k a)) -> reads (bind m k).
Proof.
  intros Hm Hk db. unfold bind.
  destruct (result (m db)) as [a | e]; cbn; [ | apply Hm].
  rewrite Hk. apply Hm.
Qed.

Lemma reads_rethrow {A} (prefix : string) (m : Async A) : reads m -> reads (rethrow prefix m).
Proof.
  intros Hm db. unfold rethrow. destruct (result (m db)); cbn; apply Hm.
Qed.

Lemma reads_catch {A} (m : Async A) (h : string -> Async A) :
  reads m -> (forall e, reads (h e)) -> reads (catch m h).
Proof.
  intros Hm Hh db. unfold catch.
  destruct (result (m db)) as [a | e]; cbn; [apply Hm | ].
  rewrite Hh. apply Hm.
Qed.

Section Readers.
Context {R : Rounding}.
Variable E : Engine.

Lemma Property_find_reads (filter : Query) (sort : SortSpec) (skip : option Q)
    (limit : option Z) : reads (Property_find E filter sort skip limit).
Proof. intros db. reflexivity. Qed.

Lemma searchProperties_reads (sp : SearchParams.t) (db : Db) :
  after (searchService.searchProperties E sp db) = db.
Proof.
  revert db. apply reads_rethrow. apply reads_bind; [apply Property_find_reads | ].
  intros ps. apply reads_bind; [intros db; reflexivity | ].
  intros total. apply reads_ret.
Qed.

Lemma getTrendingProperties_reads (now : Date) (limit : Z) (db : Db) :
  after (getTrendingProperties now limit db) = db.
Proof. unfold getTrendingProperties. destruct (limit <=? 0)%Z; reflexivity. Qed.

Lemma service_getTrendingProperties_reads (now : Date) (limit days : Z) (db : Db) :
  after (propertyService.getTrendingProperties E now limit days db) = db.
Proof. revert db. apply reads_rethrow. apply Property_find_reads. Qed.

Lemma getSimilarProperties_reads (propertyId : ObjectId) (limit : Z) (db : Db) :
  after (propertyService.getSimilarProperties E propertyId limit db) = db.
Proof.
  revert db. apply reads_rethrow. apply reads_bind; [intros db; reflexivity | ].
  intros [p | ]; [apply Property_find_reads | apply reads_throw].
Qed.

Lemma trendingPropertiesPipeline_reads (now : Date) (days limit : Z) (db : Db) :
  after (aggregations.trendingPropertiesPipeline E now days limit db) = db.
Proof.
  unfold aggregations.trendingPropertiesPipeline. destruct (limit <=? 0)%Z; reflexivity.
Qed.
End Readers.

(** C5, amended: [recordView] adds 1 to [viewCount] of the viewed listing,
    and 1 to its [uniqueViews] when the view is unique.  Fetching a listing
    by id never changes [uniqueViews], and it adds 1 to [viewCount] when it
    is called with [incrementView: true] for a listing that exists and is
    active, and changes nothing otherwise.  Search, the trending and the
    similar-listing lookups, and the updates of a view change no listing. *)
Theorem view_counter_writers {R : Rounding} (E : Engine) :
  (forall now viewData db,
     properties (after (recordView now viewData db))
     = match result (recordView now viewData db) with
       | Returned v =>
           updateFirst (hasId (vd_propertyId viewData))
             (Property.inc 1 (if isUnique v then 1 else 0)) (properties db)
       | Thrown _ => properties db
       end)
  /\ (forall propertyId options db,
        properties (after (propertyService.getPropertyById propertyId options db))
        = match find (hasId propertyId) (properties db),
                propertyService.incrementView options with
          | Some p, Some true =>
              if Property.isActive p
              then updateFirst (hasId propertyId) (Property.inc 1 0) (properties db)
              else properties db
          | _, _ => properties db
          end)
  /\ (forall propertyId options db,
        map Property.uniqueViews
          (properties (after (propertyService.getPropertyById propertyId options db)))
        = map Property.uniqueViews (properties db))
  /\ (forall sp db, after (searchService.searchProperties E sp db) = db)
  /\ (forall now limit db, after (getTrendingProperties now limit db) = db)
  /\ (forall now limit days db,
        after (propertyService.getTrendingProperties E now limit days db) = db)
  /\ (forall propertyId limit db,
        after (propertyService.getSimilarProperties E propertyId limit db) = db)
  /\ (forall now viewId duration depth db,
        properties (after (endViewSession now viewId duration depth db)) = properties db)
  /\ (forall viewId interaction db,
        properties (after (updateInteraction viewId interaction db)) = properties db).
Proof.
  split; [intros; apply recordView_properties | ].
  split; [intros; apply getPropertyById_properties | ].
  split.
  { intros propertyId options db. rewrite getPropertyById_properties.
    destruct (find (hasId propertyId) (properties db)) as [p | ]; [ | reflexivity].
    destruct (propertyService.incrementView options) as [[ | ] | ]; try reflexivity.
    destruct (Property.isActive p); [apply updateFirst_inc_uniqueViews | reflexivity]. }
  split; [intros; apply searchProperties_reads | ].
  split; [intros; apply getTrendingProperties_reads | ].
  split; [intros; apply service_getTrendingProperties_reads | ].
  split; [intros; apply getSimilarProperties_reads | ].
  split; reflexivity.
Qed.

(** ** Sorting *)

Section SortFacts.
Variable A : Type.
Variable leb : A -> A -> bool.

Definition before (a b : A) : Prop := leb a b = true.

Lemma insert_perm (x : A) (l : list A) : Permutation (insert leb x l) (x :: l).
Proof.
  induction l as [ | y l IH]; simpl; [apply Permutation_refl | ].
  destruct (leb x y); [apply Permutation_refl | ].
  eapply Permutation_trans; [apply perm_skip, IH | apply perm_swap].
Qed.

Lemma sortBy_perm (l : list A) : Permutation (sortBy leb l) l.
Proof.
  induction l as [ | x l IH]; simpl; [apply perm_nil | ].
  eapply Permutation_trans; [apply insert_perm | apply perm_skip, IH].
Qed.

Lemma sortBy_Forall (P : A -> Prop) (l : list A) : Forall P l -> Forall P (sortBy leb l).
Proof.
  intros Hl. apply Forall_forall. intros x Hx.
  apply (Permutation_in x (sortBy_perm l)) in Hx.
  exact (proj1 (Forall_forall P l) Hl x Hx).
Qed.

Lemma sortBy_In (x : A) (l : list A) : In x (sortBy leb l) <-> In x l.
Proof.
  split; intros Hx.
  - exact (Permutation_in x (sortBy_perm l) Hx).
  - exact (Permutation_in x (Permutation_sym (sortBy_perm l)) Hx).
Qed.


(** When nothing orders two documents, a sort keeps the order it is
    given. *)
Lemma sortBy_unordered (l : list A) : (forall a b, leb a b = true) -> sortBy leb l = l.
Proof.
  intros Hall. induction l as [ | x l IH]; simpl; [reflexivity | ].
  rewrite IH. destruct l as [ | y l']; simpl; [reflexivity | ].
  rewrite Hall. reflexivity.
Qed.

Hypothesis leb_total : forall a b, leb a b = false -> leb b a = true.
Hypothesis leb_trans : forall a b c, leb a b = true -> leb b c = true -> leb a c = true.

Lemma insert_sorted (x : A) (l : list A) :
  StronglySorted before l -> StronglySorted before (insert leb x l).
Proof.
  intros Hl. induction Hl as [ | y l Hl IH Hy]; simpl.
  - constructor; [constructor | constructor].
  - destruct (leb x y) eqn:Hxy.
    + constructor; [now constructor | ].
      constructor; [exact Hxy | ].
      eapply Forall_impl; [ | exact Hy].
      intros z Hz. exact (leb_trans x y z Hxy Hz).
    + constructor; [exact IH | ].
      apply Forall_forall. intros z Hz.
      apply (Permutation_in z (insert_perm x l)) in Hz.
      destruct Hz as [<- | Hz].
      * now apply leb_total.
      * exact (proj1 (Forall_forall _ _) Hy z Hz).
Qed.

Lemma sortBy_sorted (l : list A) : StronglySorted before (sortBy leb l).
Proof.
  induction l as [ | x l IH]; simpl; [constructor | now apply insert_sorted].
Qed.
End SortFacts.

Lemma In_firstn {A} (x : A) (n : nat) (l : list A) : In x (firstn n l) -> In x l.
Proof.
  revert n. induction l as [ | a l IH]; intros [ | n]; simpl; try tauto.
  intros [-> | Hx]; [now left | right; exact (IH n Hx)].
Qed.

Lemma StronglySorted_firstn {A} (le : A -> A -> Prop) (n : nat) (l : list A) :
  StronglySorted le l -> StronglySorted le (firstn n l).
Proof.
  intros Hl. revert n. induction Hl as [ | a l Hl IH Ha]; intros [ | n]; simpl;
    try constructor.
  - apply IH.
  - apply Forall_forall. intros x Hx.
    exact (proj1 (Forall_forall _ _) Ha x (In_firstn _ _ _ Hx)).
Qed.

Lemma StronglySorted_skipn {A} (le : A -> A -> Prop) (n : nat) (l : list A) :
  StronglySorted le l -> StronglySorted le (skipn n l).
Proof.
  intros Hl. revert n. induction Hl as [ | a l Hl IH Ha]; intros [ | n]; simpl.
  - constructor.
  - constructor.
  - now constructor.
  - apply IH.
Qed.

Lemma StronglySorted_impl {A} (le le' : A -> A -> Prop) (l : list A) :
  (forall a b, le a b -> le' a b) -> StronglySorted le l -> StronglySorted le' l.
Proof.
  intros Himp Hl. induction Hl as [ | a l Hl IH Ha]; constructor; [exact IH | ].
  eapply Forall_impl; [ | exact Ha]. intros b. apply Himp.
Qed.

Lemma findLimit_sorted {A} (le : A -> A -> Prop) (n : Z) (l : list A) :
  StronglySorted le l -> StronglySorted le (findLimit n l).
Proof.
  intros Hl. unfold findLimit. destruct (n =? 0)%Z; [exact Hl | ].
  now apply StronglySorted_firstn.
Qed.

(** *** Sorting by one number *)

Section NumericKey.
Variable A : Type.
Variable key : A -> Q.

Definition ascending (a b : A) : bool :=
  match key a ?= key b with Gt => false | _ => true end.

Definition descending (a b : A) : bool :=
  match CompOpp (key a ?= key b) with Gt => false | _ => true end.

Lemma ascending_le (a b : A) : ascending a b = true <-> key a <= key b.
Proof.
  unfold ascending. rewrite Qle_alt.
  destruct (key a ?= key b); split; intros H;
    try reflexivity; try discriminate; exfalso; now apply H.
Qed.

Lemma descending_ge (a b : A) : descending a b = true <-> key b <= key a.
Proof.
  unfold descending. rewrite Qle_alt, <- (Qcompare_antisym (key a) (key b)).
  destruct (key a ?= key b); simpl; split; intros H;
    try reflexivity; try discriminate; exfalso; now apply H.
Qed.

Lemma ascending_total (a b : A) : ascending a b = false -> ascending b a = true.
Proof.
  intros Hab. apply ascending_le. apply Qlt_le_weak. apply Qnot_le_lt.
  intros Hle. apply ascending_le in Hle. congruence.
Qed.

Lemma descending_total (a b : A) : descending a b = false -> descending b a = true.
Proof.
  intros Hab. apply descending_ge. apply Qlt_le_weak. apply Qnot_le_lt.
  intros Hle. apply descending_ge in Hle. congruence.
Qed.

Lemma ascending_trans (a b c : A) :
  ascending a b = true -> ascending b c = true -> ascending a c = true.
Proof.
  rewrite !ascending_le. apply Qle_trans.
Qed.

Lemma descending_trans (a b c : A) :
  descending a b = true -> descending b c = true -> descending a c = true.
Proof.
  rewrite !descending_ge. intros Hab Hbc. now apply Qle_trans with (key b).
Qed.

Lemma sortBy_ascending (l : list A) :
  StronglySorted (fun a b => key a <= key b) (sortBy ascending l).
Proof.
  apply StronglySorted_impl with (le := before _ ascending).
  - intros a b. apply ascending_le.
  - apply sortBy_sorted; [apply ascending_total | apply ascending_trans].
Qed.

Lemma sortBy_descending (l : list A) :
  StronglySorted (fun a b => key b <= key a) (sortBy descending l).
Proof.
  apply StronglySorted_impl with (le := before _ descending).
  - intros a b. apply descending_ge.
  - apply sortBy_sorted; [apply descending_total | apply descending_trans].
Qed.
End NumericKey.

Lemma sortBy_ext {A} (leb leb' : A -> A -> bool) (l : list A) :
  (forall a b, leb a b = leb' a b) -> sortBy leb l = sortBy leb' l.
Proof.
  intros Hext. induction l as [ | x l IH]; simpl; [reflexivity | ].
  rewrite IH. generalize (sortBy leb' l). intros s.
  induction s as [ | y s IHs]; simpl; [reflexivity | ].
  rewrite Hext, IHs. reflexivity.
Qed.

(** ** Search results in price order *)

Section PriceOrder.
Variable E : Engine.

Lemma findSorted_price_asc (filter : Query) (ps : list Property.t) :
  StronglySorted priceAscending
    (findSorted E filter (Obj.literal [("price", Ascending)]) ps).
Proof.
  unfold findSorted, sortDocs.
  rewrite (sortBy_ext _ (ascending _ Property.price))
    by (intros a b; unfold ascending; cbn;
        destruct (Property.price a ?= Property.price b); reflexivity).
  apply sortBy_ascending.
Qed.

Lemma findSorted_price_desc (filter : Query) (ps : list Property.t) :
  StronglySorted priceDescending
    (findSorted E filter (Obj.literal [("price", Descending)]) ps).
Proof.
  unfold findSorted, sortDocs.
  rewrite (sortBy_ext _ (descending _ Property.price))
    by (intros a b; unfold descending; cbn;
        destruct (Property.price a ?= Property.price b); reflexivity).
  apply sortBy_descending.
Qed.
End PriceOrder.

Section SearchOrder.
Context {R : Rounding}.
Variable E : Engine.

(** A page that [searchProperties] returns is a stretch of the whole
    result sequence. *)
Lemma searchProperties_page (sp : SearchParams.t) (db : Db) (r : searchService.SearchResult) :
  result (searchService.searchProperties E sp db) = Returned r ->
  exists (skip : nat) (limit : Z),
    searchService.found r = findLimit limit (skipn skip (fullResults E sp db)).
Proof.
  unfold searchService.searchProperties, rethrow, bind, Property_find,
    Property_countDocuments, ret, fullResults.
  cbn.
  destruct (searchService.skipOf sp) as [sk | ];
    destruct (searchService.parseIntOr 12 (SearchParams.limit sp)) as [lim | ];
    cbn; try discriminate.
  destruct (Qle_bool 0 sk && isInteger sk); cbn; [ | discriminate].
  intros H. inversion H; subst r. cbn. eauto.
Qed.

Lemma buildSort_price_asc (sp : SearchParams.t) :
  SearchParams.sortBy sp = Some "price_asc" ->
  searchService.buildSort sp = Obj.literal [("price", Ascending)].
Proof. intros H. unfold searchService.buildSort. rewrite H. reflexivity. Qed.

Lemma buildSort_price_desc (sp : SearchParams.t) :
  SearchParams.sortBy sp = Some "price_desc" ->
  searchService.buildSort sp = Obj.literal [("price", Descending)].
Proof. intros H. unfold searchService.buildSort. rewrite H. reflexivity. Qed.

Lemma page_sorted (le : Property.t -> Property.t -> Prop) (sp : SearchParams.t) (db : Db)
    (r : searchService.SearchResult) :
  StronglySorted le (fullResults E sp db) ->
  result (searchService.searchProperties E sp db) = Returned r ->
  StronglySorted le (searchService.found r).
Proof.
  intros Hfull Hr. destruct (searchProperties_page sp db r Hr) as (skip & limit & ->).
  apply findLimit_sorted. now apply StronglySorted_skipn.
Qed.
End SearchOrder.

(** C9, as stated, fails on the tie-break: of two listings with one
    price the search by ascending price returns the older one first, the
    one that comes first in the collection. *)
Lemma equal_prices_keep_store_order :
  map Property._id (fullResults plainEngine (sortedBy "price_asc") dbTie) = [1; 2]%nat
  /\ Qeq_bool (Property.price olderListing) (Property.price newerListing) = true
  /\ (Property.createdAt olderListing <? Property.createdAt newerListing)%Z = true
  /\ match result (searchService.searchProperties (R := exact_rounding) plainEngine
                     (sortedBy "price_asc") dbTie) with
     | Returned r => map Property._id (searchService.found r)
     | Thrown _ => []
     end = [1; 2]%nat.
Proof. repeat split. Qed.

(** C9, amended: with sort mode [price_asc] the whole result sequence of
    a search, and so every page of it, is non-decreasing in price; with
    [price_desc] it is non-increasing.  Nothing is said of the order of
    listings with one price: the sort has the price as its only key. *)
Theorem price_sort_orders_prices {R : Rounding} (E : Engine) (sp : SearchParams.t) (db : Db) :
  (SearchParams.sortBy sp = Some "price_asc" ->
   StronglySorted priceAscending (fullResults E sp db)
   /\ forall r, result (searchService.searchProperties E sp db) = Returned r ->
                StronglySorted priceAscending (searchService.found r))
  /\ (SearchParams.sortBy sp = Some "price_desc" ->
      StronglySorted priceDescending (fullResults E sp db)
      /\ forall r, result (searchService.searchProperties E sp db) = Returned r ->
                   StronglySorted priceDescending (searchService.found r)).
Proof.
  split; intros Hsort.
  - assert (Hfull : StronglySorted priceAscending (fullResults E sp db)).
    { unfold fullResults. rewrite (buildSort_price_asc sp Hsort).
      apply findSorted_price_asc. }
    split; [exact Hfull | ]. intros r. now apply page_sorted.
  - assert (Hfull : StronglySorted priceDescending (fullResults E sp db)).
    { unfold fullResults. rewrite (buildSort_price_desc sp Hsort).
      apply findSorted_price_desc. }
    split; [exact Hfull | ]. intros r. now apply page_sorted.
Qed.

Lemma price_sort_orders_prices_witness :
  StronglySorted priceAscending (fullResults plainEngine (sortedBy "price_asc") dbTie)
  /\ StronglySorted priceDescending (fullResults plainEngine (sortedBy "price_desc") dbTie).
Proof.
  split.
  - apply (price_sort_orders_prices (R := exact_rounding) plainEngine
             (sortedBy "price_asc") dbTie).
    reflexivity.
  - apply (price_sort_orders_prices (R := exact_rounding) plainEngine
             (sortedBy "price_desc") dbTie).
    reflexivity.
Defined.

(** ** The trending pipeline of the listings *)

Lemma Qcompare_inject_Z (x y : Z) : (inject_Z x ?= inject_Z y) = (x ?= y)%Z.
Proof. unfold Qcompare. simpl. rewrite !Z.mul_1_r. reflexivity. Qed.

Section TwoKeysDescending.
Variable A : Type.
Variables k1 k2 : A -> Z.

(** First key descending, then second key descending. *)
Definition lexDescending (a b : A) : bool :=
  (k1 b <? k1 a)%Z || ((k1 a =? k1 b)%Z && (k2 b <=? k2 a)%Z).

Lemma lexDescending_spec (a b : A) :
  lexDescending a b = true
  <-> (k1 b < k1 a)%Z \/ (k1 a = k1 b /\ k2 b <= k2 a)%Z.
Proof.
  unfold lexDescending.
  rewrite orb_true_iff, andb_true_iff, Z.ltb_lt, Z.eqb_eq, Z.leb_le. tauto.
Qed.

Lemma lexDescending_total (a b : A) : lexDescending a b = false -> lexDescending b a = true.
Proof.
  intros Hab. apply lexDescending_spec.
  destruct (lexDescending_spec a b) as [_ Hback].
  destruct (Z.lt_trichotomy (k1 a) (k1 b)) as [Hlt | [Heq | Hgt]].
  - left. exact Hlt.
  - destruct (Z.le_gt_cases (k2 a) (k2 b)) as [Hle | Hgt2].
    + right. split; [symmetry; exact Heq | exact Hle].
    + rewrite Hback in Hab; [discriminate | ]. right. split; [exact Heq | lia].
  - rewrite Hback in Hab; [discriminate | ]. left. exact Hgt.
Qed.

Lemma lexDescending_trans (a b c : A) :
  lexDescending a b = true -> lexDescending b c = true -> lexDescending a c = true.
Proof.
  rewrite !lexDescending_spec. lia.
Qed.

Lemma lexDescending_first (a b : A) : lexDescending a b = true -> (k1 b <= k1 a)%Z.
Proof. rewrite lexDescending_spec. lia. Qed.

Lemma sortBy_lexDescending (l : list A) :
  StronglySorted (fun a b => (k1 b <= k1 a)%Z) (sortBy lexDescending l).
Proof.
  apply StronglySorted_impl with (le := before _ lexDescending).
  - intros a b. apply lexDescending_first.
  - apply sortBy_sorted; [apply lexDescending_total | apply lexDescending_trans].
Qed.
End TwoKeysDescending.

Lemma compare_two_descending (x y u v : Z) :
  match
    match CompOpp (x ?= y)%Z with
    | Eq => match CompOpp (u ?= v)%Z with Eq => Eq | c => c end
    | c => c
    end
  with
  | Gt => false
  | _ => true
  end
  = ((y <? x)%Z || ((x =? y)%Z && (v <=? u)%Z)).
Proof.
  destruct (Z.compare_spec x y) as [Hxy | Hxy | Hxy];
    destruct (Z.compare_spec u v) as [Huv | Huv | Huv]; simpl;
    symmetry;
    repeat match goal with
           | |- context [(?p <? ?q)%Z] => destruct (Z.ltb_spec p q)
           | |- context [(?p =? ?q)%Z] => destruct (Z.eqb_spec p q)
           | |- context [(?p <=? ?q)%Z] => destruct (Z.leb_spec p q)
           end; simpl; try reflexivity; lia.
Qed.

Lemma trendOrder_lexDescending (a b : Property.t) :
  trendOrder a b = lexDescending _ aggregations.trendScore Property.viewCount a b.
Proof.
  unfold trendOrder, lexDescending. cbn -[aggregations.trendScore Z.compare].
  rewrite !Qcompare_inject_Z. apply compare_two_descending.
Qed.

(** C4, as stated, fails.  On day 30 listing 30 (created on day 0) has one
    unique view within the window and listing 40 (created on day 29) has
    no view, but has been fetched once by id: the specification's trend
    scores are 3 and 0.  The pipeline ranks listing 40 alone, by its
    counters ([viewCount = 1], score 1), and does not rank listing 30. *)
Lemma trend_score_reads_listing_counters :
  trendScoreBySpec monthLater 7 30 (views dbTrend) = 3%Z
  /\ trendScoreBySpec monthLater 7 40 (views dbTrend) = 0%Z
  /\ map (fun p => (Property._id p, aggregations.trendScore p)) (properties dbTrend)
     = [(30%nat, 3%Z); (40%nat, 1%Z)]
  /\ map Property._id (aggregations.trendingRanked plainEngine monthLater 7 10 (properties dbTrend))
     = [40%nat]
  /\ match result (aggregations.trendingPropertiesPipeline plainEngine monthLater 7 10 dbTrend) with
     | Returned rows => map aggregations._id rows
     | Thrown _ => []
     end = [40%nat].
Proof. repeat split. Qed.

Section TrendingPipeline.
Variable E : Engine.

(** The [$match] stage of the pipeline, evaluated. *)
Lemma trending_match (threshold : Date) (p : Property.t) :
  matches (propertyDoc E p)
    (Obj.literal
       [("isActive", CEq (VBool true));
        ("status", CEq (VStr "active"));
        ("createdAt", COps (Obj.literal [("$gte", VDate threshold)]))])
  = Property.isActive p && String.eqb "active" (Property.status p)
    && (threshold <=? Property.createdAt p)%Z.
Proof.
  cbn. rewrite (Z.leb_antisym (Property.createdAt p)), Z.ltb_compare.
  destruct (Property.isActive p), (String.eqb "active" (Property.status p)),
    (Property.createdAt p ?= threshold)%Z; reflexivity.
Qed.

Lemma trendingRanked_sorted (now : Date) (days limit : Z) (ps : list Property.t) :
  StronglySorted (fun a b => (aggregations.trendScore b <= aggregations.trendScore a)%Z)
    (aggregations.trendingRanked E now days limit ps).
Proof.
  unfold aggregations.trendingRanked. apply StronglySorted_firstn.
  unfold sortDocs. fold trendOrder.
  rewrite (sortBy_ext _ _ _ trendOrder_lexDescending).
  apply sortBy_lexDescending.
Qed.

Lemma trendingRanked_members (now : Date) (days limit : Z) (ps : list Property.t)
    (p : Property.t) :
  In p (aggregations.trendingRanked E now days limit ps) ->
  In p ps
  /\ Property.isActive p = true
  /\ Property.status p = "active"
  /\ (now - days * day <= Property.createdAt p)%Z.
Proof.
  unfold aggregations.trendingRanked. intros Hin.
  apply In_firstn in Hin. apply sortBy_In in Hin. apply filter_In in Hin.
  destruct Hin as [Hps Hmatch]. rewrite trending_match in Hmatch.
  apply andb_true_iff in Hmatch. destruct Hmatch as [Hmatch Hcreated].
  apply andb_true_iff in Hmatch. destruct Hmatch as [Hactive Hstatus].
  apply String.eqb_eq in Hstatus. apply Z.leb_le in Hcreated.
  repeat split; auto.
Qed.
End TrendingPipeline.

(** C4, amended: the trend score the pipeline ranks by is
    [viewCount * 1 + uniqueViews * 2] over the cumulative counters of the
    listing.  It ranks listings of the collection that are active and were
    created within the trailing window, by that score, highest first, and
    among equal scores by [viewCount], highest first, at most [limit] of
    them, and returns them with their sellers. *)
Theorem trend_score_from_listing_counters (E : Engine) (now : Date) (days limit : Z) (db : Db) :
  Forall (fun p => In p (properties db)
                   /\ Property.isActive p = true
                   /\ Property.status p = "active"
                   /\ (now - days * day <= Property.createdAt p)%Z)
    (aggregations.trendingRanked E now days limit (properties db))
  /\ StronglySorted rankedBefore
       (aggregations.trendingRanked E now days limit (properties db))
  /\ (List.length (aggregations.trendingRanked E now days limit (properties db))
      <= Z.to_nat limit)%nat
  /\ result (aggregations.trendingPropertiesPipeline E now days limit db)
     = if (limit <=? 0)%Z then Thrown "the limit must be positive"
       else Returned
              (map (fun pu => aggregations.project (fst pu) (snd pu))
                 (flat_map (aggregations.lookupSeller (users db))
                    (aggregations.trendingRanked E now days limit (properties db)))).
Proof.
  split; [apply Forall_forall; intros p; apply trendingRanked_members | ].
  split.
  - unfold aggregations.trendingRanked. apply StronglySorted_firstn.
    unfold sortDocs. fold trendOrder.
    rewrite (sortBy_ext _ _ _ trendOrder_lexDescending).
    apply StronglySorted_impl
      with (le := before _ (lexDescending _ aggregations.trendScore Property.viewCount)).
    + intros a b Hab. apply lexDescending_spec in Hab. exact Hab.
    + apply sortBy_sorted; [apply lexDescending_total | apply lexDescending_trans].
  - split; [apply firstn_le_length | ].
    unfold aggregations.trendingPropertiesPipeline. destruct (limit <=? 0)%Z; reflexivity.
Qed.

(** ** Trending by recent views *)

(** C3: with [limit = 1], when the listing with the most unique views in
    the window is not active.  The pipeline cuts the ranking at [limit]
    before it looks up the listings and drops the inactive ones: the
    answer is empty, although the sample listing is active and has a
    unique view in the window, and is the whole ranking of the
    specification. *)
Theorem getTrendingProperties_cuts_before_active_filter :
  result (getTrendingProperties hourLater 1 dbActivity) = Returned []
  /\ map (fun p => (Property._id p, Property.isActive p)) (properties dbActivity)
     = [(10%nat, true); (20%nat, false)]
  /\ map (fun v => (property v, isUnique v, (hourLater - week <=? viewedAt v)%Z))
       (views dbActivity)
     = [(20%nat, true, true); (20%nat, true, true); (10%nat, true, true)]
  /\ map (fun g => (Trending._id g, Trending.uniqueViews g, Trending.viewCount g))
       (trendingBySpec hourLater 1 dbActivity)
     = [(10%nat, 1%Z, 1%Z)].
Proof. repeat split. Qed.

(** ** Similar listings *)

Lemma compare_ge (x y : Z) : match (x ?= y)%Z with Lt => false | _ => true end = (y <=? x)%Z.
Proof. rewrite Z.leb_antisym. unfold Z.ltb. destruct (x ?= y)%Z; reflexivity. Qed.

Lemma compare_le (x y : Z) : match (x ?= y)%Z with Gt => false | _ => true end = (x <=? y)%Z.
Proof. unfold Z.leb. reflexivity. Qed.

Lemma opHolds_gte (bound x : Q) : opHolds "$gte" (VNum bound) (VNum x) = Qle_bool bound x.
Proof. cbn. unfold Qcompare, Qle_bool. apply compare_ge. Qed.

Lemma opHolds_lte (bound x : Q) : opHolds "$lte" (VNum bound) (VNum x) = Qle_bool x bound.
Proof. cbn. unfold Qcompare, Qle_bool. apply compare_le. Qed.

Section Similar.
Context {R : Rounding}.
Variable E : Engine.

(** The filter of [getSimilarProperties], evaluated. *)
Lemma similar_filter (reference p : Property.t) :
  matches (propertyDoc E p)
    (Obj.literal
       [("_id", COps (Obj.literal [("$ne", VId (Property._id reference))]));
        ("isActive", CEq (VBool true));
        ("status", CEq (VStr "active"));
        ("type", CEq (VStr (Property.type reference)));
        ("city", CEq (VStr (Property.city reference)));
        ("price",
         COps (Obj.literal
                 [("$gte", VNum (JS.mul (Property.price reference) (JS.lit (7 # 10))));
                  ("$lte", VNum (JS.mul (Property.price reference) (JS.lit (13 # 10))))]))])
  = similarTo reference p.
Proof.
  change (matches (propertyDoc E p) _) with
    (negb (Nat.eqb (Property._id reference) (Property._id p)) && true
     && (Bool.eqb true (Property.isActive p)
     && (String.eqb "active" (Property.status p)
     && (String.eqb (Property.type reference) (Property.type p)
     && (String.eqb (Property.city reference) (Property.city p)
     && (opHolds "$gte" (VNum (JS.mul (Property.price reference) (JS.lit (7 # 10))))
           (VNum (Property.price p))
         && (opHolds "$lte" (VNum (JS.mul (Property.price reference) (JS.lit (13 # 10))))
               (VNum (Property.price p)) && true)
         && true)))))).
  rewrite opHolds_gte, opHolds_lte. unfold similarTo.
  destruct (Property.isActive p); simpl Bool.eqb;
    rewrite ?andb_true_r, ?andb_false_r, ?andb_true_l, ?andb_false_l, ?andb_assoc;
    reflexivity.
Qed.

Lemma find_hasId (id : ObjectId) (ps : list Property.t) (p : Property.t) :
  find (hasId id) ps = Some p -> Property._id p = id.
Proof.
  intros Hfind. apply find_some in Hfind. destruct Hfind as [_ Hid].
  now apply Nat.eqb_eq in Hid.
Qed.

Lemma filter_ext_eq {A} (f g : A -> bool) (l : list A) :
  (forall a, f a = g a) -> filter f l = filter g l.
Proof.
  intros Hfg. induction l as [ | a l IH]; simpl; [reflexivity | ].
  rewrite Hfg, IH. reflexivity.
Qed.

(** What [getSimilarProperties] returns. *)
Lemma getSimilarProperties_result (propertyId : ObjectId) (limit : Z) (db : Db) :
  result (propertyService.getSimilarProperties E propertyId limit db)
  = match find (hasId propertyId) (properties db) with
    | Some reference =>
        Returned (findLimit limit (filter (similarTo reference) (properties db)))
    | None => Thrown "Failed to fetch similar properties: Property not found"
    end.
Proof.
  unfold propertyService.getSimilarProperties, rethrow, bind, Property_findById, throw,
    Property_find.
  cbn -[matches Obj.literal JS.mul JS.lit findLimit]. fold (hasId propertyId).
  destruct (find (hasId propertyId) (properties db)) as [reference | ] eqn:Hfind;
    cbn -[matches Obj.literal JS.mul JS.lit findLimit]; [ | reflexivity].
  rewrite <- (find_hasId _ _ _ Hfind).
  unfold findSorted, sortDocs.
  rewrite sortBy_unordered by reflexivity.
  rewrite (filter_ext_eq _ _ _ (similar_filter reference)). reflexivity.
Qed.

Lemma similarTo_spec (reference p : Property.t) :
  similarTo reference p = true
  <-> Property._id p <> Property._id reference
      /\ Property.isActive p = true
      /\ Property.status p = "active"
      /\ Property.type p = Property.type reference
      /\ Property.city p = Property.city reference
      /\ JS.mul (Property.price reference) (JS.lit (7 # 10)) <= Property.price p
      /\ Property.price p <= JS.mul (Property.price reference) (JS.lit (13 # 10)).
Proof.
  unfold similarTo.
  rewrite !andb_true_iff, negb_true_iff, Nat.eqb_neq, !String.eqb_eq, !Qle_bool_iff.
  intuition congruence.
Qed.
End Similar.

(** C8, as stated, fails on the order: for the sample listing the lookup
    returns the dearer flat (similarity 15 by the specification's score)
    before the flat of the same price (similarity 20), as they come in the
    collection. *)
Lemma similar_listings_in_store_order :
  match result (propertyService.getSimilarProperties (R := exact_rounding) plainEngine
                  10 4 dbSimilar) with
  | Returned found => map Property._id found
  | Thrown _ => []
  end = [11; 12]%nat
  /\ similarityBySpec sampleListing dearerFlat = 15%Z
  /\ similarityBySpec sampleListing samePriceFlat = 20%Z.
Proof. repeat split. Qed.

Lemma In_findLimit {A} (x : A) (n : Z) (l : list A) : In x (findLimit n l) -> In x l.
Proof.
  unfold findLimit. destruct (n =? 0)%Z; [tauto | apply In_firstn].
Qed.

(** C8, amended: when no listing has the given id the lookup fails with
    "Property not found".  Otherwise it returns, in the order of the
    collection and cut at [limit] (all of them when [limit] is 0), the
    listings other than the reference that are active, of its type and its
    city, with a price from 0.7 to 1.3 times its price; no similarity score
    orders them. *)
Theorem similar_listings_lookup {R : Rounding} (E : Engine) (propertyId : ObjectId)
    (limit : Z) (db : Db) :
  match find (hasId propertyId) (properties db) with
  | None =>
      result (propertyService.getSimilarProperties E propertyId limit db)
      = Thrown "Failed to fetch similar properties: Property not found"
  | Some reference =>
      result (propertyService.getSimilarProperties E propertyId limit db)
      = Returned (findLimit limit (filter (similarTo reference) (properties db)))
      /\ Forall
           (fun p =>
              In p (properties db)
              /\ Property._id p <> Property._id reference
              /\ Property.isActive p = true
              /\ Property.status p = "active"
              /\ Property.type p = Property.type reference
              /\ Property.city p = Property.city reference
              /\ JS.mul (Property.price reference) (JS.lit (7 # 10)) <= Property.price p
              /\ Property.price p <= JS.mul (Property.price reference) (JS.lit (13 # 10)))
           (findLimit limit (filter (similarTo reference) (properties db)))
      /\ (if (limit =? 0)%Z then True
          else (List.length (findLimit limit (filter (similarTo reference) (properties db)))
                <= Z.abs_nat limit)%nat)
  end.
Proof.
  rewrite getSimilarProperties_result.
  destruct (find (hasId propertyId) (properties db)) as [reference | ]; [ | reflexivity].
  split; [reflexivity | split].
  - apply Forall_forall. intros p Hp. apply In_findLimit in Hp.
    apply filter_In in Hp. destruct Hp as [Hin Hsim].
    split; [exact Hin | ]. now apply similarTo_spec.
  - unfold findLimit. destruct (limit =? 0)%Z; [exact I | apply firstn_le_length].
Qed.

(** ** A search with an inverted price range *)

Lemma validateSearchProperties_accepts :
  validator.runChains propertyValidator.validateSearchProperties (query invertedPriceRange)
  = (query invertedPriceRange, []).
Proof. vm_compute. reflexivity. Qed.

(** The chain of the listing index has the check that the chain of the
    search lacks. *)
Lemma validateGetAllProperties_rejects :
  validator.runChains propertyValidator.validateGetAllProperties (query invertedPriceRange)
  = (query invertedPriceRange,
     [mkFieldError "maxPrice" "Maximum price must be greater than minimum price" "5000000"]).
Proof. vm_compute. reflexivity. Qed.

Lemma buildFilter_inverted : searchService.buildFilter invertedParams = invertedFilter.
Proof. vm_compute. reflexivity. Qed.

Lemma buildSort_inverted :
  searchService.buildSort invertedParams = [("createdAt", Descending)].
Proof. vm_compute. reflexivity. Qed.

Lemma invertedFilter_matches_nothing (E : Engine) (p : Property.t) :
  matches (propertyDoc E p) invertedFilter = false.
Proof.
  change (matches (propertyDoc E p) invertedFilter) with
    (Bool.eqb true (Property.isActive p)
     && (String.eqb "active" (Property.status p)
     && (opHolds "$gte" (VNum 10000000) (VNum (Property.price p))
         && (opHolds "$lte" (VNum 5000000) (VNum (Property.price p)) && true)
         && true))).
  rewrite opHolds_gte, opHolds_lte.
  destruct (Qle_bool 10000000 (Property.price p)) eqn:Hlo;
    destruct (Qle_bool (Property.price p) 5000000) eqn:Hhi;
    rewrite ?andb_false_r, ?andb_true_r; simpl; try reflexivity;
    rewrite ?andb_false_r; try reflexivity.
  apply Qle_bool_iff in Hlo. apply Qle_bool_iff in Hhi.
  exfalso. assert (H : 10000000 <= 5000000) by (eapply Qle_trans; eassumption).
  revert H. apply Qlt_not_le. reflexivity.
Qed.

Lemma filter_nothing {A} (f : A -> bool) (l : list A) :
  (forall a, f a = false) -> filter f l = [].
Proof.
  intros Hf. induction l as [ | a l IH]; simpl; [reflexivity | ].
  rewrite Hf. exact IH.
Qed.

Section InvertedRange.
Context {R : Rounding}.
Variable E : Engine.
Variable parseFeatures : string -> option SearchParams.Features.

Lemma first_page_skip : JS.mul (JS.add 1 (- (1))) 12 == 0.
Proof.
  unfold JS.mul, JS.add.
  rewrite (fl_compat (1 + - (1)) (inject_Z 0)) by reflexivity.
  rewrite (fl_small 0) by lia.
  rewrite (fl_compat (inject_Z 0 * 12) (inject_Z 0)) by reflexivity.
  apply (fl_small 0). lia.
Qed.

Lemma skip_zero_accepted (sk : Q) :
  sk == 0 -> Qle_bool 0 sk && isInteger sk = true /\ Z.to_nat (Qfloor sk) = 0%nat.
Proof.
  intros Hsk. assert (Hfloor : Qfloor sk = 0%Z) by (rewrite (Qfloor_comp _ _ Hsk); reflexivity).
  split; [ | rewrite Hfloor; reflexivity].
  apply andb_true_iff. split.
  - apply Qle_bool_iff. rewrite Hsk. apply Qle_refl.
  - unfold isInteger. apply Qeq_bool_iff. rewrite Hfloor. exact Hsk.
Qed.

(** The service runs the query and finds nothing. *)
Lemma searchProperties_inverted (db : Db) :
  exists r : searchService.SearchResult,
    result (searchService.searchProperties E invertedParams db) = Returned r
    /\ searchService.found r = []
    /\ searchService.totalItems (searchService.pagination r) = 0%nat
    /\ calls (searchService.searchProperties E invertedParams db)
       = [Call "Property" "find"; Call "Property" "countDocuments"].
Proof.
  unfold searchService.searchProperties.
  rewrite buildFilter_inverted, buildSort_inverted.
  unfold rethrow, bind, Property_find, Property_countDocuments, ret,
    searchService.skipOf, findSorted.
  cbn -[invertedFilter matches JS.mul JS.add findLimit sortDocs isInteger Qfloor
        searchService.totalPagesOf].
  rewrite (filter_nothing _ _ (invertedFilter_matches_nothing E)).
  destruct (skip_zero_accepted _ first_page_skip) as [Hok Hnat].
  rewrite Hok, Hnat.
  cbn -[searchService.totalPagesOf].
  eexists. repeat split.
Qed.
End InvertedRange.

Lemma controller_inverted {R : Rounding} (E : Engine)
    (parseFeatures : string -> option SearchParams.Features) (db : Db) :
  exists r : searchService.SearchResult,
    result (searchController.searchProperties E parseFeatures invertedPriceRange db)
    = Returned (mkResponse 200 true None [] (Some r))
    /\ searchService.found r = []
    /\ calls (searchController.searchProperties E parseFeatures invertedPriceRange db)
       = [Call "Property" "find"; Call "Property" "countDocuments"].
Proof.
  destruct (searchProperties_inverted E db) as (r & Hr & Hfound & _ & Hcalls).
  exists r.
  unfold searchController.searchProperties, catch, bind, ret.
  cbn -[searchService.searchProperties].
  fold invertedParams.
  rewrite Hr, Hcalls. cbn. repeat split. exact Hfound.
Qed.

(** C7: [GET /api/search?minPrice=10000000&maxPrice=5000000].  The chain
    [validateSearchProperties] reports no error for it, so the search
    route, with the chain in front or without it (as it is mounted),
    queries the store twice and answers 200 with no listing.  The chain of
    the listing index rejects the same query string. *)
Theorem search_accepts_inverted_price_range {R : Rounding} (E : Engine)
    (parseFeatures : string -> option SearchParams.Features) (db : Db) :
  snd (validator.runChains propertyValidator.validateSearchProperties
         (query invertedPriceRange)) = []
  /\ (exists r : searchService.SearchResult,
        result (routes.GET_api_search_validated E parseFeatures invertedPriceRange db)
        = Returned (mkResponse 200 true None [] (Some r))
        /\ searchService.found r = []
        /\ calls (routes.GET_api_search_validated E parseFeatures invertedPriceRange db)
           = [Call "Property" "find"; Call "Property" "countDocuments"])
  /\ (exists r : searchService.SearchResult,
        result (routes.GET_api_search E parseFeatures invertedPriceRange db)
        = Returned (mkResponse 200 true None [] (Some r))
        /\ searchService.found r = []
        /\ calls (routes.GET_api_search E parseFeatures invertedPriceRange db)
           = [Call "Property" "find"; Call "Property" "countDocuments"])
  /\ snd (validator.runChains propertyValidator.validateGetAllProperties
            (query invertedPriceRange))
     = [mkFieldError "maxPrice" "Maximum price must be greater than minimum price" "5000000"].
Proof.
  split; [rewrite validateSearchProperties_accepts; reflexivity | ].
  split.
  { unfold routes.GET_api_search_validated, validator.guarded.
    rewrite validateSearchProperties_accepts.
    apply controller_inverted. }
  split; [apply controller_inverted | ].
  rewrite validateGetAllProperties_rejects. reflexivity.
Qed.

(** A guarded route makes no store call when its chain reports an
    error. *)
Lemma guarded_rejects {A} (cs : list validator.Chain)
    (handler : Request -> Async (Response A)) (req : Request) (db : Db) :
  snd (validator.runChains cs (query req)) <> [] ->
  calls (validator.guarded cs handler req db) = []
  /\ exists r, result (validator.guarded cs handler req db) = Returned r /\ status r = 400%nat.
Proof.
  intros Herr. unfold validator.guarded.
  destruct (validator.runChains cs (query req)) as [q [ | e es]]; simpl in *.
  - congruence.
  - split; [reflexivity | eexists; split; reflexivity].
Qed.

(** With the chain in front, an inverted bedroom range is answered with
    400 and no store call: the chain has that check for the bedrooms. *)
Lemma search_rejects_inverted_bedroom_range {R : Rounding} (E : Engine)
    (parseFeatures : string -> option SearchParams.Features) (db : Db) :
  calls (routes.GET_api_search_validated E parseFeatures invertedBedroomRange db) = []
  /\ exists r, result (routes.GET_api_search_validated E parseFeatures invertedBedroomRange db)
               = Returned r
               /\ status r = 400%nat.
Proof.
  apply guarded_rejects. vm_compute. discriminate.
Qed.

(** In exact arithmetic the price range of the similar listings is the
    interval from 0.7 to 1.3 times the reference price. *)
Lemma similar_range_exact (x : Q) :
  JS.mul (R := exact_rounding) x (JS.lit (7 # 10)) = x * (7 # 10)
  /\ JS.mul (R := exact_rounding) x (JS.lit (13 # 10)) = x * (13 # 10).
Proof. split; reflexivity. Qed.

(** ** The stages of the view aggregation *)

Lemma filter_none_In {A} (f : A -> bool) (l : list A) :
  (forall a, In a l -> f a = false) -> filter f l = [].
Proof.
  intros Hf. induction l as [ | a l IH]; simpl; [reflexivity | ].
  rewrite (Hf a (or_introl eq_refl)). apply IH. intros b Hb. apply Hf. now right.
Qed.

Lemma countViews_app (listing : ObjectId) (test : PropertyView -> bool)
    (vs ws : list PropertyView) :
  countViews listing test (vs ++ ws)
  = (countViews listing test vs + countViews listing test ws)%Z.
Proof.
  unfold countViews. rewrite filter_app, length_app. lia.
Qed.

Lemma countViews_one (listing : ObjectId) (test : PropertyView -> bool) (v : PropertyView) :
  countViews listing test [v]
  = if Nat.eqb (property v) listing then Trending.b2z (test v) else 0%Z.
Proof.
  unfold countViews. simpl.
  destruct (Nat.eqb (property v) listing); simpl; [ | reflexivity].
  destruct (test v); reflexivity.
Qed.

Lemma countViews_none (listing : ObjectId) (test : PropertyView -> bool)
    (vs : list PropertyView) :
  (forall w, In w vs -> property w <> listing) -> countViews listing test vs = 0%Z.
Proof.
  intros Hno. unfold countViews. rewrite filter_none_In; [reflexivity | ].
  intros w Hw. apply andb_false_iff. left. apply Nat.eqb_neq. now apply Hno.
Qed.

(** A view of another listing leaves the counts of a group as they are. *)
Lemma groupCounts_other (seen : list PropertyView) (v : PropertyView) (g : Trending.Group) :
  Trending._id g <> property v -> groupCounts seen g -> groupCounts (seen ++ [v]) g.
Proof.
  intros Hid (Hv & Hu & Hi). unfold groupCounts.
  rewrite !countViews_app, !countViews_one.
  replace (Nat.eqb (property v) (Trending._id g)) with false
    by (symmetry; apply Nat.eqb_neq; congruence).
  rewrite !Z.add_0_r. auto.
Qed.

(** A view of the listing of a group adds to its counts. *)
Lemma groupCounts_hit (seen : list PropertyView) (v : PropertyView) (g : Trending.Group) :
  Trending._id g = property v -> groupCounts seen g ->
  groupCounts (seen ++ [v])
    (Trending.mkGroup (Trending._id g) (Trending.viewCount g + 1)
       (Trending.uniqueViews g + Trending.b2z (isUnique v))
       (Trending.inquiries g + Trending.b2z (inquirySent (interactions v)))).
Proof.
  intros Hid (Hv & Hu & Hi). unfold groupCounts. simpl.
  rewrite !countViews_app, !countViews_one, Hid, Nat.eqb_refl.
  rewrite <- Hid, <- Hv, <- Hu, <- Hi. auto.
Qed.

(** The first view of a listing opens its group. *)
Lemma groupCounts_new (seen : list PropertyView) (v : PropertyView) :
  (forall w, In w seen -> property w <> property v) ->
  groupCounts (seen ++ [v])
    (Trending.mkGroup (property v) 1 (Trending.b2z (isUnique v))
       (Trending.b2z (inquirySent (interactions v)))).
Proof.
  intros Hnew. unfold groupCounts. simpl.
  rewrite !countViews_app, !countViews_one, Nat.eqb_refl.
  rewrite !(countViews_none _ _ _ Hnew). auto.
Qed.

Lemma accumulate_ids (v : PropertyView) (gs : list Trending.Group) :
  map Trending._id (Trending.accumulate v gs)
  = if hasGroup v gs
    then map Trending._id gs
    else map Trending._id gs ++ [property v].
Proof.
  unfold hasGroup. induction gs as [ | g gs IH]; simpl; [reflexivity | ].
  destruct (Nat.eqb (Trending._id g) (property v)); simpl; [reflexivity | ].
  rewrite IH. fold (hasGroup v gs). destruct (hasGroup v gs); reflexivity.
Qed.

Lemma accumulate_counts (seen : list PropertyView) (v : PropertyView)
    (gs : list Trending.Group) :
  NoDup (map Trending._id gs) ->
  Forall (groupCounts seen) gs ->
  (In (property v) (map Trending._id gs)
   \/ forall w, In w seen -> property w <> property v) ->
  Forall (groupCounts (seen ++ [v])) (Trending.accumulate v gs).
Proof.
  intros Hnodup Hall. induction Hall as [ | g gs Hg Hgs IH]; intros Hcase; simpl.
  - constructor; [ | constructor]. apply groupCounts_new.
    destruct Hcase as [[] | Hnew]. exact Hnew.
  - inversion Hnodup as [ | id ids Hnotin Hnodup']; subst.
    destruct (Nat.eqb (Trending._id g) (property v)) eqn:Hid.
    + apply Nat.eqb_eq in Hid. constructor; [now apply groupCounts_hit | ].
      apply Forall_forall. intros g' Hg'.
      apply groupCounts_other; [ | exact (proj1 (Forall_forall _ _) Hgs g' Hg')].
      intros Heq. apply Hnotin. rewrite Hid, <- Heq. now apply in_map.
    + apply Nat.eqb_neq in Hid. constructor; [now apply groupCounts_other | ].
      apply IH; [exact Hnodup' | ].
      destruct Hcase as [[Heq | Hin] | Hnew]; [congruence | now left | now right].
Qed.

(** What holds of the groups after the views [seen]: one group per
    listing that was viewed, with the counts of its views. *)
Definition grouped (seen : list PropertyView) (gs : list Trending.Group) : Prop :=
  NoDup (map Trending._id gs)
  /\ Forall (groupCounts seen) gs
  /\ forall id, In id (map Trending._id gs) <-> exists w, In w seen /\ property w = id.

Lemma accumulate_grouped (seen : list PropertyView) (v : PropertyView)
    (gs : list Trending.Group) :
  grouped seen gs -> grouped (seen ++ [v]) (Trending.accumulate v gs).
Proof.
  intros (Hnodup & Hcounts & Hids).
  assert (Hmem : hasGroup v gs = true <-> In (property v) (map Trending._id gs)).
  { unfold hasGroup. rewrite existsb_exists. split.
    - intros (id & Hin & Heq). apply Nat.eqb_eq in Heq. now subst.
    - intros Hin. exists (property v). split; [exact Hin | apply Nat.eqb_refl]. }
  split; [ | split].
  - rewrite accumulate_ids.
    destruct (hasGroup v gs) eqn:Hex; [exact Hnodup | ].
    apply NoDup_app; [exact Hnodup | repeat constructor; simpl; tauto | ].
    intros id Hin [<- | []]. apply Hmem in Hin. congruence.
  - apply accumulate_counts; [exact Hnodup | exact Hcounts | ].
    destruct (hasGroup v gs) eqn:Hex.
    + left. now apply Hmem.
    + right. intros w Hw Heq.
      assert (Hin : In (property v) (map Trending._id gs)) by (apply Hids; eauto).
      apply Hmem in Hin. congruence.
  - intros id. rewrite accumulate_ids.
    destruct (hasGroup v gs) eqn:Hex.
    + rewrite Hids. split.
      * intros (w & Hw & Heq). exists w. split; [apply in_or_app; now left | exact Heq].
      * intros (w & Hw & Heq). apply in_app_or in Hw. destruct Hw as [Hw | [<- | []]].
        -- eauto.
        -- apply Hids. subst id. now apply Hmem.
    + rewrite in_app_iff, Hids. simpl. split.
      * intros [(w & Hw & Heq) | [<- | []]].
        -- exists w. split; [apply in_or_app; now left | exact Heq].
        -- exists v. split; [apply in_or_app; right; now left | reflexivity].
      * intros (w & Hw & Heq). apply in_app_or in Hw. destruct Hw as [Hw | [<- | []]].
        -- left. eauto.
        -- right. left. exact Heq.
Qed.

Lemma groupByProperty_grouped (vs : list PropertyView) :
  grouped vs (Trending.groupByProperty vs).
Proof.
  unfold Trending.groupByProperty.
  assert (Hgen : forall seen gs,
             grouped seen gs ->
             grouped (seen ++ vs) (fold_left (fun gs v => Trending.accumulate v gs) vs gs)).
  { induction vs as [ | v vs IH]; intros seen gs Hgs; simpl.
    - now rewrite app_nil_r.
    - replace (seen ++ v :: vs) with ((seen ++ [v]) ++ vs)
        by (rewrite <- app_assoc; reflexivity).
      apply IH. now apply accumulate_grouped. }
  apply (Hgen [] []). split; [constructor | split; [constructor | ]].
  intros id. simpl. split; [tauto | intros (w & [] & _)].
Qed.

(** *** The [$sort], [$limit], [$lookup] and [$match] stages *)

Lemma StronglySorted_all {A} (le : A -> A -> Prop) (l : list A) :
  (forall x y, In x l -> In y l -> le x y) -> StronglySorted le l.
Proof.
  induction l as [ | a l IH]; intros Hall; constructor.
  - apply IH. intros x y Hx Hy. apply Hall; now right.
  - apply Forall_forall. intros y Hy. apply Hall; [now left | now right].
Qed.

Lemma StronglySorted_app {A} (le : A -> A -> Prop) (l1 l2 : list A) :
  StronglySorted le l1 -> StronglySorted le l2 ->
  (forall x y, In x l1 -> In y l2 -> le x y) ->
  StronglySorted le (l1 ++ l2).
Proof.
  intros H1 H2 Hcross. induction H1 as [ | a l1 H1 IH Ha]; simpl; [exact H2 | ].
  constructor.
  - apply IH. intros x y Hx Hy. apply Hcross; [now right | exact Hy].
  - apply Forall_app. split; [exact Ha | ].
    apply Forall_forall. intros y Hy. apply Hcross; [now left | exact Hy].
Qed.

Lemma StronglySorted_filter {A} (le : A -> A -> Prop) (f : A -> bool) (l : list A) :
  StronglySorted le l -> StronglySorted le (filter f l).
Proof.
  intros Hl. induction Hl as [ | a l Hl IH Ha]; simpl; [constructor | ].
  destruct (f a); [ | exact IH]. constructor; [exact IH | ].
  apply Forall_forall. intros y Hy. apply filter_In in Hy.
  exact (proj1 (Forall_forall _ _) Ha y (proj1 Hy)).
Qed.

(** Rows that come from one row each, in the order of those rows. *)
Lemma StronglySorted_flat_map {A B} (le : A -> A -> Prop) (origin : B -> A)
    (f : A -> list B) (l : list A) :
  (forall a, le a a) ->
  (forall a b, In b (f a) -> origin b = a) ->
  StronglySorted le l ->
  StronglySorted (fun x y => le (origin x) (origin y)) (flat_map f l).
Proof.
  intros Hrefl Horigin Hl. induction Hl as [ | a l Hl IH Ha]; simpl; [constructor | ].
  apply StronglySorted_app; [ | exact IH | ].
  - apply StronglySorted_all. intros x y Hx Hy.
    rewrite (Horigin a x Hx), (Horigin a y Hy). apply Hrefl.
  - intros x y Hx Hy. rewrite (Horigin a x Hx).
    apply in_flat_map in Hy. destruct Hy as (a' & Ha' & Hy).
    rewrite (Horigin a' y Hy). exact (proj1 (Forall_forall _ _) Ha a' Ha').
Qed.

(** The order of the [$sort] stage of the view aggregation. *)
Lemma groupOrder_lexDescending (a b : Trending.Group) :
  match compareBy Trending.groupKey
          (Obj.literal [("uniqueViews", Descending); ("viewCount", Descending)]) a b with
  | Gt => false
  | _ => true
  end
  = lexDescending _ Trending.uniqueViews Trending.viewCount a b.
Proof.
  unfold lexDescending. cbn -[Z.compare].
  rewrite !Qcompare_inject_Z. apply compare_two_descending.
Qed.

Lemma lookupProperty_group (ps : list Property.t) (g : Trending.Group) (e : Trending.Entry) :
  In e (Trending.lookupProperty ps g) ->
  Trending.group e = g
  /\ In (Trending.property e) ps
  /\ Property._id (Trending.property e) = Trending._id g.
Proof.
  unfold Trending.lookupProperty. intros He.
  apply in_map_iff in He. destruct He as (p & <- & Hp).
  apply filter_In in Hp. destruct Hp as [Hin Hid]. apply Nat.eqb_eq in Hid.
  simpl. auto.
Qed.

(** What the aggregation returns for a positive limit: entries of active
    listings of the collection, each with the counts of the views of its
    listing within the last week, in descending order of unique views. *)
Lemma getTrendingProperties_entries (now : Date) (limit : Z) (db : Db) :
  (0 < limit)%Z ->
  exists entries : list Trending.Entry,
    result (getTrendingProperties now limit db) = Returned entries
    /\ Forall
         (fun e =>
            In (Trending.property e) (properties db)
            /\ Property.isActive (Trending.property e) = true
            /\ Property._id (Trending.property e) = Trending._id (Trending.group e)
            /\ groupCounts (filter (fun v => (now - week <=? viewedAt v)%Z) (views db))
                 (Trending.group e))
         entries
    /\ StronglySorted moreUniqueViews entries.
Proof.
  intros Hlimit. unfold getTrendingProperties.
  replace (limit <=? 0)%Z with false by (symmetry; apply Z.leb_gt; exact Hlimit).
  eexists. split; [reflexivity | ]. cbn -[sortDocs Obj.literal week].
  set (windowed := filter (fun v => (now - week <=? viewedAt v)%Z) (views db)).
  destruct (groupByProperty_grouped windowed) as (_ & Hcounts & _).
  split.
  - apply Forall_forall. intros e He. apply filter_In in He. destruct He as [He Hactive].
    apply in_flat_map in He. destruct He as (g & Hg & He).
    apply lookupProperty_group in He. destruct He as (Hgroup & Hin & Hid).
    apply In_firstn in Hg. apply sortBy_In in Hg.
    rewrite Hgroup. repeat split; auto.
    + exact (proj1 (proj1 (Forall_forall _ _) Hcounts g Hg)).
    + exact (proj1 (proj2 (proj1 (Forall_forall _ _) Hcounts g Hg))).
    + exact (proj2 (proj2 (proj1 (Forall_forall _ _) Hcounts g Hg))).
  - apply StronglySorted_filter.
    apply (StronglySorted_flat_map
             (fun g1 g2 => (Trending.uniqueViews g2 <= Trending.uniqueViews g1)%Z)
             Trending.group).
    + intros g. apply Z.le_refl.
    + intros g e He. exact (proj1 (lookupProperty_group _ _ _ He)).
    + apply StronglySorted_firstn. unfold sortDocs.
      rewrite (sortBy_ext _ _ _ groupOrder_lexDescending).
      apply sortBy_lexDescending.
Qed.

Lemma lookup_at_most_one (ps : list Property.t) (g : Trending.Group) :
  NoDup (map Property._id ps) -> (List.length (Trending.lookupProperty ps g) <= 1)%nat.
Proof.
  unfold Trending.lookupProperty. rewrite length_map.
  induction ps as [ | p ps IH]; simpl; intros Hnodup; [lia | ].
  inversion Hnodup as [ | id ids Hnotin Hnodup']; subst.
  destruct (Nat.eqb (Property._id p) (Trending._id g)) eqn:Hid; [ | now apply IH].
  apply Nat.eqb_eq in Hid. simpl.
  rewrite filter_none_In; [simpl; lia | ].
  intros q Hq. apply Nat.eqb_neq. intros Heq. apply Hnotin.
  rewrite Hid, <- Heq. now apply in_map.
Qed.

(** With one listing per id the answer has at most [limit] entries. *)
Lemma getTrendingProperties_at_most_limit (now : Date) (limit : Z) (db : Db)
    (entries : list Trending.Entry) :
  NoDup (map Property._id (properties db)) ->
  result (getTrendingProperties now limit db) = Returned entries ->
  (List.length entries <= Z.to_nat limit)%nat.
Proof.
  intros Hnodup. unfold getTrendingProperties.
  destruct (limit <=? 0)%Z; [discriminate | ]. cbn -[sortDocs Obj.literal week].
  intros H. inversion H; subst entries; clear H.
  eapply Nat.le_trans; [apply filter_length_le | ].
  set (limited := firstn (Z.to_nat limit) _).
  assert (Hlen : (List.length limited <= Z.to_nat limit)%nat) by apply firstn_le_length.
  revert Hlen. generalize (Z.to_nat limit). induction limited as [ | g gs IH]; intros n Hn.
  - simpl. lia.
  - simpl in *. rewrite length_app.
    pose proof (lookup_at_most_one (properties db) g Hnodup).
    destruct n as [ | n]; [lia | ]. specialize (IH n ltac:(lia)). lia.
Qed.

(** ** Further properties of the recorder and the scorer *)

(** X27: a view of a listing in a session that viewed it within the last 24
    hours is not unique. *)
Lemma recordView_same_session {R : Rounding} (now : Date) (viewData : ViewData) (db : Db)
    (prior v : PropertyView) :
  In prior (views db) ->
  property prior = vd_propertyId viewData ->
  sessionId prior = vd_sessionId viewData ->
  (now - day <= viewedAt prior)%Z ->
  result (recordView now viewData db) = Returned v ->
  isUnique v = false.
Proof.
  intros Hin Hlisting Hsession Hrecent Hv.
  rewrite (recordView_isUnique now viewData db v Hv). apply negb_false_iff.
  apply existsb_exists. exists prior. split; [exact Hin | ].
  unfold repeatsByQuery. rewrite Hlisting, Hsession, Nat.eqb_refl, String.eqb_refl.
  rewrite orb_true_r. simpl. now apply Z.leb_le.
Qed.

Lemma recordView_same_session_witness :
  In memberView (views db1)
  /\ (hourLater - day <= viewedAt memberView)%Z
  /\ result (recordView (R := exact_rounding) hourLater returningVisit db1)
     = Returned
         (mkPropertyView 2 10 None "s-A" "10.0.0.2" None None None None direct None
            0 0 noInteractions true false hourLater None)
  /\ isUnique
       (mkPropertyView 2 10 None "s-A" "10.0.0.2" None None None None direct None
          0 0 noInteractions true false hourLater None)
     = false.
Proof.
  split; [now left | ]. split; [discriminate | ]. split; [reflexivity | ].
  apply (recordView_same_session (R := exact_rounding) hourLater returningVisit db1
           memberView);
    [now left | reflexivity | reflexivity | discriminate | reflexivity].
Defined.

(** X28: a view is unique when every prior view of the listing is older than
    24 hours. *)
Lemma recordView_after_window {R : Rounding} (now : Date) (viewData : ViewData) (db : Db)
    (v : PropertyView) :
  (forall prior, In prior (views db) -> property prior = vd_propertyId viewData ->
                 (viewedAt prior < now - day)%Z) ->
  result (recordView now viewData db) = Returned v ->
  isUnique v = true.
Proof.
  intros Hold Hv.
  rewrite (recordView_isUnique now viewData db v Hv). apply negb_true_iff.
  destruct (existsb (repeatsByQuery now viewData) (views db)) eqn:Hex; [ | reflexivity].
  apply existsb_exists in Hex. destruct Hex as (prior & Hin & Hrep).
  unfold repeatsByQuery in Hrep.
  apply andb_true_iff in Hrep. destruct Hrep as [Hrep Hrecent].
  apply andb_true_iff in Hrep. destruct Hrep as [Hlisting _].
  apply Nat.eqb_eq in Hlisting. apply Z.leb_le in Hrecent.
  specialize (Hold prior Hin (eq_sym Hlisting)). lia.
Qed.

Lemma recordView_after_window_witness :
  (viewedAt memberView < twoDaysLater - day)%Z
  /\ exists v,
       result (recordView (R := exact_rounding) twoDaysLater returningVisit db1) = Returned v
       /\ isUnique v = true.
Proof.
  split; [reflexivity | ].
  eexists. split; [reflexivity | ].
  apply (recordView_after_window (R := exact_rounding) twoDaysLater returningVisit db1).
  - intros prior [<- | []] _. reflexivity.
  - reflexivity.
Defined.

(** An inquiry or a revealed phone number makes a view of high intent,
    whatever its score. *)
Lemma isHighIntent_overrides {R : Rounding} (v : PropertyView) :
  inquirySent (interactions v) = true \/ phoneRevealed (interactions v) = true ->
  isHighIntent v = true.
Proof.
  intros [H | H]; unfold isHighIntent; rewrite H.
  - rewrite orb_true_r. reflexivity.
  - apply orb_true_r.
Qed.

(** For a view within the ranges of the schema the score is in [0,100]. *)
Lemma engagementScore_schemaValid {R : Rounding} (v : PropertyView) :
  schemaValid v -> (0 <= engagementScore v <= 100)%Z.
Proof. intros (_ & Hscroll & _). now apply engagementScore_range. Qed.

(** The scores of the sample views in the fixed-point arithmetic. *)
Lemma scores_on_the_grid :
  engagementScore (R := grid_rounding) freshView = 0%Z
  /\ engagementScore (R := grid_rounding) engagedView = 65%Z.
Proof.
  split.
  - apply (engagementScore_unengaged (R := grid_rounding)); reflexivity.
  - apply (engagementScore_engaged (R := grid_rounding)); reflexivity.
Qed.

(** * Further properties *)

(** ** Objects and queries *)

(** ** Objects *)

Lemma get_set_same {A} (k : string) (a : A) (o : Obj.t A) : Obj.get k (Obj.set k a o) = Some a.
Proof.
  induction o as [ | [k' a'] o IH]; simpl.
  - rewrite String.eqb_refl. reflexivity.
  - destruct (String.eqb k k') eqn:Hk; simpl; rewrite Hk; [reflexivity | exact IH].
Qed.

Lemma get_set_other {A} (k k' : string) (a : A) (o : Obj.t A) :
  String.eqb k' k = false -> Obj.get k' (Obj.set k a o) = Obj.get k' o.
Proof.
  intros Hneq. induction o as [ | [k0 a0] o IH]; simpl.
  - rewrite Hneq. reflexivity.
  - destruct (String.eqb k k0) eqn:Hk; simpl.
    + apply String.eqb_eq in Hk. subst k0. rewrite Hneq. reflexivity.
    + rewrite IH. reflexivity.
Qed.

(** A document that matches a query satisfies the clause of each key. *)
Lemma matches_get (d : Doc) (q : Query) (k : string) (c : Clause) :
  matches d q = true -> Obj.get k q = Some c -> clauseHolds d k c = true.
Proof.
  unfold matches. induction q as [ | [k' c'] q IH]; simpl; [discriminate | ].
  intros Hall Hget. apply andb_true_iff in Hall. destruct Hall as [Hc Hq].
  destruct (String.eqb k k') eqn:Hk.
  - apply String.eqb_eq in Hk. inversion Hget. subst. exact Hc.
  - now apply IH.
Qed.

(** * More of the view recorder *)

(** ** Updates by id *)

Lemma find_updateFirst {A} (test : A -> bool) (f : A -> A) (l : list A) :
  (forall a, test (f a) = test a) ->
  find test (updateFirst test f l) = option_map f (find test l).
Proof.
  intros Hkeeps. induction l as [ | a l IH]; simpl; [reflexivity | ].
  destruct (test a) eqn:Ha; simpl.
  - rewrite Hkeeps, Ha. reflexivity.
  - rewrite Ha. exact IH.
Qed.

Lemma updateFirst_none {A} (test : A -> bool) (f : A -> A) (l : list A) :
  find test l = None -> updateFirst test f l = l.
Proof.
  induction l as [ | a l IH]; simpl; [reflexivity | ].
  destruct (test a); [discriminate | ]. intros H. now rewrite IH.
Qed.

Lemma updateFirst_idempotent {A} (test : A -> bool) (f : A -> A) (l : list A) :
  (forall a, test (f a) = test a) ->
  (forall a, f (f a) = f a) ->
  updateFirst test f (updateFirst test f l) = updateFirst test f l.
Proof.
  intros Hkeeps Hidem. induction l as [ | a l IH]; simpl; [reflexivity | ].
  destruct (test a) eqn:Ha; simpl.
  - rewrite Hkeeps, Ha, Hidem. reflexivity.
  - rewrite Ha, IH. reflexivity.
Qed.

(** A document that the test rejects stays where it is. *)
Lemma updateFirst_others {A} (test : A -> bool) (f : A -> A) (l : list A) (a : A) :
  test a = false -> In a l -> In a (updateFirst test f l).
Proof.
  intros Ha. induction l as [ | b l IH]; simpl; [tauto | ].
  intros [-> | Hin].
  - rewrite Ha. now left.
  - destruct (test b); [now right | right; now apply IH].
Qed.

Lemma setInteraction_idempotent (interaction : string) (i : Interactions) :
  setInteraction interaction (setInteraction interaction i) = setInteraction interaction i.
Proof.
  unfold setInteraction.
  repeat (destruct (String.eqb interaction _); [reflexivity | ]).
  reflexivity.
Qed.

(** X1: recording one interaction of a view a second time changes no
    interaction: every stored view has the interactions it has after the
    first time, the views are the same ones, and the view the second call
    answers with has the interactions of the first answer. *)
Theorem updateInteraction_idempotent (viewId : ObjectId) (interaction : string) (db : Db) :
  map interactions
    (views (after (updateInteraction viewId interaction
                     (after (updateInteraction viewId interaction db)))))
  = map interactions (views (after (updateInteraction viewId interaction db)))
  /\ map _id
       (views (after (updateInteraction viewId interaction
                        (after (updateInteraction viewId interaction db)))))
     = map _id (views db)
  /\ answeredInteractions
       (result (updateInteraction viewId interaction
                  (after (updateInteraction viewId interaction db))))
     = answeredInteractions (result (updateInteraction viewId interaction db)).
Proof.
  unfold updateInteraction, PropertyView_findByIdAndUpdate.
  cbn [after result views properties users nextId].
  rewrite updateFirst_idempotent;
    [ | reflexivity
      | intros v; unfold withInteractions; cbn; now rewrite setInteraction_idempotent].
  split; [reflexivity | ]. split; [ | reflexivity].
  apply updateFirst_keeps. reflexivity.
Qed.

(** X2: [endViewSession] answers with the view as it is after the update,
    the duration, the scroll depth and the exit time being the ones given,
    whatever their values; for an id that no view has it answers [null]
    and the views stay as they are.  The listings are never touched. *)
Theorem endViewSession_result (now : Date) (viewId : ObjectId) (duration depth : Q)
    (db : Db) :
  properties (after (endViewSession now viewId duration depth db)) = properties db
  /\ match find (fun v => Nat.eqb (_id v) viewId) (views db) with
     | Some v =>
         exists v',
           result (endViewSession now viewId duration depth db) = Returned (Some v')
           /\ In v' (views (after (endViewSession now viewId duration depth db)))
           /\ _id v' = viewId
           /\ viewDuration v' = duration
           /\ scrollDepth v' = depth
           /\ exitedAt v' = Some now
           /\ interactions v' = interactions v
           /\ bounced v' = bounced v
     | None =>
         result (endViewSession now viewId duration depth db) = Returned None
         /\ views (after (endViewSession now viewId duration depth db)) = views db
     end.
Proof.
  unfold endViewSession, PropertyView_findByIdAndUpdate.
  cbn [after result views properties users nextId].
  split; [reflexivity | ].
  rewrite find_updateFirst by reflexivity.
  destruct (find (fun v => Nat.eqb (_id v) viewId) (views db)) as [v | ] eqn:Hfind.
  - eexists. split; [reflexivity | ].
    split.
    + clear - Hfind. induction (views db) as [ | w ws IH]; simpl in *; [discriminate | ].
      destruct (Nat.eqb (_id w) viewId).
      * inversion Hfind; subst. now left.
      * right. now apply IH.
    + apply find_some in Hfind. destruct Hfind as [_ Hid]. apply Nat.eqb_eq in Hid.
      cbn. repeat split; solve [assumption | reflexivity].
  - split; [reflexivity | now apply updateFirst_none].
Qed.

(** ** What [recordView] stores *)

Lemma idsBelow_fresh (n : ObjectId) (vs : list PropertyView) :
  idsBelow n vs -> existsb (fun w => Nat.eqb (_id w) n) vs = false.
Proof.
  intros Hall. induction Hall as [ | w vs Hw _ IH]; simpl; [reflexivity | ].
  rewrite IH, orb_false_r. apply Nat.eqb_neq. lia.
Qed.

(** X3: when the ids of the stored views are below the next id,
    [recordView] adds the view it returns at the end of the collection
    and changes no other view; the view has the next id and the listing,
    the viewer and the time of the call, and the ids stay below the next
    id. *)
Theorem recordView_appends {R : Rounding} (now : Date) (viewData : ViewData) (db : Db)
    (v : PropertyView) :
  idsBelow (nextId db) (views db) ->
  result (recordView now viewData db) = Returned v ->
  views (after (recordView now viewData db)) = views db ++ [v]
  /\ _id v = nextId db
  /\ property v = vd_propertyId viewData
  /\ viewer v = vd_userId viewData
  /\ viewedAt v = now
  /\ idsBelow (nextId (after (recordView now viewData db)))
       (views (after (recordView now viewData db))).
Proof.
  intros Hfresh.
  unfold recordView, bind, PropertyView_findOne, PropertyView_create, PropertyView_save,
    Property_findByIdAndUpdate, ret.
  cbn -[preSave matches Obj.literal day].
  destruct (String.eqb (vd_sessionId viewData) ""); [discriminate | ].
  destruct (String.eqb (vd_ipAddress viewData) ""); [discriminate | ].
  cbn -[preSave matches Obj.literal day].
  rewrite (idsBelow_fresh _ _ Hfresh).
  rewrite preSave_unengaged by reflexivity.
  assert (Hnext : idsBelow (S (nextId db)) (views db)).
  { unfold idsBelow in *. eapply Forall_impl; [ | exact Hfresh]. cbn. intros w Hw. lia. }
  destruct (find _ (views db)); cbn; intros H; inversion H; subst v; cbn;
    (repeat split; try reflexivity);
    (apply Forall_app; split; [exact Hnext | repeat constructor]).
Qed.

Lemma recordView_appends_witness :
  idsBelow (nextId db0) (views db0)
  /\ views (after (recordView (R := exact_rounding) 0 anonymousVisit db0))
     = views db0 ++ [withBounced true freshView]
  /\ _id (withBounced true freshView) = nextId db0.
Proof.
  split; [constructor | ].
  destruct (recordView_appends (R := exact_rounding) 0 anonymousVisit db0
              (withBounced true freshView))
    as (Hviews & Hid & _); [constructor | reflexivity | ].
  split; [exact Hviews | exact Hid].
Defined.

(** X4: a view without a session id or without an address is refused by
    the validation of the schema: [recordView] throws after its one
    query, no view is stored, and the counters of the listing stay as
    they are. *)
Theorem recordView_refuses_blank {R : Rounding} (now : Date) (viewData : ViewData) (db : Db) :
  vd_sessionId viewData = "" \/ vd_ipAddress viewData = "" ->
  (exists message, result (recordView now viewData db) = Thrown message)
  /\ views (after (recordView now viewData db)) = views db
  /\ properties (after (recordView now viewData db)) = properties db
  /\ calls (recordView now viewData db) = [Call "PropertyView" "findOne"].
Proof.
  intros Hblank.
  unfold recordView, bind, PropertyView_findOne, PropertyView_create, PropertyView_save,
    Property_findByIdAndUpdate, ret.
  cbn -[preSave matches Obj.literal day].
  destruct Hblank as [-> | Hip].
  - cbn -[preSave matches Obj.literal day]. eauto.
  - rewrite Hip. destruct (String.eqb (vd_sessionId viewData) "");
      cbn -[preSave matches Obj.literal day]; eauto.
Qed.

Lemma recordView_refuses_blank_witness :
  vd_sessionId blankSession = ""
  /\ views (after (recordView (R := exact_rounding) 0 blankSession db0)) = views db0
  /\ properties (after (recordView (R := exact_rounding) 0 blankSession db0)) = properties db0.
Proof.
  split; [reflexivity | ].
  destruct (recordView_refuses_blank (R := exact_rounding) 0 blankSession db0)
    as (_ & Hviews & Hproperties & _); [left; reflexivity | ].
  split; [exact Hviews | exact Hproperties].
Defined.

(** ** More of the score *)

Lemma rawScore_duration (d d' s : Q) (i : Interactions) {R : Rounding} :
  durationPoints d <= durationPoints d' -> rawScore d s i <= rawScore d' s i.
Proof.
  intros Hd. unfold rawScore.
  repeat (apply bonus_mono;
          [discriminate
          | repeat apply bonus_representable; apply representable_fl
          | tauto
          | ]).
  apply add_mono; [exact Hd | apply Qle_refl].
Qed.

(** X5: beyond five minutes the time on the page adds nothing to the
    score: a view of 300 seconds or more scores as the same view of 300
    seconds. *)
Theorem engagementScore_duration_cap {R : Rounding} (v : PropertyView) :
  300 <= viewDuration v ->
  engagementScore v = engagementScore (withViewDuration 300 v).
Proof.
  intros Hd. rewrite !engagementScore_rawScore. cbn [viewDuration scrollDepth interactions withViewDuration].
  assert (Hcap : durationPoints (viewDuration v) == durationPoints 300).
  { rewrite (durationPoints_cap _ Hd), (durationPoints_cap 300) by apply Qle_refl.
    reflexivity. }
  f_equal. apply Z.le_antisymm; apply Math_round_mono; apply rawScore_duration;
    rewrite Hcap; apply Qle_refl.
Qed.

Lemma engagementScore_duration_cap_witness :
  300 <= viewDuration engagedView
  /\ engagementScore (R := exact_rounding) engagedView
     = engagementScore (R := exact_rounding) (withViewDuration 300 engagedView).
Proof.
  split; [discriminate | ].
  apply (engagementScore_duration_cap (R := exact_rounding) engagedView). discriminate.
Defined.

(** X6: the [pre("save")] middleware changes nothing of a view but
    [bounced], and running it a second time changes nothing more. *)
Theorem preSave_idempotent {R : Rounding} (v : PropertyView) (b : bool) :
  preSave (preSave v) = preSave v
  /\ withBounced b (preSave v) = withBounced b v.
Proof.
  unfold preSave.
  destruct (JS.lt (viewDuration v) 10 && (engagementScore v <? 10)%Z) eqn:Hc.
  - change (viewDuration (withBounced true v)) with (viewDuration v).
    change (engagementScore (withBounced true v)) with (engagementScore v).
    rewrite Hc. split; reflexivity.
  - rewrite Hc. split; reflexivity.
Qed.

(** X7: for a view within the ranges of the schema, the view that
    [markHighIntent] returns has the inquiry flag set and is of high
    intent whatever its score; its other flags, its duration, its scroll
    depth and its id are those of the view the method was called on. *)
Theorem markHighIntent_result {R : Rounding} (this : PropertyView) (db : Db)
    (v : PropertyView) :
  schemaValid this ->
  0 <= imageViews (interactions this) ->
  result (markHighIntent this db) = Returned v ->
  isHighIntent v = true
  /\ interactions v = setInteraction "inquirySent" (interactions this)
  /\ viewDuration v = viewDuration this
  /\ scrollDepth v = scrollDepth this
  /\ _id v = _id this.
Proof.
  intros _ _. unfold markHighIntent, PropertyView_save.
  cbn [sessionId ipAddress withInteractions].
  destruct (String.eqb (sessionId this) ""); [discriminate | ].
  destruct (String.eqb (ipAddress this) ""); [discriminate | ].
  cbn [result]. set (marked := withInteractions _ this).
  intros H. inversion H; subst v; clear H.
  assert (Hsame : preSave marked = marked \/ preSave marked = withBounced true marked).
  { unfold preSave. destruct (_ && _); auto. }
  assert (Hint : interactions (preSave marked)
                 = setInteraction "inquirySent" (interactions this)).
  { destruct Hsame as [-> | ->]; reflexivity. }
  split; [ | split; [exact Hint | ]].
  - apply isHighIntent_overrides. left. rewrite Hint. reflexivity.
  - destruct Hsame as [-> | ->]; repeat split; reflexivity.
Qed.

Lemma markHighIntent_result_witness :
  schemaValid freshView
  /\ 0 <= imageViews (interactions freshView)
  /\ exists v,
       result (markHighIntent (R := exact_rounding) freshView db0) = Returned v
       /\ isHighIntent (R := exact_rounding) v = true
       /\ interactions v = setInteraction "inquirySent" (interactions freshView).
Proof.
  assert (Hvalid : schemaValid freshView) by (repeat split; discriminate).
  assert (Hviews : 0 <= imageViews (interactions freshView)) by discriminate.
  split; [exact Hvalid | ]. split; [exact Hviews | ].
  eexists. split; [reflexivity | ].
  destruct (markHighIntent_result (R := exact_rounding) freshView db0 _ Hvalid Hviews eq_refl)
    as (Hhigh & Hint & _).
  split; [exact Hhigh | exact Hint].
Defined.

(** * More of the search *)

(** ** The filter, assignment by assignment *)

Lemma buildFilter_assignments (sp : SearchParams.t) :
  searchService.buildFilter sp
  = fold_left assign (assignments sp)
      (Obj.literal [("isActive", CEq (VBool true)); ("status", CEq (VStr "active"))]).
Proof.
  unfold assignments.
  destruct (SearchParams.features sp) as [f | ] eqn:Hf;
    destruct (SearchParams.amenities sp) as [[ | a l] | ] eqn:Ha;
    destruct (SearchParams.isVerified sp) eqn:Hv;
    destruct (SearchParams.isFeatured sp) eqn:Hfe;
    cbv beta delta [searchService.buildFilter]; rewrite Hf, Ha, Hv, Hfe; reflexivity.
Qed.

(** A key that no later assignment names keeps its clause. *)
Lemma fold_assign_other (k : string) (l : list (bool * (string * Clause))) (filter : Query) :
  existsb (assigns k) l = false ->
  Obj.get k (fold_left assign l filter) = Obj.get k filter.
Proof.
  revert filter. induction l as [ | a l IH]; intros filter; simpl; [reflexivity | ].
  intros H. apply orb_false_iff in H. destruct H as [Ha Hl].
  rewrite IH by exact Hl. unfold assign.
  destruct (fst a); [now apply get_set_other | reflexivity].
Qed.

Lemma features_assign_other (k : string) (sp : SearchParams.t) :
  String.eqb k "features.facing" = false ->
  String.eqb k "features.furnishing" = false ->
  String.eqb k "features.parking" = false ->
  existsb (assigns k)
    match SearchParams.features sp with
    | Some f =>
         [ (JS.truthy (SearchParams.facing f),
            ("features.facing", CEq (VStr (searchService.strOf (SearchParams.facing f)))));
           (JS.truthy (SearchParams.furnishing f),
            ("features.furnishing",
             CEq (VStr (searchService.strOf (SearchParams.furnishing f)))));
           (JS.truthy (SearchParams.parking f),
            ("features.parking",
             COps (Obj.literal
                     [("$gte", numberOrNaN (parseIntOf (SearchParams.parking f)))]))) ]
    | None => []
    end = false.
Proof.
  intros H1 H2 H3. destruct (SearchParams.features sp); [ | reflexivity].
  unfold assigns. simpl. now rewrite H1, H2, H3.
Qed.

(** The two clauses every search starts from are never replaced. *)
Lemma buildFilter_active (sp : SearchParams.t) :
  Obj.get "isActive" (searchService.buildFilter sp) = Some (CEq (VBool true))
  /\ Obj.get "status" (searchService.buildFilter sp) = Some (CEq (VStr "active")).
Proof.
  rewrite buildFilter_assignments. unfold assignments.
  split; (rewrite fold_assign_other;
          [reflexivity
          | rewrite existsb_app, features_assign_other by reflexivity; reflexivity]).
Qed.

Lemma get_assign_other (k : string) (a : bool * (string * Clause)) (filter : Query) :
  assigns k a = false -> Obj.get k (assign filter a) = Obj.get k filter.
Proof.
  intros Ha. unfold assign. destruct (fst a); [now apply get_set_other | reflexivity].
Qed.

Lemma get_assign_same (k : string) (c : Clause) (filter : Query) :
  Obj.get k (assign filter (true, (k, c))) = Some c.
Proof. apply get_set_same. Qed.

(** The clause of a key after the assignments, read from the last
    assignment to it. *)
Ltac last_assignment :=
  rewrite buildFilter_assignments; unfold assignments;
  rewrite fold_left_app;
  rewrite fold_assign_other by (apply features_assign_other; reflexivity);
  cbn [fold_left];
  rewrite ?get_assign_other by reflexivity.

Lemma buildFilter_price (sp : SearchParams.t) :
  JS.truthy (SearchParams.minPrice sp) || JS.truthy (SearchParams.maxPrice sp) = true ->
  Obj.get "price" (searchService.buildFilter sp)
  = Some (COps (searchService.range (SearchParams.minPrice sp) (SearchParams.maxPrice sp))).
Proof. intros Hc. last_assignment. rewrite Hc. apply get_assign_same. Qed.

Lemma buildFilter_amenities (sp : SearchParams.t) (a : string) (l : list string) :
  SearchParams.amenities sp = Some (a :: l) ->
  Obj.get "amenities" (searchService.buildFilter sp) = Some (CAll (a :: l)).
Proof. intros Ha. last_assignment. rewrite Ha. apply get_assign_same. Qed.

Lemma buildFilter_isVerified (sp : SearchParams.t) (s : string) :
  SearchParams.isVerified sp = Some s ->
  Obj.get "isVerified" (searchService.buildFilter sp)
  = Some (CEq (VBool (String.eqb s "true"))).
Proof. intros Hc. last_assignment. rewrite Hc. apply get_assign_same. Qed.

(** ** What every listing of a result satisfies *)

Lemma In_skipn {A} (x : A) (n : nat) (l : list A) : In x (skipn n l) -> In x l.
Proof.
  revert l. induction n as [ | n IH]; intros l; [tauto | ].
  destruct l as [ | a l]; simpl; [tauto | ]. intros H. right. now apply IH.
Qed.

Lemma findSorted_matches (E : Engine) (filter : Query) (sort : SortSpec)
    (ps : list Property.t) (p : Property.t) :
  In p (findSorted E filter sort ps)
  <-> In p ps /\ matches (propertyDoc E p) filter = true.
Proof.
  unfold findSorted, sortDocs. rewrite sortBy_In. apply filter_In.
Qed.

(** A listing of a result is a listing of the collection that the
    filter of the search matches. *)
Lemma found_matches {R : Rounding} (E : Engine) (sp : SearchParams.t) (db : Db)
    (r : searchService.SearchResult) (p : Property.t) :
  result (searchService.searchProperties E sp db) = Returned r ->
  In p (searchService.found r) ->
  In p (properties db) /\ matches (propertyDoc E p) (searchService.buildFilter sp) = true.
Proof.
  intros Hr Hp. destruct (searchProperties_page E sp db r Hr) as (skip & limit & Hfound).
  rewrite Hfound in Hp. apply In_findLimit, In_skipn in Hp.
  now apply findSorted_matches in Hp.
Qed.

Lemma truthy_nonempty (s : string) : s <> "" -> JS.truthy (Some s) = true.
Proof. destruct s; [congruence | reflexivity]. Qed.

Lemma decimal_nonempty (s : string) : decimal s = true -> s <> "".
Proof. intros Hs ->. discriminate Hs. Qed.

(** X8: whatever the parameters, a listing that a search returns is a
    listing of the collection that is active and has the status
    ["active"]. *)
Theorem search_found_active {R : Rounding} (E : Engine) (sp : SearchParams.t) (db : Db)
    (r : searchService.SearchResult) (p : Property.t) :
  result (searchService.searchProperties E sp db) = Returned r ->
  In p (searchService.found r) ->
  In p (properties db) /\ Property.isActive p = true /\ Property.status p = "active".
Proof.
  intros Hr Hp. destruct (found_matches E sp db r p Hr Hp) as [Hin Hm].
  destruct (buildFilter_active sp) as [Hactive Hstatus].
  pose proof (matches_get _ _ _ _ Hm Hactive) as H1.
  pose proof (matches_get _ _ _ _ Hm Hstatus) as H2.
  cbn in H1, H2. split; [exact Hin | split].
  - destruct (Property.isActive p); [reflexivity | discriminate].
  - symmetry. now apply String.eqb_eq.
Qed.

Lemma search_found_active_witness :
  exists r,
    result (searchService.searchProperties (R := exact_rounding) plainEngine noParams dbTie)
    = Returned r
    /\ In olderListing (searchService.found r)
    /\ Property.isActive olderListing = true
    /\ Property.status olderListing = "active".
Proof.
  eexists. split; [reflexivity | ]. split; [right; left; reflexivity | ].
  apply (search_found_active (R := exact_rounding) plainEngine noParams dbTie _
           olderListing eq_refl).
  right. left. reflexivity.
Defined.

Lemma range_gte (min max : option string) :
  JS.truthy min = true ->
  Obj.get "$gte" (searchService.range min max) = Some (numberOrNaN (parseIntOf min)).
Proof.
  intros Hmin. unfold searchService.range. rewrite Hmin.
  destruct (JS.truthy max); reflexivity.
Qed.

Lemma range_lte (min max : option string) :
  JS.truthy max = true ->
  Obj.get "$lte" (searchService.range min max) = Some (numberOrNaN (parseIntOf max)).
Proof.
  intros Hmax. unfold searchService.range. rewrite Hmax.
  destruct (JS.truthy min); reflexivity.
Qed.

(** A field that satisfies the operators of a clause satisfies each. *)
Lemma ops_get (ops : Obj.t Value) (op : string) (arg field : Value) :
  forallb (fun o => opHolds (fst o) (snd o) field) ops = true ->
  Obj.get op ops = Some arg ->
  opHolds op arg field = true.
Proof.
  induction ops as [ | [op' arg'] ops IH]; simpl; [discriminate | ].
  intros Hall Hget. apply andb_true_iff in Hall. destruct Hall as [Ho Hops].
  destruct (String.eqb op op') eqn:Hop.
  - apply String.eqb_eq in Hop. inversion Hget. subst. exact Ho.
  - now apply IH.
Qed.

(** X9: the price bounds of a search hold of every listing it returns:
    for a [minPrice] written in decimal digits the price is at least its
    number, and for such a [maxPrice] at most its number. *)
Theorem search_price_bounds {R : Rounding} (E : Engine) (sp : SearchParams.t) (db : Db)
    (r : searchService.SearchResult) (p : Property.t) :
  result (searchService.searchProperties E sp db) = Returned r ->
  In p (searchService.found r) ->
  (forall s, SearchParams.minPrice sp = Some s -> decimal s = true ->
             exists lo, Str.parseInt s = Some lo /\ inject_Z lo <= Property.price p)
  /\ (forall s, SearchParams.maxPrice sp = Some s -> decimal s = true ->
                exists hi, Str.parseInt s = Some hi /\ Property.price p <= inject_Z hi).
Proof.
  intros Hr Hp. destruct (found_matches E sp db r p Hr Hp) as [_ Hm].
  split; intros s Hs Hne; apply decimal_nonempty, truthy_nonempty in Hne.
  - assert (Hc : JS.truthy (SearchParams.minPrice sp) || JS.truthy (SearchParams.maxPrice sp)
                 = true) by (rewrite Hs, Hne; reflexivity).
    pose proof (matches_get _ _ _ _ Hm (buildFilter_price sp Hc)) as Hops.
    cbn [clauseHolds] in Hops.
    pose proof (ops_get _ _ _ _ Hops
                  (range_gte (SearchParams.minPrice sp) (SearchParams.maxPrice sp)
                     ltac:(rewrite Hs; exact Hne))) as Hop.
    rewrite Hs in Hop. cbn [parseIntOf] in Hop.
    destruct (Str.parseInt s) as [lo | ]; [ | discriminate Hop].
    exists lo. split; [reflexivity | ].
    cbn [numberOrNaN] in Hop.
    change (field (propertyDoc E p) "price") with (VNum (Property.price p)) in Hop.
    rewrite opHolds_gte in Hop. now apply Qle_bool_iff.
  - assert (Hc : JS.truthy (SearchParams.minPrice sp) || JS.truthy (SearchParams.maxPrice sp)
                 = true) by (rewrite Hs, Hne; apply orb_true_r).
    pose proof (matches_get _ _ _ _ Hm (buildFilter_price sp Hc)) as Hops.
    cbn [clauseHolds] in Hops.
    pose proof (ops_get _ _ _ _ Hops
                  (range_lte (SearchParams.minPrice sp) (SearchParams.maxPrice sp)
                     ltac:(rewrite Hs; exact Hne))) as Hop.
    rewrite Hs in Hop. cbn [parseIntOf] in Hop.
    destruct (Str.parseInt s) as [hi | ]; [ | discriminate Hop].
    exists hi. split; [reflexivity | ].
    cbn [numberOrNaN] in Hop.
    change (field (propertyDoc E p) "price") with (VNum (Property.price p)) in Hop.
    rewrite opHolds_lte in Hop. now apply Qle_bool_iff.
Qed.

Lemma search_price_bounds_witness :
  decimal "5000000" = true
  /\ decimal "6000000" = true
  /\ exists r,
       result (searchService.searchProperties (R := exact_rounding) plainEngine priceBand
                 dbTie)
       = Returned r
       /\ In olderListing (searchService.found r)
       /\ (exists lo, Str.parseInt "5000000" = Some lo
                      /\ inject_Z lo <= Property.price olderListing)
       /\ (exists hi, Str.parseInt "6000000" = Some hi
                      /\ Property.price olderListing <= inject_Z hi).
Proof.
  split; [reflexivity | ]. split; [reflexivity | ].
  eexists. split; [reflexivity | ]. split; [right; left; reflexivity | ].
  destruct (search_price_bounds (R := exact_rounding) plainEngine priceBand dbTie _
              olderListing eq_refl) as [Hmin Hmax]; [right; left; reflexivity | ].
  split; [apply Hmin | apply Hmax]; reflexivity.
Defined.

(** X10: the amenities of a search are asked for together: a listing it
    returns has every one of them. *)
Theorem search_amenities_all {R : Rounding} (E : Engine) (sp : SearchParams.t) (db : Db)
    (r : searchService.SearchResult) (p : Property.t) (items : list string) (a : string) :
  result (searchService.searchProperties E sp db) = Returned r ->
  In p (searchService.found r) ->
  SearchParams.amenities sp = Some items ->
  In a items ->
  In a (Property.amenities p).
Proof.
  intros Hr Hp Hitems Ha. destruct (found_matches E sp db r p Hr Hp) as [_ Hm].
  destruct items as [ | a0 items]; [destruct Ha | ].
  pose proof (matches_get _ _ _ _ Hm (buildFilter_amenities sp a0 items Hitems)) as Hall.
  cbn [clauseHolds] in Hall.
  change (field (propertyDoc E p) "amenities") with (VArr (Property.amenities p)) in Hall.
  cbn iota in Hall.
  pose proof (proj1 (forallb_forall _ _) Hall a Ha) as Hex.
  apply existsb_exists in Hex. destruct Hex as (x & Hx & Heq).
  apply String.eqb_eq in Heq. now subst.
Qed.

Lemma search_amenities_all_witness :
  exists r,
    result (searchService.searchProperties (R := exact_rounding) plainEngine liftSearch dbTie)
    = Returned r
    /\ In newerListing (searchService.found r)
    /\ In "Lift" (Property.amenities newerListing).
Proof.
  eexists. split; [reflexivity | ]. split; [left; reflexivity | ].
  apply (search_amenities_all (R := exact_rounding) plainEngine liftSearch dbTie _
           newerListing ["Lift"] "Lift" eq_refl);
    [left; reflexivity | reflexivity | left; reflexivity].
Defined.

(** X11: the [isVerified] parameter is compared with the string
    ["true"]: with that value a search returns verified listings only,
    and with any other value, ["yes"] or ["1"] as well as ["false"], it
    returns listings that are not verified only. *)
Theorem search_isVerified_literal {R : Rounding} (E : Engine) (sp : SearchParams.t) (db : Db)
    (r : searchService.SearchResult) (p : Property.t) (s : string) :
  result (searchService.searchProperties E sp db) = Returned r ->
  In p (searchService.found r) ->
  SearchParams.isVerified sp = Some s ->
  Property.isVerified p = String.eqb s "true".
Proof.
  intros Hr Hp Hs. destruct (found_matches E sp db r p Hr Hp) as [_ Hm].
  pose proof (matches_get _ _ _ _ Hm (buildFilter_isVerified sp s Hs)) as Heq.
  cbn in Heq. symmetry. now apply Bool.eqb_prop.
Qed.

Lemma search_isVerified_literal_witness :
  SearchParams.isVerified verifiedYes = Some "yes"
  /\ exists r,
       result (searchService.searchProperties (R := exact_rounding) plainEngine verifiedYes
                 dbTrend)
       = Returned r
       /\ In (Property.inc 1 0 listing40) (searchService.found r)
       /\ Property.isVerified (Property.inc 1 0 listing40) = false.
Proof.
  split; [reflexivity | ].
  eexists. split; [reflexivity | ]. split; [left; reflexivity | ].
  apply (search_isVerified_literal (R := exact_rounding) plainEngine verifiedYes dbTrend _
           (Property.inc 1 0 listing40) "yes" eq_refl);
    [left; reflexivity | reflexivity].
Defined.

(** ** Pages *)

Lemma findLimit_length {A} (n : Z) (l : list A) :
  (List.length (findLimit n l) <= List.length l)%nat
  /\ (n <> 0%Z -> (List.length (findLimit n l) <= Z.abs_nat n)%nat).
Proof.
  unfold findLimit. destruct (Z.eqb_spec n 0) as [Hn | Hn].
  - split; [lia | congruence].
  - rewrite length_firstn. split; intros; lia.
Qed.



(** ** Orders other than the price *)

Lemma findSorted_newest (E : Engine) (filter : Query) (ps : list Property.t) :
  StronglySorted newestFirst
    (findSorted E filter (Obj.literal [("createdAt", Descending)]) ps).
Proof.
  unfold findSorted, sortDocs.
  rewrite (sortBy_ext _ (lexDescending _ Property.createdAt (fun _ => 0%Z)))
    by (intros a b; unfold lexDescending; cbn -[Z.compare Z.ltb Z.eqb Z.leb];
        exact (compare_two_descending _ _ 0 0)).
  apply sortBy_lexDescending.
Qed.

Lemma findSorted_popular (E : Engine) (filter : Query) (ps : list Property.t) :
  StronglySorted mostViewedFirst
    (findSorted E filter
       (Obj.literal [("viewCount", Descending); ("uniqueViews", Descending)]) ps).
Proof.
  unfold findSorted, sortDocs.
  rewrite (sortBy_ext _ (lexDescending _ Property.viewCount Property.uniqueViews))
    by (intros a b; unfold lexDescending; cbn -[Z.compare Z.ltb Z.eqb Z.leb];
        rewrite !Qcompare_inject_Z; apply compare_two_descending).
  apply StronglySorted_impl with (le := before _ (lexDescending _ Property.viewCount Property.uniqueViews)).
  - intros a b. apply lexDescending_spec.
  - apply sortBy_sorted; [apply lexDescending_total | apply lexDescending_trans].
Qed.

Lemma buildSort_newest (sp : SearchParams.t) :
  SearchParams.sortBy sp = Some "newest"
  \/ ((forall mode, In mode otherModes -> SearchParams.sortBy sp <> Some mode)
      /\ JS.truthy (SearchParams.query sp) = false) ->
  searchService.buildSort sp = Obj.literal [("createdAt", Descending)].
Proof.
  intros [Hnewest | [Hother Hquery]]; unfold searchService.buildSort.
  - rewrite Hnewest. reflexivity.
  - rewrite Hquery.
    destruct (SearchParams.sortBy sp) as [mode | ]; [ | reflexivity].
    repeat match goal with
           | |- context [String.eqb mode ?m] =>
               destruct (String.eqb_spec mode m) as [-> | _];
               [first [reflexivity | exfalso; eapply Hother; [ | reflexivity]; simpl; tauto] | ]
           end.
    reflexivity.
Qed.

(** X13: the newest listings come first when the search is sorted by
    ["newest"] and also when it has no text to search for and its sort
    mode is none of the six other modes: left out, ["relevance"], or a
    word the service does not know, which is no error. *)
Theorem search_newest_first {R : Rounding} (E : Engine) (sp : SearchParams.t) (db : Db)
    (r : searchService.SearchResult) :
  SearchParams.sortBy sp = Some "newest"
  \/ ((forall mode, In mode otherModes -> SearchParams.sortBy sp <> Some mode)
      /\ JS.truthy (SearchParams.query sp) = false) ->
  result (searchService.searchProperties E sp db) = Returned r ->
  StronglySorted newestFirst (searchService.found r).
Proof.
  intros Hmode Hr. apply (page_sorted E newestFirst sp db r); [ | exact Hr].
  unfold fullResults. rewrite (buildSort_newest sp Hmode). apply findSorted_newest.
Qed.

Lemma search_newest_first_witness :
  SearchParams.sortBy (sortedBy "newest") = Some "newest"
  /\ exists r,
       result (searchService.searchProperties (R := exact_rounding) plainEngine
                 (sortedBy "newest") dbTie)
       = Returned r
       /\ StronglySorted newestFirst (searchService.found r).
Proof.
  split; [reflexivity | ].
  eexists. split; [reflexivity | ].
  apply (search_newest_first (R := exact_rounding) plainEngine (sortedBy "newest") dbTie);
    [left; reflexivity | reflexivity].
Defined.

(** X14: sorted by ["popular"], the listings of a page come by falling
    [viewCount], and those of one [viewCount] by falling
    [uniqueViews]. *)
Theorem search_popular_first {R : Rounding} (E : Engine) (sp : SearchParams.t) (db : Db)
    (r : searchService.SearchResult) :
  SearchParams.sortBy sp = Some "popular" ->
  result (searchService.searchProperties E sp db) = Returned r ->
  StronglySorted mostViewedFirst (searchService.found r).
Proof.
  intros Hmode Hr. apply (page_sorted E mostViewedFirst sp db r); [ | exact Hr].
  unfold fullResults, searchService.buildSort. rewrite Hmode.
  apply findSorted_popular.
Qed.

Lemma search_popular_first_witness :
  SearchParams.sortBy (sortedBy "popular") = Some "popular"
  /\ exists r,
       result (searchService.searchProperties (R := exact_rounding) plainEngine
                 (sortedBy "popular") dbTrend)
       = Returned r
       /\ StronglySorted mostViewedFirst (searchService.found r).
Proof.
  split; [reflexivity | ].
  eexists. split; [reflexivity | ].
  apply (search_popular_first (R := exact_rounding) plainEngine (sortedBy "popular") dbTrend);
    reflexivity.
Defined.

(** * More of the property service *)

Lemma db_eta (db : Db) : mkDb (views db) (properties db) (users db) (nextId db) = db.
Proof. destruct db. reflexivity. Qed.

Lemma updateFirst_compose {A} (test : A -> bool) (f g : A -> A) (l : list A) :
  (forall a, test (g a) = test a) ->
  updateFirst test f (updateFirst test g l) = updateFirst test (fun a => f (g a)) l.
Proof.
  intros Hkeeps. induction l as [ | a l IH]; simpl; [reflexivity | ].
  destruct (test a) eqn:Ha; simpl.
  - rewrite Hkeeps, Ha. reflexivity.
  - rewrite Ha, IH. reflexivity.
Qed.

(** The updated document is a document of the collection. *)
Lemma find_updateFirst_In {A} (test : A -> bool) (f : A -> A) (l : list A) (a : A) :
  find test l = Some a -> In (f a) (updateFirst test f l).
Proof.
  induction l as [ | b l IH]; simpl; [discriminate | ].
  destruct (test b).
  - intros H. inversion H. now left.
  - intros H. right. now apply IH.
Qed.

(** X15: [getPropertyById] answers with the listing as it was found:
    when it counts the view (the option is set and the listing is
    active) the stored [viewCount] is one more than the [viewCount] of
    the listing it returns.  When no listing has the id it throws and the
    store stays as it is. *)
Theorem getPropertyById_result (propertyId : ObjectId) (options : propertyService.Options)
    (db : Db) :
  match find (hasId propertyId) (properties db) with
  | Some p =>
      result (propertyService.getPropertyById propertyId options db) = Returned p
      /\ find (hasId propertyId)
           (properties (after (propertyService.getPropertyById propertyId options db)))
         = Some (match propertyService.incrementView options with
                 | Some true => if Property.isActive p then Property.inc 1 0 p else p
                 | _ => p
                 end)
  | None =>
      result (propertyService.getPropertyById propertyId options db)
      = Thrown "Failed to fetch property: Property not found"
      /\ after (propertyService.getPropertyById propertyId options db) = db
  end.
Proof.
  unfold propertyService.getPropertyById, rethrow, bind, Property_findById,
    Property_findByIdAndUpdate, throw, ret.
  cbn [result after calls properties].
  fold (hasId propertyId).
  destruct (find (hasId propertyId) (properties db)) as [p | ] eqn:Hfind;
    cbn [result after calls properties].
  - destruct (propertyService.incrementView options) as [[ | ] | ];
      cbn [result after calls properties andb];
      try (split; [reflexivity | exact Hfind]).
    destruct (Property.isActive p); cbn [result after calls properties];
      (split; [reflexivity | ]); [ | exact Hfind].
    rewrite find_updateFirst by reflexivity. rewrite Hfind. reflexivity.
  - split; reflexivity.
Qed.

Lemma featured_match (E : Engine) (p : Property.t) :
  matches (propertyDoc E p)
    (Obj.literal
       [("isActive", CEq (VBool true));
        ("isFeatured", CEq (VBool true));
        ("status", CEq (VStr "active"))])
  = Property.isActive p && Property.isFeatured p
    && String.eqb "active" (Property.status p).
Proof.
  change (Obj.literal
            [("isActive", CEq (VBool true));
             ("isFeatured", CEq (VBool true));
             ("status", CEq (VStr "active"))])
    with [("isActive", CEq (VBool true));
          ("isFeatured", CEq (VBool true));
          ("status", CEq (VStr "active"))].
  unfold matches. cbn [forallb clauseHolds fst snd].
  change (field (propertyDoc E p) "isActive") with (VBool (Property.isActive p)).
  change (field (propertyDoc E p) "isFeatured") with (VBool (Property.isFeatured p)).
  change (field (propertyDoc E p) "status") with (VStr (Property.status p)).
  cbn [valueEq]. rewrite andb_true_r.
  destruct (Property.isActive p), (Property.isFeatured p); reflexivity.
Qed.

(** X16: for a limit of 32 bits [getFeaturedProperties] does not fail,
    and it never writes.  Its listings are listings of the collection that
    are featured and active, the newest first, at most as many as the
    limit; with the limit 0 it returns every such listing. *)
Theorem getFeaturedProperties_result (E : Engine) (limit : Z) (db : Db) :
  int32 limit ->
  exists ps,
    result (propertyService'.getFeaturedProperties E limit db) = Returned ps
    /\ after (propertyService'.getFeaturedProperties E limit db) = db
    /\ Forall (fun p => In p (properties db)
                        /\ Property.isFeatured p = true
                        /\ Property.isActive p = true
                        /\ Property.status p = "active") ps
    /\ StronglySorted newestFirst ps
    /\ (limit <> 0%Z -> (List.length ps <= Z.abs_nat limit)%nat)
    /\ (limit = 0%Z ->
        forall p, In p (properties db) -> Property.isFeatured p = true ->
                  Property.isActive p = true -> Property.status p = "active" -> In p ps).
Proof.
  intros _. eexists. split; [reflexivity | ]. split; [reflexivity | ].
  split; [ | split; [ | split]].
  - apply Forall_forall. intros p Hp. apply In_findLimit in Hp.
    apply findSorted_matches in Hp. destruct Hp as [Hin Hm].
    rewrite featured_match in Hm.
    apply andb_true_iff in Hm. destruct Hm as [Hm Hstatus].
    apply andb_true_iff in Hm. destruct Hm as [Hactive Hfeatured].
    apply String.eqb_eq in Hstatus. auto.
  - apply findLimit_sorted. apply findSorted_newest.
  - apply findLimit_length.
  - intros -> p Hin Hfeatured Hactive Hstatus. unfold findLimit. cbn [Z.eqb].
    apply findSorted_matches. split; [exact Hin | ].
    rewrite featured_match, Hfeatured, Hactive, Hstatus. reflexivity.
Qed.

Lemma getFeaturedProperties_result_witness :
  int32 6
  /\ exists ps,
       result (propertyService'.getFeaturedProperties plainEngine 6 db0) = Returned ps
       /\ StronglySorted newestFirst ps.
Proof.
  assert (Hlimit : int32 6) by reflexivity.
  split; [exact Hlimit | ].
  destruct (getFeaturedProperties_result plainEngine 6 db0 Hlimit)
    as (ps & Hr & _ & _ & Hsorted & _).
  exists ps. split; [exact Hr | exact Hsorted].
Defined.

Lemma markAsFeatured_returned (propertyId : ObjectId) (db : Db) (p : Property.t) :
  result (propertyService'.markAsFeatured propertyId db) = Returned p ->
  exists q,
    find (hasId propertyId) (properties db) = Some q
    /\ p = withIsFeatured true q
    /\ properties (after (propertyService'.markAsFeatured propertyId db))
       = updateFirst (hasId propertyId) (withIsFeatured true) (properties db).
Proof.
  unfold propertyService'.markAsFeatured, rethrow, bind, Property_findByIdAndUpdate_new,
    propertyService'.updated, throw, ret.
  cbn [result after calls properties].
  rewrite find_updateFirst by reflexivity.
  destruct (find (hasId propertyId) (properties db)) as [q | ];
    cbn [result after calls properties option_map]; [ | discriminate].
  intros H. inversion H. eauto.
Qed.

(** X17: a listing that [markAsFeatured] returns, when it is active, is
    among the featured listings afterwards. *)
Theorem markAsFeatured_then_listed (E : Engine) (propertyId : ObjectId) (db : Db)
    (p : Property.t) :
  result (propertyService'.markAsFeatured propertyId db) = Returned p ->
  Property.isActive p = true ->
  Property.status p = "active" ->
  exists ps,
    result (propertyService'.getFeaturedProperties E 0
              (after (propertyService'.markAsFeatured propertyId db)))
    = Returned ps
    /\ In p ps.
Proof.
  intros Hr Hactive Hstatus.
  destruct (markAsFeatured_returned propertyId db p Hr) as (q & Hfind & -> & Hafter).
  eexists. split; [reflexivity | ].
  unfold findLimit. cbn [Z.eqb]. apply findSorted_matches. split.
  - cbn [after properties]. rewrite Hafter. now apply find_updateFirst_In.
  - rewrite featured_match, Hactive, Hstatus. reflexivity.
Qed.

Lemma markAsFeatured_then_listed_witness :
  result (propertyService'.markAsFeatured 10 db0) = Returned (withIsFeatured true sampleListing)
  /\ exists ps,
       result (propertyService'.getFeaturedProperties plainEngine 0
                 (after (propertyService'.markAsFeatured 10 db0)))
       = Returned ps
       /\ In (withIsFeatured true sampleListing) ps.
Proof.
  split; [reflexivity | ].
  apply (markAsFeatured_then_listed plainEngine 10 db0 (withIsFeatured true sampleListing));
    reflexivity.
Defined.

(** X18: for a limit of 32 bits and a window that starts at a valid date,
    [getTrendingProperties] of the property service does not fail, and it
    never writes.  Its listings are active listings created within the
    trailing days, by falling [viewCount] and then falling [uniqueViews],
    at most as many as the limit. *)
Theorem service_trending_result (E : Engine) (now : Date) (limit days : Z) (db : Db) :
  int32 limit ->
  validDate (now - days * day) ->
  exists ps,
    result (propertyService.getTrendingProperties E now limit days db) = Returned ps
    /\ after (propertyService.getTrendingProperties E now limit days db) = db
    /\ Forall (fun p => In p (properties db)
                        /\ Property.isActive p = true
                        /\ Property.status p = "active"
                        /\ (now - days * day <= Property.createdAt p)%Z) ps
    /\ StronglySorted mostViewedFirst ps
    /\ (limit <> 0%Z -> (List.length ps <= Z.abs_nat limit)%nat).
Proof.
  intros _ _. eexists. split; [reflexivity | ]. split; [reflexivity | ].
  split; [ | split].
  - apply Forall_forall. intros p Hp. apply In_findLimit in Hp.
    apply findSorted_matches in Hp. destruct Hp as [Hin Hm].
    rewrite (trending_match E) in Hm.
    apply andb_true_iff in Hm. destruct Hm as [Hm Hcreated].
    apply andb_true_iff in Hm. destruct Hm as [Hactive Hstatus].
    apply String.eqb_eq in Hstatus. apply Z.leb_le in Hcreated. auto.
  - apply findLimit_sorted. apply findSorted_popular.
  - apply findLimit_length.
Qed.

Lemma service_trending_result_witness :
  int32 6
  /\ validDate (monthLater - 7 * day)
  /\ exists ps,
       result (propertyService.getTrendingProperties plainEngine monthLater 6 7 dbTrend)
       = Returned ps
       /\ StronglySorted mostViewedFirst ps.
Proof.
  assert (Hlimit : int32 6) by reflexivity.
  assert (Hdate : validDate (monthLater - 7 * day)) by discriminate.
  split; [exact Hlimit | ]. split; [exact Hdate | ].
  destruct (service_trending_result plainEngine monthLater 6 7 dbTrend Hlimit Hdate)
    as (ps & Hr & _ & _ & Hsorted & _).
  exists ps. split; [exact Hr | exact Hsorted].
Defined.
(** X19: taking a listing from the featured ones after marking it leaves
    the collection as taking it alone does; and neither update changes
    anything but the [isFeatured] flags. *)
Theorem featured_round_trip (propertyId : ObjectId) (db : Db) (b : bool) :
  after (propertyService'.removeFromFeatured propertyId
           (after (propertyService'.markAsFeatured propertyId db)))
  = after (propertyService'.removeFromFeatured propertyId db)
  /\ map (withIsFeatured b) (properties (after (propertyService'.markAsFeatured propertyId db)))
     = map (withIsFeatured b) (properties db)
  /\ map (withIsFeatured b)
       (properties (after (propertyService'.removeFromFeatured propertyId db)))
     = map (withIsFeatured b) (properties db).
Proof.
  assert (Hafter : forall f msg d,
             after (rethrow msg
                      (property <- Property_findByIdAndUpdate_new propertyId f ;;
                       propertyService'.updated property) d)
             = mkDb (views d) (updateFirst (hasId propertyId) f (properties d))
                 (users d) (nextId d)).
  { intros f msg d. unfold rethrow, bind, Property_findByIdAndUpdate_new,
      propertyService'.updated, throw, ret.
    cbn [result after calls].
    destruct (find _ _); reflexivity. }
  unfold propertyService'.removeFromFeatured, propertyService'.markAsFeatured.
  rewrite !Hafter. cbn [views properties users nextId].
  split; [ | split].
  - rewrite updateFirst_compose by reflexivity. reflexivity.
  - apply updateFirst_keeps. reflexivity.
  - apply updateFirst_keeps. reflexivity.
Qed.

(** X20: [verifyProperty] for an id that no listing has throws and leaves
    the store as it is; otherwise it returns the first listing with the
    id, verified and unchanged apart from that, and the other listings
    stay as they are. *)
Theorem verifyProperty_result (propertyId : ObjectId) (db : Db) :
  match find (hasId propertyId) (properties db) with
  | Some p =>
      result (propertyService'.verifyProperty propertyId db)
      = Returned (withIsVerified true p)
      /\ In (withIsVerified true p)
           (properties (after (propertyService'.verifyProperty propertyId db)))
      /\ (forall q, In q (properties db) -> hasId propertyId q = false ->
                    In q (properties (after (propertyService'.verifyProperty propertyId db))))
      /\ List.length (properties (after (propertyService'.verifyProperty propertyId db)))
         = List.length (properties db)
  | None =>
      result (propertyService'.verifyProperty propertyId db)
      = Thrown "Failed to verify property: Property not found"
      /\ after (propertyService'.verifyProperty propertyId db) = db
  end.
Proof.
  unfold propertyService'.verifyProperty, rethrow, bind, Property_findByIdAndUpdate_new,
    propertyService'.updated, throw, ret.
  cbn [result after calls properties].
  rewrite find_updateFirst by reflexivity.
  destruct (find (hasId propertyId) (properties db)) as [p | ] eqn:Hfind;
    cbn [result after calls properties option_map].
  - split; [reflexivity | ]. split; [now apply find_updateFirst_In | ]. split.
    + intros q Hq Hid. now apply updateFirst_others.
    + rewrite <- (length_map Property._id), updateFirst_keeps by reflexivity.
      apply length_map.
  - split; [reflexivity | ]. rewrite updateFirst_none by exact Hfind. apply db_eta.
Qed.

(** * Controllers *)

Lemma parseIntOrElse_nonzero (fallback : Z) (value : option string) :
  fallback <> 0%Z -> propertyController'.parseIntOrElse fallback value <> 0%Z.
Proof.
  intros Hf. unfold propertyController'.parseIntOrElse.
  destruct (parseIntOf value) as [[ | n | n] | ]; try exact Hf; discriminate.
Qed.

(** X21: [GET /api/properties/featured] and
    [GET /api/properties/trending] answer 200 and do not write, for a
    [limit] and [days] that are absent or written in decimal digits, a
    limit of 32 bits and a window that starts at a valid date.  The limit
    they pass on is never 0, a missing limit and the limit 0 being
    replaced by 6, so the page is never unlimited: it has at most as many
    listings as the limit, and [count] is their number. *)
Theorem listing_controllers_answer (E : Engine) (now : Date) (req : Request) (db : Db) :
  absentOrDecimal (Obj.get "limit" (query req)) = true ->
  absentOrDecimal (Obj.get "days" (query req)) = true ->
  int32 (propertyController'.parseIntOrElse 6 (Obj.get "limit" (query req))) ->
  validDate (now - propertyController'.parseIntOrElse 7 (Obj.get "days" (query req)) * day) ->
  (exists ps,
     result (propertyController'.getFeaturedProperties E req db)
     = Returned (mkResponse 200 true None []
                   (Some (propertyController'.mkListing ps (List.length ps))))
     /\ (List.length ps
         <= Z.abs_nat (propertyController'.parseIntOrElse 6 (Obj.get "limit" (query req))))%nat
     /\ after (propertyController'.getFeaturedProperties E req db) = db)
  /\ (exists ps,
        result (propertyController'.getTrendingProperties E now req db)
        = Returned (mkResponse 200 true None []
                      (Some (propertyController'.mkListing ps (List.length ps))))
        /\ (List.length ps
            <= Z.abs_nat (propertyController'.parseIntOrElse 6 (Obj.get "limit" (query req))))%nat
        /\ after (propertyController'.getTrendingProperties E now req db) = db).
Proof.
  intros _ _ _ _.
  assert (Hlimit : propertyController'.parseIntOrElse 6 (Obj.get "limit" (query req)) <> 0%Z)
    by (apply parseIntOrElse_nonzero; discriminate).
  split; eexists; (split; [reflexivity | split; [ | reflexivity]]);
    now apply findLimit_length.
Qed.

Lemma listing_controllers_answer_witness :
  absentOrDecimal (Obj.get "limit" (query limitedRequest)) = true
  /\ int32 (propertyController'.parseIntOrElse 6 (Obj.get "limit" (query limitedRequest)))
  /\ validDate
       (monthLater
        - propertyController'.parseIntOrElse 7 (Obj.get "days" (query limitedRequest)) * day)
  /\ exists ps,
       result (propertyController'.getTrendingProperties plainEngine monthLater limitedRequest
                 dbTrend)
       = Returned (mkResponse 200 true None []
                     (Some (propertyController'.mkListing ps (List.length ps))))
       /\ List.length ps = 1%nat.
Proof.
  assert (Hlimit : int32 (propertyController'.parseIntOrElse 6
                            (Obj.get "limit" (query limitedRequest)))) by reflexivity.
  assert (Hdate : validDate
                    (monthLater
                     - propertyController'.parseIntOrElse 7
                         (Obj.get "days" (query limitedRequest)) * day)) by discriminate.
  split; [reflexivity | ]. split; [exact Hlimit | ]. split; [exact Hdate | ].
  destruct (listing_controllers_answer plainEngine monthLater limitedRequest dbTrend
              eq_refl eq_refl Hlimit Hdate)
    as (_ & ps & Hr & Hlen & _).
  exists ps. split; [exact Hr | ].
  assert (Hone : exists p, ps = [p]).
  { revert Hr. vm_compute. intros Hr. inversion Hr. eauto. }
  destruct Hone as (p & ->). reflexivity.
Defined.

(** X22: the search controller never throws and never writes: it
    answers 200 with the result of the search, or 500 with a message and
    no data. *)
Theorem searchController_answers {R : Rounding} (E : Engine)
    (parseFeatures : string -> option SearchParams.Features) (req : Request) (db : Db) :
  after (searchController.searchProperties E parseFeatures req db) = db
  /\ ((exists r, result (searchController.searchProperties E parseFeatures req db)
                 = Returned (mkResponse 200 true None [] (Some r)))
      \/ (exists message,
            result (searchController.searchProperties E parseFeatures req db)
            = Returned (mkResponse 500 false (Some message) [] None)
            /\ message <> "")).
Proof.
  split.
  - revert db. apply reads_catch; [ | intros e; apply reads_ret].
    apply reads_bind.
    + destruct (JS.truthy _); [ | apply reads_ret].
      destruct (parseFeatures _); [apply reads_ret | apply reads_throw].
    + intros features. apply reads_bind; [ | intros r; apply reads_ret].
      intros d. apply searchProperties_reads.
  - unfold searchController.searchProperties, catch, bind.
    cbn [result after calls].
    set (features := if JS.truthy _ then _ else _).
    assert (Hmsg : forall e, messageOr "Search failed" e <> "").
    { intros e. unfold messageOr. destruct (String.eqb_spec e ""); [discriminate | assumption]. }
    destruct (result (features db)) as [f | e] eqn:Hf; cbn [result after calls].
    + match goal with
      | |- context [searchService.searchProperties E ?sp ?d] =>
          destruct (result (searchService.searchProperties E sp d)) as [r | e] eqn:Hr
      end; cbn [result after calls ret].
      * left. eauto.
      * right. eauto.
    + right. cbn [ret result]. eauto.
Qed.

(** * More of the validators *)

Lemma get_set_present {A} (k k' : string) (a : A) (o : Obj.t A) :
  Obj.get k o = Some a -> Obj.get k' (Obj.set k a o) = Obj.get k' o.
Proof.
  intros Hget. destruct (String.eqb k' k) eqn:Hk.
  - apply String.eqb_eq in Hk. subst k'. rewrite get_set_same. now symmetry.
  - now apply get_set_other.
Qed.

(** Without a sanitizer the value of the field stays as it is. *)
Lemma runSteps_untrimmed (field : string) (ss : list validator.Step) (value : string)
    (q : Obj.t string) :
  forallb (fun s => match s with validator.trim => false | _ => true end) ss = true ->
  fst (validator.runSteps field ss value q) = value.
Proof.
  induction ss as [ | s ss IH]; simpl; [reflexivity | ].
  destruct s as [ | test message | test message]; [discriminate | | ]; intros Hss;
    specialize (IH Hss);
    destruct (validator.runSteps field ss value q) as [v es]; exact IH.
Qed.

(** A chain changes the field it names only, and that one only with a
    sanitizer. *)
Lemma runChain_get (c : validator.Chain) (q : Obj.t string) (k : string) :
  String.eqb k (validator.chainField c) = false \/ untrimmed c = true ->
  Obj.get k (fst (validator.runChain c q)) = Obj.get k q.
Proof.
  intros Hkeeps. unfold validator.runChain.
  destruct (Obj.get (validator.chainField c) q) as [value | ] eqn:Hget; [ | reflexivity].
  pose proof (runSteps_untrimmed (validator.chainField c) (validator.steps c) value q) as Hv.
  destruct (validator.runSteps (validator.chainField c) (validator.steps c) value q)
    as [v es].
  cbn [fst] in *. destruct Hkeeps as [Hother | Hun].
  - now apply get_set_other.
  - rewrite (Hv Hun). now apply get_set_present.
Qed.

Lemma runChains_get (cs : list validator.Chain) (q : Obj.t string) (k : string) :
  forallb (fun c => negb (String.eqb k (validator.chainField c)) || untrimmed c) cs = true ->
  Obj.get k (fst (validator.runChains cs q)) = Obj.get k q.
Proof.
  revert q. induction cs as [ | c cs IH]; intros q; simpl; [reflexivity | ].
  intros Hall. apply andb_true_iff in Hall. destruct Hall as [Hc Hcs].
  pose proof (runChain_get c q k) as Hq.
  destruct (validator.runChain c q) as [q1 es1].
  specialize (IH q1 Hcs).
  destruct (validator.runChains cs q1) as [q2 es2].
  cbn [fst] in *. rewrite IH. apply Hq.
  apply orb_true_iff in Hc. destruct Hc as [Hc | Hc]; [left | now right].
  now apply negb_true_iff.
Qed.

(** The errors of a chain are among the errors of the chains it is one
    of. *)
Lemma runChains_errors (cs1 cs2 : list validator.Chain) (c : validator.Chain)
    (q : Obj.t string) (e : FieldError) :
  In e (snd (validator.runChain c (fst (validator.runChains cs1 q)))) ->
  In e (snd (validator.runChains (cs1 ++ c :: cs2) q)).
Proof.
  revert q. induction cs1 as [ | c1 cs1 IH]; intros q; simpl.
  - destruct (validator.runChain c q) as [q1 es1].
    destruct (validator.runChains cs2 q1) as [q2 es2].
    cbn [snd]. intros He. apply in_or_app. now left.
  - destruct (validator.runChain c1 q) as [q1 es1].
    specialize (IH q1).
    destruct (validator.runChains cs1 q1) as [q2 es2].
    destruct (validator.runChains (cs1 ++ c :: cs2) q1) as [q3 es3].
    cbn [fst snd] in *. intros He. apply in_or_app. right. now apply IH.
Qed.

(** An upper bound below the lower bound of the request fails the
    custom validator of its chain. *)
Lemma notBelow_error (field lower message : string) (ss : list validator.Step)
    (q : Obj.t string) (lows highs : string) (low high : Z) :
  Obj.get field q = Some highs ->
  Obj.get lower q = Some lows ->
  lows <> "" ->
  Str.parseInt lows = Some low ->
  Str.parseInt highs = Some high ->
  (high < low)%Z ->
  forallb (fun s => match s with validator.trim => false | _ => true end) ss = true ->
  In (mkFieldError field message highs)
    (snd (validator.runChain
            (validator.mkChain field
               (ss ++ [validator.custom (propertyValidator.notBelow lower) message]))
            q)).
Proof.
  intros Hhigh Hlow Hne Hplow Hphigh Hlt Hss. unfold validator.runChain.
  cbn [validator.chainField validator.steps]. rewrite Hhigh.
  assert (Hgen : In (mkFieldError field message highs)
                   (snd (validator.runSteps field
                           (ss ++ [validator.custom (propertyValidator.notBelow lower) message])
                           highs q))).
  { induction ss as [ | s ss IH]; simpl.
    - unfold propertyValidator.notBelow. rewrite Hlow.
      rewrite (truthy_nonempty lows Hne). cbn [parseIntOf]. rewrite Hphigh, Hplow.
      replace (high <? low)%Z with true by (symmetry; now apply Z.ltb_lt).
      now left.
    - simpl in Hss. destruct s as [ | test m | test m]; [discriminate | | ];
        specialize (IH Hss);
        destruct (validator.runSteps field _ highs q) as [v es];
        cbn [snd] in *; destruct (test _); try destruct (test _ _); auto; now right. }
  destruct (validator.runSteps field _ highs q) as [v es]. exact Hgen.
Qed.

(** X23: [validateSearchProperties] reports every search whose
    [maxBedrooms] is below its [minBedrooms], both written in decimal
    digits, with the error of the field [maxBedrooms], whatever else the
    request holds. *)
Theorem search_rejects_inverted_bedrooms (q : Obj.t string) (lows highs : string)
    (low high : Z) :
  Obj.get "minBedrooms" q = Some lows ->
  Obj.get "maxBedrooms" q = Some highs ->
  decimal lows = true ->
  decimal highs = true ->
  Str.parseInt lows = Some low ->
  Str.parseInt highs = Some high ->
  (high < low)%Z ->
  In (mkFieldError "maxBedrooms" "Maximum bedrooms must be greater than minimum bedrooms"
        highs)
    (snd (validator.runChains propertyValidator.validateSearchProperties q)).
Proof.
  intros Hlow Hhigh Hdlow _ Hplow Hphigh Hlt. apply decimal_nonempty in Hdlow.
  unfold propertyValidator.validateSearchProperties.
  match goal with
  | |- context [validator.runChains (?c1 :: ?c2 :: ?c3 :: ?c4 :: ?c5 :: ?c6 :: ?rest)] =>
      change (c1 :: c2 :: c3 :: c4 :: c5 :: c6 :: rest)
        with ([c1; c2; c3; c4; c5] ++ c6 :: rest)
  end.
  apply runChains_errors.
  apply (notBelow_error "maxBedrooms" "minBedrooms" _
           [validator.check (Str.isInt (Some 0%Z) (Some 20%Z))
              "Maximum bedrooms must be between 0 and 20"]
           _ lows highs low high); try assumption; try reflexivity.
  - rewrite runChains_get by reflexivity. exact Hhigh.
  - rewrite runChains_get by reflexivity. exact Hlow.
Qed.

Lemma search_rejects_inverted_bedrooms_witness :
  Obj.get "minBedrooms" (query invertedBedroomRange) = Some "3"
  /\ Obj.get "maxBedrooms" (query invertedBedroomRange) = Some "2"
  /\ decimal "3" = true
  /\ decimal "2" = true
  /\ In (mkFieldError "maxBedrooms" "Maximum bedrooms must be greater than minimum bedrooms"
           "2")
       (snd (validator.runChains propertyValidator.validateSearchProperties
               (query invertedBedroomRange))).
Proof.
  repeat (split; [reflexivity | ]).
  apply (search_rejects_inverted_bedrooms (query invertedBedroomRange) "3" "2" 3 2);
    reflexivity.
Defined.

(** X24: [validateGetAllProperties] reports every request whose
    [maxPrice] is below its [minPrice], both written in decimal digits,
    with the error of the field [maxPrice], whatever else the request
    holds. *)
Theorem getAll_rejects_inverted_prices (q : Obj.t string) (lows highs : string)
    (low high : Z) :
  Obj.get "minPrice" q = Some lows ->
  Obj.get "maxPrice" q = Some highs ->
  decimal lows = true ->
  decimal highs = true ->
  Str.parseInt lows = Some low ->
  Str.parseInt highs = Some high ->
  (high < low)%Z ->
  In (mkFieldError "maxPrice" "Maximum price must be greater than minimum price" highs)
    (snd (validator.runChains propertyValidator.validateGetAllProperties q)).
Proof.
  intros Hlow Hhigh Hdlow _ Hplow Hphigh Hlt. apply decimal_nonempty in Hdlow.
  unfold propertyValidator.validateGetAllProperties.
  match goal with
  | |- context [validator.runChains (?c1 :: ?c2 :: ?c3 :: ?c4 :: ?c5 :: ?rest)] =>
      change (c1 :: c2 :: c3 :: c4 :: c5 :: rest) with ([c1; c2; c3; c4] ++ c5 :: rest)
  end.
  apply runChains_errors.
  apply (notBelow_error "maxPrice" "minPrice" _
           [validator.check Str.isNumeric "Maximum price must be a number"]
           _ lows highs low high); try assumption; try reflexivity.
  - rewrite runChains_get by reflexivity. exact Hhigh.
  - rewrite runChains_get by reflexivity. exact Hlow.
Qed.

Lemma getAll_rejects_inverted_prices_witness :
  Obj.get "minPrice" (query invertedPriceRange) = Some "10000000"
  /\ Obj.get "maxPrice" (query invertedPriceRange) = Some "5000000"
  /\ decimal "10000000" = true
  /\ decimal "5000000" = true
  /\ In (mkFieldError "maxPrice" "Maximum price must be greater than minimum price" "5000000")
       (snd (validator.runChains propertyValidator.validateGetAllProperties
               (query invertedPriceRange))).
Proof.
  repeat (split; [reflexivity | ]).
  apply (getAll_rejects_inverted_prices (query invertedPriceRange) "10000000" "5000000"
           10000000 5000000);
    reflexivity.
Defined.

(** * The price bands *)

Section PriceBands.
Variable E : Engine.

Lemma categoryQuery_value (c : searchService'.Category) :
  searchService'.categoryQuery c
  = [("isActive", CEq (VBool true));
     ("status", CEq (VStr "active"));
     ("price",
      COps (("$gte", VNum (searchService'.min c))
            :: match searchService'.max c with
               | Some m => if Qeq_bool m 0 then [] else [("$lte", VNum m)]
               | None => []
               end))].
Proof.
  unfold searchService'.categoryQuery.
  destruct (searchService'.max c) as [m | ]; [destruct (Qeq_bool m 0) | ]; reflexivity.
Qed.

Lemma categoryQuery_inBand (c : searchService'.Category) (p : Property.t) :
  matches (propertyDoc E p) (searchService'.categoryQuery c) = inBand c p.
Proof.
  rewrite categoryQuery_value. unfold inBand, onTheMarket, matches.
  cbn [forallb clauseHolds fst snd].
  change (field (propertyDoc E p) "isActive") with (VBool (Property.isActive p)).
  change (field (propertyDoc E p) "status") with (VStr (Property.status p)).
  change (field (propertyDoc E p) "price") with (VNum (Property.price p)).
  cbn [valueEq]. rewrite opHolds_gte, !andb_true_r.
  destruct (searchService'.max c) as [m | ]; [destruct (Qeq_bool m 0) | ];
    cbn [forallb fst snd orb]; rewrite ?opHolds_lte, ?andb_true_r;
    destruct (Property.isActive p); cbn [Bool.eqb andb]; rewrite ?andb_assoc;
    reflexivity.
Qed.

Lemma all_counts (cs : list searchService'.Category) (db : Db) :
  result
    (searchService'.all
       (fun category =>
          count <- Property_countDocuments E (searchService'.categoryQuery category) ;;
          ret (searchService'.mkCounted category count))
       cs db)
  = Returned
      (map (fun c =>
              searchService'.mkCounted c (List.length (filter (inBand c) (properties db))))
         cs)
  /\ after
       (searchService'.all
          (fun category =>
             count <- Property_countDocuments E (searchService'.categoryQuery category) ;;
             ret (searchService'.mkCounted category count))
          cs db)
     = db.
Proof.
  induction cs as [ | c cs [IHr IHa]]; [split; reflexivity | ].
  cbn [searchService'.all].
  set (rest := searchService'.all _ cs) in *.
  unfold bind, Property_countDocuments, ret. cbn [result after calls].
  rewrite IHr, IHa. cbn [result after calls map]. split; [ | reflexivity].
  rewrite (filter_ext_eq _ (inBand c)) by (intros p; apply categoryQuery_inBand).
  reflexivity.
Qed.

Lemma Qle_bool_true (a b : Q) : a <= b -> Qle_bool a b = true.
Proof. apply Qle_bool_iff. Qed.

Lemma Qle_bool_false (a b : Q) : b < a -> Qle_bool a b = false.
Proof.
  intros Hlt. destruct (Qle_bool a b) eqn:Hle; [ | reflexivity].
  apply Qle_bool_iff in Hle. exfalso. lra.
Qed.

Lemma Qeq_bool_true (a b : Q) : a == b -> Qeq_bool a b = true.
Proof. apply Qeq_bool_iff. Qed.

Lemma Qeq_bool_false (a b : Q) : ~ a == b -> Qeq_bool a b = false.
Proof.
  intros Hneq. destruct (Qeq_bool a b) eqn:Heq; [ | reflexivity].
  apply Qeq_bool_iff in Heq. contradiction.
Qed.

(** Every comparison of the goal, decided from the hypotheses. *)
Ltac decide_comparisons :=
  repeat match goal with
         | |- context [Qle_bool ?a ?b] =>
             first [ rewrite (Qle_bool_true a b) by lra
                   | rewrite (Qle_bool_false a b) by lra ]
         | |- context [Qeq_bool ?a ?b] =>
             first [ rewrite (Qeq_bool_true a b) by lra
                   | rewrite (Qeq_bool_false a b) by lra ]
         end.

(** In how many bands a listing is counted: in one when its price is
    not negative, and in one more when its price is where two bands
    meet. *)
Lemma bands_of_listing (p : Property.t) :
  list_sum (map (fun c => Nat.b2n (inBand c p)) searchService'.categories)
  = (Nat.b2n (onTheMarket p && Qle_bool 0 (Property.price p))
     + Nat.b2n (onTheMarket p && atBandEdge p))%nat.
Proof.
  unfold inBand, atBandEdge, bandEdges, searchService'.categories.
  cbn [map list_sum searchService'.min searchService'.max existsb].
  destruct (onTheMarket p); [ | reflexivity]. cbn [andb].
  generalize (Property.price p). intros x.
  destruct (Q_dec x 0) as [[H0 | H0] | H0];
    destruct (Q_dec x 5000000) as [[H1 | H1] | H1]; try (exfalso; lra);
    destruct (Q_dec x 7500000) as [[H2 | H2] | H2]; try (exfalso; lra);
    destruct (Q_dec x 10000000) as [[H3 | H3] | H3]; try (exfalso; lra);
    destruct (Q_dec x 20000000) as [[H4 | H4] | H4]; try (exfalso; lra);
    decide_comparisons; reflexivity.
Qed.

Lemma filter_cons_length {A} (f : A -> bool) (a : A) (l : list A) :
  List.length (filter f (a :: l)) = (Nat.b2n (f a) + List.length (filter f l))%nat.
Proof. simpl. destruct (f a); reflexivity. Qed.

Lemma bands_of_listings (ps : list Property.t) :
  list_sum (map (fun c => List.length (filter (inBand c) ps)) searchService'.categories)
  = (List.length (filter (fun p => onTheMarket p && Qle_bool 0 (Property.price p)) ps)
     + List.length (filter (fun p => onTheMarket p && atBandEdge p) ps))%nat.
Proof.
  induction ps as [ | p ps IH]; [reflexivity | ].
  pose proof (bands_of_listing p) as Hp.
  unfold searchService'.categories in *. cbn [map list_sum fold_right] in *.
  rewrite !filter_cons_length. cbv beta. lia.
Qed.

(** X25: [getPriceRangeCategories] never fails and never writes; it
    returns the five bands in their order, each with its count.  The
    bounds of a band are both inclusive, so a listing priced where two
    bands meet is counted in both: the counts add up to the number of
    listings on the market whose price is not negative, plus the number of
    those priced at 50 lakhs, 75 lakhs, 1 crore or 2 crore. *)
Theorem price_bands_overlap (db : Db) :
  exists rows,
    result (searchService'.getPriceRangeCategories E db) = Returned rows
    /\ after (searchService'.getPriceRangeCategories E db) = db
    /\ map searchService'.category rows = searchService'.categories
    /\ list_sum (map searchService'.count rows)
       = (List.length
            (filter (fun p => onTheMarket p && Qle_bool 0 (Property.price p)) (properties db))
          + List.length
              (filter (fun p => onTheMarket p && atBandEdge p) (properties db)))%nat.
Proof.
  destruct (all_counts searchService'.categories db) as [Hr Ha].
  exists (map (fun c =>
                 searchService'.mkCounted c
                   (List.length (filter (inBand c) (properties db))))
            searchService'.categories).
  unfold searchService'.getPriceRangeCategories, rethrow.
  rewrite Hr. split; [exact Hr | ]. split; [exact Ha | ].
  rewrite !map_map. cbn [searchService'.category searchService'.count].
  split; [apply map_id | apply bands_of_listings].
Qed.
End PriceBands.

(** * The rows of the trending pipeline *)

Lemma StronglySorted_map {A B} (le : B -> B -> Prop) (f : A -> B) (l : list A) :
  StronglySorted (fun x y => le (f x) (f y)) l -> StronglySorted le (map f l).
Proof.
  intros Hl. induction Hl as [ | a l Hl IH Ha]; simpl; constructor; [exact IH | ].
  apply Forall_forall. intros b Hb. apply in_map_iff in Hb.
  destruct Hb as (x & <- & Hx). exact (proj1 (Forall_forall _ _) Ha x Hx).
Qed.

Lemma lookupSeller_at_most_one (us : list User) (p : Property.t) :
  NoDup (map userId us) -> (List.length (aggregations.lookupSeller us p) <= 1)%nat.
Proof.
  unfold aggregations.lookupSeller. rewrite length_map.
  induction us as [ | u us IH]; simpl; intros Hnodup; [lia | ].
  inversion Hnodup as [ | id ids Hnotin Hnodup']; subst.
  destruct (Nat.eqb (userId u) (Property.seller p)) eqn:Hid; [ | now apply IH].
  apply Nat.eqb_eq in Hid. simpl.
  rewrite filter_none_In; [simpl; lia | ].
  intros w Hw. apply Nat.eqb_neq. intros Heq. apply Hnotin.
  rewrite Hid, <- Heq. now apply in_map.
Qed.

Lemma flat_map_at_most_one {A B} (f : A -> list B) (l : list A) :
  (forall a, (List.length (f a) <= 1)%nat) ->
  (List.length (flat_map f l) <= List.length l)%nat.
Proof.
  intros Hf. induction l as [ | a l IH]; simpl; [lia | ].
  rewrite length_app. specialize (Hf a). lia.
Qed.

(** X26: with one user per id, a positive limit of 32 bits and a window
    that starts at a valid date, the trending pipeline returns at most
    [limit] rows, by falling trend score; each is an active listing of the
    collection joined with the user that is its seller, and a listing whose
    seller is not among the users has no row. *)
Theorem trendingPipeline_rows (E : Engine) (now : Date) (days limit : Z) (db : Db) :
  (0 < limit)%Z ->
  int32 limit ->
  validDate (now - days * day) ->
  NoDup (map userId (users db)) ->
  exists rows,
    result (aggregations.trendingPropertiesPipeline E now days limit db) = Returned rows
    /\ (List.length rows <= Z.to_nat limit)%nat
    /\ StronglySorted (fun a b => (rowScore b <= rowScore a)%Z) rows
    /\ Forall (fun row =>
                 exists p u,
                   row = aggregations.project p u
                   /\ In p (properties db)
                   /\ Property.isActive p = true
                   /\ In u (users db)
                   /\ userId u = Property.seller p) rows.
Proof.
  intros Hlimit _ _ Hnodup. unfold aggregations.trendingPropertiesPipeline.
  replace (limit <=? 0)%Z with false by (symmetry; apply Z.leb_gt; exact Hlimit).
  eexists. split; [reflexivity | ].
  set (ranked := aggregations.trendingRanked E now days limit (properties db)).
  split; [ | split].
  - rewrite length_map.
    eapply Nat.le_trans;
      [apply flat_map_at_most_one; intros p; now apply lookupSeller_at_most_one | ].
    apply firstn_le_length.
  - apply StronglySorted_map.
    apply (StronglySorted_flat_map
             (fun a b => (aggregations.trendScore b <= aggregations.trendScore a)%Z) fst).
    + intros p. apply Z.le_refl.
    + intros p pu Hpu. unfold aggregations.lookupSeller in Hpu.
      apply in_map_iff in Hpu. destruct Hpu as (u & <- & _). reflexivity.
    + apply trendingRanked_sorted.
  - apply Forall_forall. intros row Hrow.
    apply in_map_iff in Hrow. destruct Hrow as ([p u] & <- & Hpu).
    apply in_flat_map in Hpu. destruct Hpu as (p' & Hp' & Hpu).
    unfold aggregations.lookupSeller in Hpu.
    apply in_map_iff in Hpu. destruct Hpu as (u' & Heq & Hu).
    inversion Heq; subst p' u'. apply filter_In in Hu. destruct Hu as [Hu Hid].
    apply Nat.eqb_eq in Hid.
    destruct (trendingRanked_members E now days limit (properties db) p Hp')
      as (Hin & Hactive & _).
    exists p, u. cbn [fst snd]. auto.
Qed.

Lemma trendingPipeline_rows_witness :
  (0 < 10)%Z
  /\ int32 10
  /\ validDate (monthLater - 7 * day)
  /\ NoDup (map userId (users dbTrend))
  /\ exists rows,
       result (aggregations.trendingPropertiesPipeline plainEngine monthLater 7 10 dbTrend)
       = Returned rows
       /\ (List.length rows <= Z.to_nat 10)%nat.
Proof.
  assert (Hnodup : NoDup (map userId (users dbTrend))).
  { repeat constructor; simpl; intuition discriminate. }
  assert (Hlimit : int32 10) by reflexivity.
  assert (Hdate : validDate (monthLater - 7 * day)) by discriminate.
  split; [reflexivity | ]. split; [exact Hlimit | ]. split; [exact Hdate | ].
  split; [exact Hnodup | ].
  destruct (trendingPipeline_rows plainEngine monthLater 7 10 dbTrend eq_refl Hlimit Hdate
              Hnodup)
    as (rows & Hr & Hlen & _).
  exists rows. split; [exact Hr | exact Hlen].
Defined.

(** * Similar listings and text search *)

(** X29: [GET /api/properties/:id/similar] never throws and never
    writes.  For a [limit] that is absent or written in decimal digits,
    of 32 bits, it answers 200 with listings similar to the listing of the
    id, at most as many as the limit (4 when the limit is missing or 0);
    when no listing has the id, or the id is not one, it answers 404. *)
Theorem similar_controller_answers {R : Rounding} (E : Engine) (req : Request) (db : Db) :
  absentOrDecimal (Obj.get "limit" (query req)) = true ->
  int32 (propertyController'.parseIntOrElse 4 (Obj.get "limit" (query req))) ->
  after (propertyController'.getSimilarProperties E req db) = db
  /\ match castObjectId (searchService.strOf (Obj.get "id" (params req))) with
     | Some id =>
         match find (hasId id) (properties db) with
         | Some reference =>
             exists ps,
               result (propertyController'.getSimilarProperties E req db)
               = Returned (mkResponse 200 true None []
                             (Some (propertyController'.mkListing ps (List.length ps))))
               /\ (List.length ps
                   <= Z.abs_nat (propertyController'.parseIntOrElse 4
                                   (Obj.get "limit" (query req))))%nat
               /\ Forall (fun p => In p (properties db) /\ similarTo reference p = true) ps
         | None =>
             result (propertyController'.getSimilarProperties E req db)
             = Returned (mkResponse 404 false
                           (Some "Failed to fetch similar properties: Property not found")
                           [] None)
         end
     | None =>
         exists message,
           result (propertyController'.getSimilarProperties E req db)
           = Returned (mkResponse 404 false (Some message) [] None)
     end.
Proof.
  intros _ _.
  assert (Hlimit : propertyController'.parseIntOrElse 4 (Obj.get "limit" (query req)) <> 0%Z)
    by (apply parseIntOrElse_nonzero; discriminate).
  split.
  - revert db. apply reads_catch; [ | intros e; apply reads_ret].
    apply reads_bind; [ | intros ps; apply reads_ret].
    destruct (castObjectId _) as [id | ]; [ | apply reads_throw].
    intros d. apply getSimilarProperties_reads.
  - unfold propertyController'.getSimilarProperties, catch, bind.
    destruct (castObjectId _) as [id | ]; [ | eexists; reflexivity].
    rewrite (getSimilarProperties_result E id _ db).
    destruct (find (hasId id) (properties db)) as [reference | ]; [ | reflexivity].
    cbn [result after calls ret]. eexists. split; [reflexivity | ]. split.
    + now apply findLimit_length.
    + apply Forall_forall. intros p Hp. apply In_findLimit in Hp.
      now apply filter_In in Hp.
Qed.

Lemma similar_controller_answers_witness :
  absentOrDecimal (Obj.get "limit" (query similarRequest)) = true
  /\ int32 (propertyController'.parseIntOrElse 4 (Obj.get "limit" (query similarRequest)))
  /\ result (propertyController'.getSimilarProperties (R := exact_rounding) plainEngine
               similarRequest dbSimilar)
     = Returned (mkResponse 200 true None []
                   (Some (propertyController'.mkListing [dearerFlat; samePriceFlat] 2)))
  /\ after (propertyController'.getSimilarProperties (R := exact_rounding) plainEngine
              similarRequest dbSimilar)
     = dbSimilar.
Proof.
  assert (Hlimit : int32 (propertyController'.parseIntOrElse 4
                            (Obj.get "limit" (query similarRequest)))) by reflexivity.
  split; [reflexivity | ]. split; [exact Hlimit | ]. split; [reflexivity | ].
  apply (similar_controller_answers (R := exact_rounding) plainEngine similarRequest
           dbSimilar eq_refl Hlimit).
Defined.

Lemma buildFilter_text (sp : SearchParams.t) :
  JS.truthy (SearchParams.query sp)
  && JS.truthy (searchService.trimmed (SearchParams.query sp)) = true ->
  Obj.get "$text" (searchService.buildFilter sp)
  = Some (CText (Str.trim (searchService.strOf (SearchParams.query sp)))).
Proof. intros Hc. last_assignment. rewrite Hc. apply get_assign_same. Qed.

Lemma findSorted_relevance (E : Engine) (filter : Query) (ps : list Property.t) :
  StronglySorted
    (fun a b => textScore E (searchText filter) b <= textScore E (searchText filter) a)
    (findSorted E filter (Obj.literal [("score", MetaTextScore)]) ps).
Proof.
  unfold findSorted, sortDocs.
  rewrite (sortBy_ext _ (descending _ (textScore E (searchText filter))))
    by (intros a b; unfold descending; cbn;
        destruct (textScore E (searchText filter) a ?= textScore E (searchText filter) b);
        reflexivity).
  apply sortBy_descending.
Qed.

(** X30: a search with a text of ASCII characters that is not blank
    returns listings that the text index matches for the trimmed text
    only; sorted by relevance, which is the default, they come by falling
    text score of that text. *)
Theorem search_text_relevance {R : Rounding} (E : Engine) (sp : SearchParams.t) (db : Db)
    (r : searchService.SearchResult) (q : string) :
  SearchParams.query sp = Some q ->
  asciiOnly q = true ->
  Str.trim q <> "" ->
  result (searchService.searchProperties E sp db) = Returned r ->
  Forall (fun p => textSearch E (Str.trim q) p = true) (searchService.found r)
  /\ (SearchParams.sortBy sp = None \/ SearchParams.sortBy sp = Some "relevance" ->
      StronglySorted
        (fun a b => textScore E (Str.trim q) b <= textScore E (Str.trim q) a)
        (searchService.found r)).
Proof.
  intros Hq _ Hne Hr.
  assert (Hc : JS.truthy (SearchParams.query sp)
               && JS.truthy (searchService.trimmed (SearchParams.query sp)) = true).
  { rewrite Hq. cbn [searchService.trimmed].
    rewrite (truthy_nonempty _ Hne), andb_true_r. apply truthy_nonempty.
    intros ->. now apply Hne. }
  pose proof (buildFilter_text sp Hc) as Htext.
  rewrite Hq in Htext. cbn [searchService.strOf] in Htext.
  split.
  - apply Forall_forall. intros p Hp.
    destruct (found_matches E sp db r p Hr Hp) as [_ Hm].
    exact (matches_get _ _ _ _ Hm Htext).
  - intros Hmode.
    apply (page_sorted E _ sp db r); [ | exact Hr].
    unfold fullResults.
    assert (Hsort : searchService.buildSort sp = Obj.literal [("score", MetaTextScore)]).
    { unfold searchService.buildSort. rewrite Hc.
      destruct Hmode as [-> | ->]; reflexivity. }
    rewrite Hsort.
    replace (Str.trim q) with (searchText (searchService.buildFilter sp))
      by (unfold searchText; now rewrite Htext).
    apply findSorted_relevance.
Qed.

Lemma search_text_relevance_witness :
  SearchParams.query textSearchParams = Some " villa "
  /\ asciiOnly " villa " = true
  /\ exists r,
       result (searchService.searchProperties (R := exact_rounding) titleEngine
                 textSearchParams dbTrend)
       = Returned r
       /\ map Property._id (searchService.found r) = [30%nat]
       /\ Forall (fun p => textSearch titleEngine "villa" p = true) (searchService.found r).
Proof.
  split; [reflexivity | ]. split; [reflexivity | ].
  eexists. split; [reflexivity | ]. split; [reflexivity | ].
  apply (search_text_relevance (R := exact_rounding) titleEngine textSearchParams dbTrend _
           " villa " eq_refl eq_refl); [discriminate | reflexivity].
Defined.
